(** * Syntra backend: response parsing, diagram validation/repair, assembly

    A shallow embedding of the backend of the repository:

    - [src/backend/src/index.js] (the request handler, [buildPrompt],
      [extractText], [validateAndFixDiagrams]);
    - [src/unnamed/part_000], which holds a second revision of the same
      [index.js] (with request logging and a lenient treatment of a missing
      [diagrams] field) followed by [validate-diagrams.js]
      ([initMermaid], [validateMermaid], [validatePlantUML]);
    - [src/frontend/src/App.jsx] and its earlier revision in
      [src/unnamed/part_001]: the caller of the handler ([analyzeFile]),
      the code renderer of [MarkdownPanel] and the theme of
      [PlantUmlDiagram].

    The two revisions of [index.js] agree, up to logging, on [extractText],
    on the loop of [validateAndFixDiagrams] and on the reassembly of the
    markdown; they differ in the fixed lines of [buildPrompt] and in the
    structural check of the parsed response.  Shared code is embedded once,
    the two differing pieces once per revision (modules [BackendIndex] and
    [Part000]).

    JavaScript strings are modelled by [string]; one [ascii] stands for one
    UTF-16 code unit (the code units below 256).  Values produced by
    [JSON.parse] and the envelopes of the OpenAI client are modelled by
    [jsval].  The Mermaid parser, the PlantUML server and the OpenAI client
    are oracles threaded through an explicit world state, and every call
    of one of them is recorded in a trace of events. *)

From Stdlib Require Import String Ascii List ZArith Lia Bool.
From Stdlib Require Import DecimalString DecimalPos DecimalZ.
Import ListNotations.
Local Open Scope string_scope.

Set Implicit Arguments.
Set Warnings "-abstract-large-number".

(* ================================================================== *)
(** * JavaScript strings *)
(* ================================================================== *)

Module JsString.

(** White space and line terminators removed by [String.prototype.trim],
    among the code units below 256: TAB, LF, VT, FF, CR, SP, NBSP. *)
Definition isWhiteSpace (c : ascii) : bool :=
  let n := nat_of_ascii c in
  (n =? 9)%nat || (n =? 10)%nat || (n =? 11)%nat || (n =? 12)%nat ||
  (n =? 13)%nat || (n =? 32)%nat || (n =? 160)%nat.

Fixpoint trimStart (s : string) : string :=
  match s with
  | String c s' => if isWhiteSpace c then trimStart s' else s
  | EmptyString => EmptyString
  end.

Fixpoint trimEnd (s : string) : string :=
  match s with
  | String c s' =>
      match trimEnd s' with
      | EmptyString => if isWhiteSpace c then EmptyString else String c EmptyString
      | t => String c t
      end
  | EmptyString => EmptyString
  end.

(** [s.trim()] *)
Definition trim (s : string) : string := trimEnd (trimStart s).

Definition isEmpty (s : string) : bool :=
  match s with EmptyString => true | _ => false end.

(** [s.slice(0, n)] for [0 <= n] *)
Fixpoint take (n : nat) (s : string) : string :=
  match n, s with
  | S k, String c s' => String c (take k s')
  | _, _ => EmptyString
  end.

Fixpoint drop (n : nat) (s : string) : string :=
  match n, s with
  | S k, String _ s' => drop k s'
  | _, _ => s
  end.

(** [s.startsWith(p)] *)
Fixpoint startsWith (p s : string) : bool :=
  match p, s with
  | EmptyString, _ => true
  | String a p', String b s' => Ascii.eqb a b && startsWith p' s'
  | String _ _, EmptyString => false
  end.

(** The text before and after the first occurrence of [pat] in [s]
    ([s.indexOf(pat)] is the length of the first component). *)
Fixpoint splitFirst (pat s : string) : option (string * string) :=
  if startsWith pat s then Some (EmptyString, drop (String.length pat) s)
  else
    match s with
    | EmptyString => None
    | String c s' =>
        match splitFirst pat s' with
        | Some (before, after) => Some (String c before, after)
        | None => None
        end
    end.

Definition indexOf (pat s : string) : option nat :=
  match splitFirst pat s with
  | Some (before, _) => Some (String.length before)
  | None => None
  end.

(** [s.includes(pat)] *)
Definition includes (pat s : string) : bool :=
  match splitFirst pat s with Some _ => true | None => false end.

(** [parts.join(sep)] on an array of strings *)
Fixpoint join (sep : string) (parts : list string) : string :=
  match parts with
  | [] => EmptyString
  | [x] => x
  | x :: rest => x ++ sep ++ join sep rest
  end.

Definition isDigit (c : ascii) : bool :=
  let n := nat_of_ascii c in (48 <=? n)%nat && (n <=? 57)%nat.

(** The class [\w] of JavaScript regular expressions: [A-Za-z0-9_]. *)
Definition isWordChar (c : ascii) : bool :=
  let n := nat_of_ascii c in
  isDigit c || ((65 <=? n)%nat && (n <=? 90)%nat)
            || ((97 <=? n)%nat && (n <=? 122)%nat) || (n =? 95)%nat.

(** Case folding of the [i] flag on the ASCII letters. *)
Definition toLowerAscii (c : ascii) : ascii :=
  let n := nat_of_ascii c in
  if (65 <=? n)%nat && (n <=? 90)%nat then ascii_of_nat (n + 32) else c.

Fixpoint startsWithNoCase (p s : string) : bool :=
  match p, s with
  | EmptyString, _ => true
  | String a p', String b s' =>
      Ascii.eqb (toLowerAscii a) (toLowerAscii b) && startsWithNoCase p' s'
  | String _ _, EmptyString => false
  end.

(** The longest prefix without a line feed: what [[^\n]*] consumes. *)
Fixpoint restOfLine (s : string) : string :=
  match s with
  | String c s' => if Ascii.eqb c "010" then EmptyString else String c (restOfLine s')
  | EmptyString => EmptyString
  end.

Fixpoint allChars (p : ascii -> bool) (s : string) : bool :=
  match s with
  | String c s' => p c && allChars p s'
  | EmptyString => true
  end.

Definition LF : string := String "010" EmptyString.

End JsString.
Import JsString.

(* ================================================================== *)
(** * JavaScript values and exceptions *)
(* ================================================================== *)

(** Values as [JSON.parse] and the HTTP client produce them, plus
    [undefined].  Numbers are the integers (the placeholder index is the
    only number the backend looks at); an object is its list of
    properties, looked up from the head. *)
#[warnings="-register-all"]
Inductive jsval : Type :=
| JUndefined
| JNull
| JBool (b : bool)
| JNum (n : Z)
| JStr (s : string)
| JArr (elems : list jsval)
| JObj (props : list (string * jsval)).

(** A thrown value, seen through the three reads the catch blocks make of
    it: [error.message], [error.str] and [String(error)]. *)
Record exn : Type := mkExn {
  exn_message : option string;
  exn_str : option string;
  exn_toString : string
}.

Definition TypeError (msg : string) : exn :=
  {| exn_message := Some msg; exn_str := None;
     exn_toString := "TypeError: " ++ msg |}.

(** The result of evaluating code that may throw. *)
Inductive outcome (A : Type) : Type :=
| Ret (a : A)
| Throw (e : exn).
Arguments Ret {A} a.
Arguments Throw {A} e.

Definition obind {A B : Type} (c : outcome A) (k : A -> outcome B) : outcome B :=
  match c with
  | Ret a => k a
  | Throw e => Throw e
  end.

Notation "'let?' x ':=' c 'in' k" := (obind c (fun x => k))
  (at level 10, x name, c at level 100, k at level 200).

Fixpoint omap {A B : Type} (f : A -> outcome B) (l : list A) : outcome (list B) :=
  match l with
  | [] => Ret []
  | x :: rest =>
      let? y := f x in
      let? ys := omap f rest in
      Ret (y :: ys)
  end.

Module Js.

(** [ToBoolean] *)
Definition truthy (v : jsval) : bool :=
  match v with
  | JUndefined | JNull => false
  | JBool b => b
  | JNum n => negb (n =? 0)%Z
  | JStr s => negb (isEmpty s)
  | JArr _ | JObj _ => true
  end.

Definition nullish (v : jsval) : bool :=
  match v with JUndefined | JNull => true | _ => false end.

(** Neither [undefined] nor [null]. *)
Definition present (v : jsval) : bool := negb (nullish v).

(** [a ?? b] *)
Definition coalesce (a b : jsval) : jsval := if nullish a then b else a.

Fixpoint lookup (k : string) (props : list (string * jsval)) : jsval :=
  match props with
  | [] => JUndefined
  | (k', v) :: rest => if String.eqb k k' then v else lookup k rest
  end.

(** [v.k] for a property name [k] that no built-in prototype defines
    (all the names read by the backend are such): the own property of an
    object, [undefined] on any other value, a [TypeError] on [null] and
    [undefined]. *)
Definition getProp (v : jsval) (k : string) : outcome jsval :=
  match v with
  | JUndefined =>
      Throw (TypeError ("Cannot read properties of undefined (reading '" ++ k ++ "')"))
  | JNull =>
      Throw (TypeError ("Cannot read properties of null (reading '" ++ k ++ "')"))
  | JObj props => Ret (lookup k props)
  | _ => Ret JUndefined
  end.

(** [v?.k] *)
Definition getPropOpt (v : jsval) (k : string) : jsval :=
  match v with
  | JObj props => lookup k props
  | _ => JUndefined
  end.

Definition numberToString (n : Z) : string := NilZero.string_of_int (Z.to_int n).

(** [ToString], as applied by template literals and by [Array.join]. *)
Fixpoint toString (v : jsval) : string :=
  match v with
  | JUndefined => "undefined"
  | JNull => "null"
  | JBool true => "true"
  | JBool false => "false"
  | JNum n => numberToString n
  | JStr s => s
  | JArr elems =>
      join "," (map (fun x => match x with
                              | JUndefined | JNull => EmptyString
                              | _ => toString x
                              end) elems)
  | JObj _ => "[object Object]"
  end.

(** One element of [Array.prototype.join]. *)
Definition joinElem (v : jsval) : string :=
  if nullish v then EmptyString else toString v.

(** [arr.join(sep)] *)
Definition arrayJoin (sep : string) (elems : list jsval) : string :=
  join sep (map joinElem elems).

(** [v === 'lit'] *)
Definition strictEqStr (v : jsval) (lit : string) : bool :=
  match v with
  | JStr s => String.eqb s lit
  | _ => false
  end.

(** What [flatMap] appends for one callback result. *)
Definition flatten1 (r : jsval) : list jsval :=
  match r with
  | JArr xs => xs
  | _ => [r]
  end.

End Js.

(* ================================================================== *)
(** * [extractText] *)
(* ================================================================== *)

(** [response.output.flatMap((node) => node.content ?? [])] *)
Definition outputChunks (output : jsval) : outcome (list jsval) :=
  match output with
  | JArr nodes =>
      let? per_node :=
        omap (fun node =>
                let? content := Js.getProp node "content" in
                Ret (Js.flatten1 (Js.coalesce content (JArr [])))) nodes in
      Ret (List.concat per_node)
  | _ => Throw (TypeError "response.output.flatMap is not a function")
  end.

(** [(chunk) => chunk.text?.value ?? chunk.text ?? ''] *)
Definition chunkText (chunk : jsval) : outcome jsval :=
  let? text := Js.getProp chunk "text" in
  Ret (Js.coalesce (Js.coalesce (Js.getPropOpt text "value") text) (JStr "")).

(** [(choice) => choice.message?.content ?? ''] *)
Definition choiceContent (choice : jsval) : outcome jsval :=
  let? message := Js.getProp choice "message" in
  Ret (Js.coalesce (Js.getPropOpt message "content") (JStr "")).

Definition extractText (response : jsval) : outcome string :=
  if negb (Js.truthy response) then Ret ""
  else
    let? output := Js.getProp response "output" in
    if Js.truthy output then
      let? nodes_chunks := outputChunks output in
      let? texts := omap chunkText nodes_chunks in
      let chunks := filter Js.truthy texts in
      Ret (trim (Js.arrayJoin LF chunks))
    else
      let? choices := Js.getProp response "choices" in
      if Js.truthy choices then
        match choices with
        | JArr cs =>
            let? contents := omap choiceContent cs in
            Ret (trim (Js.arrayJoin LF contents))
        | _ => Throw (TypeError "response.choices.map is not a function")
        end
      else Ret "".

(* ================================================================== *)
(** * The world outside the process, and the monad of effects *)
(* ================================================================== *)

(** The body of a call [openai.responses.create({...})]. *)
Record request : Type := mkRequest {
  req_model : string;
  req_temperature_tenths : Z;          (* 2 for 0.2, 1 for 0.1 *)
  req_max_output_tokens : Z;
  req_json_object : bool;              (* text: { format: { type: 'json_object' } } *)
  req_system : string;
  req_user : string
}.

(** What [await fetch(url)] resolves to, with the result of
    [await response.text()]. *)
Record http_response : Type := mkHttpResponse {
  resp_ok : bool;
  resp_status : Z;
  resp_statusText : string;
  resp_text : outcome string
}.

(** The libraries and services the backend calls.  [W] is the state of
    the outside world; an oracle may answer differently each time. *)
Record World (W : Type) : Type := mkWorld {
  mermaid_parse : string -> W -> outcome unit * W;       (* await mermaid.parse(text) *)
  plantuml_encode : string -> string;                    (* encode, of plantuml-encoder *)
  fetch : string -> W -> outcome http_response * W;      (* await fetch(url) *)
  responses_create : request -> W -> outcome jsval * W;  (* await openai.responses.create(req) *)
  JSON_parse : string -> outcome jsval;
  jsonrepair : string -> outcome string
}.

(** [{ valid, error }] as the validators return it ([None] is [null]). *)
Record validation : Type := mkValidation {
  valid : bool;
  error : option string
}.

Inductive grammar : Type := Mermaid | PlantUML.

(** Calls recorded while the backend runs, each with its result. *)
Inductive event : Type :=
| EvMermaidInit
| EvMermaidParse (text : string) (res : outcome unit)
| EvFetch (url : string) (res : outcome http_response)
| EvResponsesCreate (req : request) (res : outcome jsval)
| EvValidate (g : grammar) (definition : jsval) (v : validation).

(** Module-level state of [validate-diagrams.js] and the outside world. *)
Record state (W : Type) : Type := mkState {
  mermaidInitialized : bool;
  world : W
}.

Definition M (W A : Type) : Type := state W -> outcome A * list event * state W.

Definition ret {W A : Type} (a : A) : M W A := fun st => (Ret a, [], st).

Definition bind {W A B : Type} (c : M W A) (k : A -> M W B) : M W B :=
  fun st =>
    match c st with
    | (Ret a, t1, st1) =>
        let '(r, t2, st2) := k a st1 in (r, (t1 ++ t2)%list, st2)
    | (Throw e, t1, st1) => (Throw e, t1, st1)
    end.

(** [try { c } catch (e) { h e }] *)
Definition tryCatch {W A : Type} (c : M W A) (h : exn -> M W A) : M W A :=
  fun st =>
    match c st with
    | (Throw e, t1, st1) =>
        let '(r, t2, st2) := h e st1 in (r, (t1 ++ t2)%list, st2)
    | done => done
    end.

Definition lift {W A : Type} (o : outcome A) : M W A := fun st => (o, [], st).

Definition emit {W : Type} (ev : event) : M W unit := fun st => (Ret tt, [ev], st).

(** Calls an oracle on the world and records the call. *)
Definition call {W A : Type} (oracle : W -> outcome A * W)
    (record : outcome A -> event) : M W A :=
  fun st =>
    let '(r, w') := oracle (world st) in
    (r, [record r], {| mermaidInitialized := mermaidInitialized st; world := w' |}).

Notation "x <- c ;; k" := (bind c (fun x => k))
  (at level 61, c at next level, right associativity).
Notation "c ;;; k" := (bind c (fun _ => k))
  (at level 61, right associativity).

Definition traceOf {W A : Type} (r : outcome A * list event * state W) : list event :=
  snd (fst r).
Definition valueOf {W A : Type} (r : outcome A * list event * state W) : outcome A :=
  fst (fst r).

(* ================================================================== *)
(** * [validate-diagrams.js] *)
(* ================================================================== *)

(** [definition.trim()] on a value that need not be a string. *)
Definition callTrim (definition : jsval) : outcome string :=
  match definition with
  | JStr s => Ret (trim s)
  | JUndefined => Throw (TypeError "Cannot read properties of undefined (reading 'trim')")
  | JNull => Throw (TypeError "Cannot read properties of null (reading 'trim')")
  | _ => Throw (TypeError "definition.trim is not a function")
  end.

(** [a || b] where [a] is a string or [undefined] *)
Definition orElse (a : option string) (b : string) : string :=
  match a with
  | Some s => if isEmpty s then b else s
  | None => b
  end.

(** One attempt of [/cannot [^\n]+|syntax error[^\n]*|Error[^\n]*/i] at the
    head of [s]. *)
Definition matchErrorAt (s : string) : option string :=
  if startsWithNoCase "cannot " s && negb (isEmpty (restOfLine (drop 7 s)))
  then Some (take 7 s ++ restOfLine (drop 7 s))
  else if startsWithNoCase "syntax error" s
  then Some (take 12 s ++ restOfLine (drop 12 s))
  else if startsWithNoCase "Error" s
  then Some (take 5 s ++ restOfLine (drop 5 s))
  else None.

(** [text.match(/cannot [^\n]+|syntax error[^\n]*|Error[^\n]*/i)]: the
    leftmost match, [errorMatch[0]]. *)
Fixpoint matchError (text : string) : option string :=
  match matchErrorAt text with
  | Some m => Some m
  | None =>
      match text with
      | String _ rest => matchError rest
      | EmptyString => None
      end
  end.

Section Validators.
Context {W : Type} (env : World W).

Definition initMermaid : M W unit :=
  fun st =>
    if mermaidInitialized st then (Ret tt, [], st)
    else (Ret tt, [EvMermaidInit],
          {| mermaidInitialized := true; world := world st |}).

Definition validateMermaid (definition : jsval) : M W validation :=
  tryCatch
    (initMermaid ;;;
     trimmed <- lift (callTrim definition) ;;
     if isEmpty trimmed
     then ret {| valid := false; error := Some "Empty Mermaid definition" |}
     else
       call (mermaid_parse env trimmed) (EvMermaidParse trimmed) ;;;
       ret {| valid := true; error := None |})
    (fun error =>
       let errorMsg :=
         orElse (exn_message error)
                (orElse (exn_str error) (exn_toString error)) in
       ret {| valid := false; error := Some errorMsg |}).

Definition validatePlantUML (definition : jsval) : M W validation :=
  tryCatch
    (trimmed <- lift (callTrim definition) ;;
     if isEmpty trimmed
     then ret {| valid := false; error := Some "Empty PlantUML definition" |}
     else
       let encoded := plantuml_encode env trimmed in
       let url := "https://www.plantuml.com/plantuml/txt/" ++ encoded in
       response <- call (fetch env url) (EvFetch url) ;;
       if negb (resp_ok response)
       then ret {| valid := false;
                   error := Some ("HTTP " ++ Js.numberToString (resp_status response)
                                  ++ ": " ++ resp_statusText response) |}
       else
         text <- lift (resp_text response) ;;
         if includes "cannot include" text || includes "syntax error" text ||
            includes "Error" text || includes "^^^^^" text
         then
           let errorMatch := matchError text in
           ret {| valid := false;
                  error := Some (match errorMatch with
                                 | Some m => trim m
                                 | None => "PlantUML syntax error detected"
                                 end) |}
         else ret {| valid := true; error := None |})
    (fun error =>
       ret {| valid := false;
              error := Some (orElse (exn_message error) (exn_toString error)) |}).

End Validators.

(* ================================================================== *)
(** * [validateAndFixDiagrams] *)
(* ================================================================== *)

(** One element of the array [validateAndFixDiagrams] returns. *)
Record result : Type := mkResult {
  res_type : jsval;
  res_code : jsval;
  res_originalPosition : jsval;
  res_valid : bool;
  res_error : option string
}.

(** The loop variables [currentCode], [isValid], [lastError] when the
    [while] loop is left. *)
Record loopExit : Type := mkLoopExit {
  currentCode : jsval;
  isValid : bool;
  lastError : option string
}.

Fixpoint dropWhile (p : ascii -> bool) (s : string) : string :=
  match s with
  | String c s' => if p c then dropWhile p s' else s
  | EmptyString => EmptyString
  end.

(** [.replace(/^```\w*\n/, '')] *)
Definition stripOpeningFence (s : string) : string :=
  if startsWith "```" s then
    match dropWhile isWordChar (drop 3 s) with
    | String "010" rest => rest
    | _ => s
    end
  else s.

(** [.replace(/\n```$/, '')] *)
Fixpoint stripClosingFence (s : string) : string :=
  match s with
  | String c s' =>
      if String.eqb s (LF ++ "```") then EmptyString
      else String c (stripClosingFence s')
  | EmptyString => EmptyString
  end.

(** [fixedCode.replace(/^```\w*\n/, '').replace(/\n```$/, '').trim()] *)
Definition stripFences (fixedCode : string) : string :=
  trim (stripClosingFence (stripOpeningFence fixedCode)).

(** [`${lastError}`] *)
Definition errorToString (e : option string) : string :=
  match e with Some s => s | None => "null" end.

(** The body of the repair call. *)
Definition fixRequest (model : string) (type currentCode : jsval)
    (lastError : option string) : request :=
  {| req_model := model;
     req_temperature_tenths := 1;
     req_max_output_tokens := 1024;
     req_json_object := false;
     req_system :=
       "You are a diagram syntax expert. Fix " ++ Js.toString type ++
       " diagram syntax errors. Return ONLY the corrected diagram code, no explanations, no markdown, no code fences.";
     req_user :=
       "The following " ++ Js.toString type ++ " diagram has a syntax error:" ++
       LF ++ LF ++ Js.toString currentCode ++ LF ++ LF ++
       "Error: " ++ errorToString lastError ++ LF ++ LF ++
       "Provide the corrected diagram code:" |}.

Section RepairLoop.
Context {W : Type} (env : World W).
Variable model : string.

(** The [try] block of the loop: the repair call, [extractText], the
    removal of code fences.  [None] is the [catch] branch. *)
Definition askFix (type currentCode : jsval) (lastError : option string)
  : M W (option jsval) :=
  tryCatch
    (let req := fixRequest model type currentCode lastError in
     fixResponse <- call (responses_create env req) (EvResponsesCreate req) ;;
     text <- lift (extractText fixResponse) ;;
     let fixedCode := trim text in
     ret (Some (JStr (stripFences fixedCode))))
    (fun _ => ret None).

(** The [while (attempts <= maxRetries && !isValid)] loop for one
    diagram.  [retriesLeft] stands for [maxRetries - attempts]: it is
    [maxRetries] on entry and decreases at [attempts++], which the source
    executes only under [attempts < maxRetries]; so the guard
    [attempts <= maxRetries] holds at every loop head, and so does
    [!isValid], since [isValid = true] is always followed by [break]. *)
Fixpoint repairLoop (diagram : jsval) (retriesLeft : nat)
    (currentCode : jsval) (lastError : option string) : M W loopExit :=
  let afterValidation (validation : validation) : M W loopExit :=
    if valid validation then
      ret {| currentCode := currentCode; isValid := true; lastError := lastError |}
    else
      let lastError := error validation in
      match retriesLeft with
      | S retriesLeft' =>
          type <- lift (Js.getProp diagram "type") ;;
          fixed <- askFix type currentCode lastError ;;
          match fixed with
          | Some currentCode' => repairLoop diagram retriesLeft' currentCode' lastError
          | None =>
              ret {| currentCode := currentCode; isValid := false; lastError := lastError |}
          end
      | O =>
          ret {| currentCode := currentCode; isValid := false; lastError := lastError |}
      end in
  type <- lift (Js.getProp diagram "type") ;;
  if Js.strictEqStr type "mermaid" then
    validation <- validateMermaid env currentCode ;;
    emit (EvValidate Mermaid currentCode validation) ;;;
    afterValidation validation
  else if Js.strictEqStr type "plantuml" || Js.strictEqStr type "puml" ||
          Js.strictEqStr type "uml" then
    validation <- validatePlantUML env currentCode ;;
    emit (EvValidate PlantUML currentCode validation) ;;;
    afterValidation validation
  else
    ret {| currentCode := currentCode; isValid := true; lastError := lastError |}.

(** The body of the [for] loop: one diagram, at index [i].  [maxRetries]
    is a natural number; both handlers leave it at its default. *)
Definition fixDiagram (maxRetries : nat) (i : nat) (diagram : jsval) : M W result :=
  code <- lift (Js.getProp diagram "code") ;;
  exit <- repairLoop diagram maxRetries code None ;;
  type <- lift (Js.getProp diagram "type") ;;
  position <- lift (Js.getProp diagram "position") ;;
  ret {| res_type := type;
         res_code := currentCode exit;
         res_originalPosition := Js.coalesce position (JNum (Z.of_nat i));
         res_valid := isValid exit;
         res_error := if isValid exit then None else lastError exit |}.

Fixpoint fixDiagramsFrom (maxRetries : nat) (i : nat) (diagrams : list jsval)
  : M W (list result) :=
  match diagrams with
  | [] => ret []
  | diagram :: rest =>
      r <- fixDiagram maxRetries i diagram ;;
      results <- fixDiagramsFrom maxRetries (S i) rest ;;
      ret (r :: results)
  end.

Definition validateAndFixDiagramsWith (maxRetries : nat) (diagrams : list jsval)
  : M W (list result) :=
  fixDiagramsFrom maxRetries 0 diagrams.

(** [validateAndFixDiagrams(diagrams, openai, model)], as both handlers
    call it: [maxRetries] takes its default, 2. *)
Definition validateAndFixDiagrams (diagrams : list jsval) : M W (list result) :=
  validateAndFixDiagramsWith 2 diagrams.

End RepairLoop.

(* ================================================================== *)
(** * Reassembly of the markdown *)
(* ================================================================== *)

(** The replacement text of [str.replace(pattern, replacement)] for a
    string [pattern]: [$$], [$&], [$`] and [$'] are expanded; with no
    capture groups [$1]..[$99] and [$<] stay as they are. *)
Fixpoint expandReplacement (matched before after replacement : string) : string :=
  match replacement with
  | String "$" (String "$" rest) =>
      String "$" (expandReplacement matched before after rest)
  | String "$" (String "&" rest) =>
      matched ++ expandReplacement matched before after rest
  | String "$" (String "`" rest) =>
      before ++ expandReplacement matched before after rest
  | String "$" (String "'" rest) =>
      after ++ expandReplacement matched before after rest
  | String c rest => String c (expandReplacement matched before after rest)
  | EmptyString => EmptyString
  end.

(** [str.replace(pattern, replacement)] with a string pattern: the first
    occurrence only. *)
Definition replaceFirst (str pattern replacement : string) : string :=
  match splitFirst pattern str with
  | Some (before, after) =>
      before ++ expandReplacement pattern before after replacement ++ after
  | None => str
  end.

Fixpoint countWhile (p : ascii -> bool) (s : string) : nat :=
  match s with
  | String c s' => if p c then S (countWhile p s') else 0
  | EmptyString => 0
  end.

(** The length of the match of [/\{\{DIAGRAM_\d+\}\}/] at the head of [s],
    if there is one. *)
Definition matchPlaceholder (s : string) : option nat :=
  if startsWith "{{DIAGRAM_" s then
    let rest := drop 10 s in
    let digits := countWhile isDigit rest in
    if (0 <? digits)%nat && startsWith "}}" (drop digits rest)
    then Some (10 + digits + 2)%nat
    else None
  else None.

(** [s.replace(/\{\{DIAGRAM_\d+\}\}/g, '')]: the scan goes left to right;
    [skip] counts the characters of the current match still to be dropped. *)
Fixpoint removePlaceholdersFrom (skip : nat) (s : string) : string :=
  match s with
  | EmptyString => EmptyString
  | String c s' =>
      match skip with
      | S k => removePlaceholdersFrom k s'
      | O =>
          match matchPlaceholder s with
          | Some (S k) => removePlaceholdersFrom k s'
          | _ => String c (removePlaceholdersFrom 0 s')
          end
      end
  end.

Definition removePlaceholders (s : string) : string := removePlaceholdersFrom 0 s.

(** A placeholder token, [{{DIAGRAM_<index>}}]. *)
Definition token (index : string) : string := "{{DIAGRAM_" ++ index ++ "}}".

(** [`{{DIAGRAM_${diagram.originalPosition}}}`] *)
Definition placeholder (diagram : result) : string :=
  token (Js.toString (res_originalPosition diagram)).

(** Whether a match of [/\{\{DIAGRAM_\d+\}\}/] starts somewhere in [s]. *)
Fixpoint hasPlaceholder (s : string) : bool :=
  match matchPlaceholder s with
  | Some _ => true
  | None =>
      match s with
      | String _ s' => hasPlaceholder s'
      | EmptyString => false
      end
  end.

Definition notDollar (c : ascii) : bool := negb (Ascii.eqb c "$").

Definition diagramBlock (diagram : result) : string :=
  if Js.strictEqStr (res_type diagram) "mermaid"
  then "```mermaid" ++ LF ++ Js.toString (res_code diagram) ++ LF ++ "```"
  else "```plantuml" ++ LF ++ Js.toString (res_code diagram) ++ LF ++ "```".

(** The callback of [validatedDiagrams.forEach]. *)
Definition substituteDiagram (finalMarkdown : string) (diagram : result) : string :=
  replaceFirst finalMarkdown (placeholder diagram) (diagramBlock diagram).

(** "Reassemble markdown with validated diagrams", then "Remove any
    remaining placeholders". *)
Definition assemble (markdown : string) (validatedDiagrams : list result) : string :=
  removePlaceholders (fold_left substituteDiagram validatedDiagrams markdown).

(** The same on [parsed.markdown], which is truthy but need not be a
    string: [.replace] exists on strings only. *)
Definition assembleValue (markdown : jsval) (validatedDiagrams : list result)
  : outcome string :=
  match markdown with
  | JStr s => Ret (assemble s validatedDiagrams)
  | _ => Throw (TypeError "finalMarkdown.replace is not a function")
  end.

(* ================================================================== *)
(** * The [/analyze] handler *)
(* ================================================================== *)

(** [res.status(status).json(body)] *)
Record response : Type := mkResponse {
  status : nat;
  body : jsval
}.

Definition errorResponse (status : nat) (message : string) : response :=
  {| status := status; body := JObj [("error", JStr message)] |}.

(** [req.file]: the name and the buffer decoded as UTF-8. *)
Record upload : Type := mkUpload {
  originalname : string;
  content : string
}.

(** [process.env] and the constants derived from it. *)
Record config : Type := mkConfig {
  OPENAI_API_KEY : option string;
  NODE_ENV : option string;
  model : string
}.

Definition hasApiKey (cfg : config) : bool :=
  match OPENAI_API_KEY cfg with
  | Some k => negb (isEmpty k)
  | None => false
  end.

Definition mainRequest (cfg : config) (systemPrompt prompt : string) : request :=
  {| req_model := model cfg;
     req_temperature_tenths := 2;
     req_max_output_tokens := 4096;
     req_json_object := true;
     req_system := systemPrompt;
     req_user := prompt |}.

(** [JSON.parse(jsonText)], and on failure [JSON.parse(jsonrepair(jsonText))];
    [Throw e2] when both fail. *)
Definition parseWithRepair {W : Type} (env : World W) (jsonText : string)
  : outcome jsval :=
  match JSON_parse env jsonText with
  | Ret parsed => Ret parsed
  | Throw _ => let? repaired := jsonrepair env jsonText in JSON_parse env repaired
  end.

(** ** [src/backend/src/index.js] *)
Module BackendIndex.
Section Handler.
Context {W : Type} (env : World W) (cfg : config).
(** The system message of lines 57-84, an opaque constant here. *)
Variable SYSTEM_PROMPT : string.

Definition buildPrompt (filename code : string) : string :=
  join LF
    [ "File name: " ++ filename;
      "";
      "Analyze this code and produce high-level documentation focusing on business logic, architecture, and purpose.";
      "Include diagrams where they add value. Use the JSON structure specified in the system prompt.";
      "";
      "Code:";
      "```";
      take 12000 code;
      "```" ].

(** Lines 108-129: from the parsed response to the reply. *)
Definition afterParse (parsed : jsval) : M W response :=
  markdown <- lift (Js.getProp parsed "markdown") ;;
  if negb (Js.truthy markdown)
  then ret (errorResponse 502 "Invalid response structure from GPT-5.1")
  else
    diagrams <- lift (Js.getProp parsed "diagrams") ;;
    match diagrams with
    | JArr diagrams =>
        validatedDiagrams <- validateAndFixDiagrams env (model cfg) diagrams ;;
        finalMarkdown <- lift (assembleValue markdown validatedDiagrams) ;;
        ret {| status := 200; body := JObj [("markdown", JStr finalMarkdown)] |}
    | _ => ret (errorResponse 502 "Invalid response structure from GPT-5.1")
    end.

Definition analyze (file : option upload) : M W response :=
  tryCatch
    (if negb (hasApiKey cfg) then ret (errorResponse 500 "OpenAI key missing on server.")
     else
       match file with
       | None => ret (errorResponse 400 "No code file received.")
       | Some f =>
           let codeSample := content f in
           let prompt := buildPrompt (originalname f) codeSample in
           let req := mainRequest cfg SYSTEM_PROMPT prompt in
           response <- call (responses_create env req) (EvResponsesCreate req) ;;
           jsonText <- lift (extractText response) ;;
           if isEmpty jsonText
           then ret (errorResponse 502 "No response returned from GPT-5.1")
           else
             match parseWithRepair env jsonText with
             | Ret parsed => afterParse parsed
             | Throw _ => ret (errorResponse 502 "Invalid JSON response from GPT-5.1")
             end
       end)
    (fun _ => ret (errorResponse 500 "Failed to process code file.")).

End Handler.
End BackendIndex.

(** ** The revision of [index.js] in [src/unnamed/part_000] *)
Module Part000.
Section Handler.
Context {W : Type} (env : World W) (cfg : config).
(** The system message of lines 68-194, an opaque constant here. *)
Variable SYSTEM_PROMPT : string.

Definition buildPrompt (filename code : string) : string :=
  join LF
    [ "File name: " ++ filename;
      "";
      "Analyze this code file and produce function-by-function documentation.";
      "For each function, provide metadata (parameters, return type, side effects) and a narrative explanation of its logic flow.";
      "Write the narrative as if telling a story - abstract the implementation into logical concepts.";
      "Include diagrams (flowcharts, sequence diagrams) when they help visualize complex logic flows.";
      "Use the JSON structure specified in the system prompt.";
      "";
      "Code:";
      "```";
      take 12000 code;
      "```" ].

(** Lines 227-269: from the parsed response to the reply.  The
    [console] calls are left out; none of them can throw here. *)
Definition afterParse (parsed : jsval) : M W response :=
  markdown <- lift (Js.getProp parsed "markdown") ;;
  if negb (Js.truthy markdown)
  then ret (errorResponse 502 "Missing markdown in response from GPT-5.1")
  else
    diagrams <- lift (Js.getProp parsed "diagrams") ;;
    (* Handle missing or invalid diagrams array - treat as empty *)
    let diagrams := match diagrams with JArr ds => ds | _ => [] end in
    validatedDiagrams <- validateAndFixDiagrams env (model cfg) diagrams ;;
    finalMarkdown <- lift (assembleValue markdown validatedDiagrams) ;;
    ret {| status := 200; body := JObj [("markdown", JStr finalMarkdown)] |}.

(** The reply of the outer [catch]. *)
Definition failureResponse (error : exn) : response :=
  {| status := 500;
     body :=
       JObj (("error", JStr "Failed to process code file.") ::
             match NODE_ENV cfg with
             | Some "development" =>
                 [("details", match exn_message error with
                              | Some m => JStr m
                              | None => JUndefined
                              end)]
             | _ => []
             end) |}.

Definition analyze (file : option upload) : M W response :=
  tryCatch
    (if negb (hasApiKey cfg) then ret (errorResponse 500 "OpenAI key missing on server.")
     else
       match file with
       | None => ret (errorResponse 400 "No code file received.")
       | Some f =>
           let codeSample := content f in
           let prompt := buildPrompt (originalname f) codeSample in
           let req := mainRequest cfg SYSTEM_PROMPT prompt in
           response <- call (responses_create env req) (EvResponsesCreate req) ;;
           jsonText <- lift (extractText response) ;;
           if isEmpty jsonText
           then
             (* JSON.stringify(response, null, 2).substring(0, 500) in the log *)
             match response with
             | JUndefined =>
                 lift (Throw (TypeError "Cannot read properties of undefined (reading 'substring')"))
             | _ => ret (errorResponse 502 "No response returned from GPT-5.1")
             end
           else
             match parseWithRepair env jsonText with
             | Ret parsed => afterParse parsed
             | Throw e2 =>
                 ret (errorResponse 502
                        ("Invalid JSON response from GPT-5.1: " ++
                         match exn_message e2 with Some m => m | None => "undefined" end))
             end
       end)
    (fun error => ret (failureResponse error)).

End Handler.
End Part000.

(* ================================================================== *)
(** * Reading a trace *)
(* ================================================================== *)

(** The validator calls of a trace, in order. *)
Fixpoint validationsOf (tr : list event) : list (grammar * jsval * validation) :=
  match tr with
  | EvValidate g definition v :: rest => (g, definition, v) :: validationsOf rest
  | _ :: rest => validationsOf rest
  | [] => []
  end.

(** The calls of [openai.responses.create] of a trace, in order. *)
Fixpoint repairsOf (tr : list event) : list (request * outcome jsval) :=
  match tr with
  | EvResponsesCreate req res :: rest => (req, res) :: repairsOf rest
  | _ :: rest => repairsOf rest
  | [] => []
  end.

(** The HTTP requests of a trace. *)
Fixpoint fetchesOf (tr : list event) : list string :=
  match tr with
  | EvFetch url _ :: rest => url :: fetchesOf rest
  | _ :: rest => fetchesOf rest
  | [] => []
  end.

(** The new [currentCode] the loop takes from the result of a repair
    call; [None] when the call, or [extractText] on its result, throws. *)
Definition fixedCodeOf (res : outcome jsval) : option jsval :=
  match res with
  | Ret fixResponse =>
      match extractText fixResponse with
      | Ret text => Some (JStr (stripFences (trim text)))
      | Throw _ => None
      end
  | Throw _ => None
  end.


(** The declared types the loop knows how to validate. *)
Definition knownKind (type : jsval) : bool :=
  Js.strictEqStr type "mermaid" || Js.strictEqStr type "plantuml" ||
  Js.strictEqStr type "puml" || Js.strictEqStr type "uml".



(** The last validator call of a trace: the text it was given and its
    result. *)
Definition lastValidation (tr : list event) : option (jsval * validation) :=
  match rev (validationsOf tr) with
  | (_, definition, v) :: _ => Some (definition, v)
  | [] => None
  end.


(** The validator the loop dispatches a declared type to, if any. *)
Definition grammarOf (type : jsval) : option grammar :=
  if Js.strictEqStr type "mermaid" then Some Mermaid
  else if Js.strictEqStr type "plantuml" || Js.strictEqStr type "puml" ||
          Js.strictEqStr type "uml" then Some PlantUML
  else None.

(** Events a validator can record: none of them is a validator call or
    a call of the generative source. *)
Definition validatorEvent (e : event) : Prop :=
  match e with
  | EvMermaidInit | EvMermaidParse _ _ | EvFetch _ _ => True
  | EvResponsesCreate _ _ | EvValidate _ _ _ => False
  end.

(** The runs of the loop for a diagram of declared type [type], validated
    under grammar [g], as a state machine: [loopRun n code tr exit] relates
    the number of repair attempts left, the text under validation, the
    calls made and the loop variables on exit.  (It is proved below that
    [repairLoop] only produces such runs.) *)
Inductive loopRun (model : string) (type : jsval) (g : grammar)
  : nat -> jsval -> option string -> list event -> loopExit -> Prop :=
| run_valid n code lastError0 trv v :
    Forall validatorEvent trv ->
    valid v = true ->
    loopRun model type g n code lastError0
      (trv ++ [EvValidate g code v])
      {| currentCode := code; isValid := true; lastError := lastError0 |}
| run_exhausted code lastError0 trv v :
    Forall validatorEvent trv ->
    valid v = false -> error v <> None ->
    loopRun model type g 0 code lastError0
      (trv ++ [EvValidate g code v])
      {| currentCode := code; isValid := false; lastError := error v |}
| run_repair_failed n code lastError0 trv v res :
    Forall validatorEvent trv ->
    valid v = false -> error v <> None ->
    fixedCodeOf res = None ->
    loopRun model type g (S n) code lastError0
      (trv ++ [EvValidate g code v;
               EvResponsesCreate (fixRequest model type code (error v)) res])
      {| currentCode := code; isValid := false; lastError := error v |}
| run_retry n code lastError0 trv v res code' tr' exit :
    Forall validatorEvent trv ->
    valid v = false -> error v <> None ->
    fixedCodeOf res = Some code' ->
    loopRun model type g n code' (error v) tr' exit ->
    loopRun model type g (S n) code lastError0
      (trv ++ EvValidate g code v ::
              EvResponsesCreate (fixRequest model type code (error v)) res :: tr')
      exit.

(** The result the [for] loop pushes for [diagram], at index [i], when
    the [while] loop is left with [exit]. *)
Definition resultOf (diagram : jsval) (i : nat) (exit : loopExit) : result :=
  {| res_type := Js.getPropOpt diagram "type";
     res_code := currentCode exit;
     res_originalPosition :=
       Js.coalesce (Js.getPropOpt diagram "position") (JNum (Z.of_nat i));
     res_valid := isValid exit;
     res_error := if isValid exit then None else lastError exit |}.



(* ================================================================== *)
(** * What the specification says [extractText] computes *)
(* ================================================================== *)

Module Spec.




Definition elements (v : jsval) : list jsval :=
  match v with JArr l => l | _ => [] end.



End Spec.

(* ================================================================== *)
(** * Templates as texts and tokens *)
(* ================================================================== *)



(** A continuation [x] that cannot take part in a match begun before it:
    it does not start with a digit or a closing brace, nor with what is
    left of [{{DIAGRAM_] after one to nine characters. *)
Definition inertHead (x : string) : Prop :=
  countWhile isDigit x = 0%nat /\
  startsWith "}" x = false /\
  forall k, (1 <= k < 10)%nat -> startsWith (drop k "{{DIAGRAM_") x = false.



















(* ================================================================== *)
(** * Counting the calls of a trace *)
(* ================================================================== *)

(** How many times the trace initialises Mermaid. *)
Fixpoint initsOf (tr : list event) : nat :=
  match tr with
  | EvMermaidInit :: rest => S (initsOf rest)
  | _ :: rest => initsOf rest
  | [] => 0%nat
  end.

(** The texts given to [mermaid.parse], in order. *)
Fixpoint parsesOf (tr : list event) : list string :=
  match tr with
  | EvMermaidParse text _ :: rest => text :: parsesOf rest
  | _ :: rest => parsesOf rest
  | [] => []
  end.

Definition flagOf (b : bool) : nat := if b then 1%nat else 0%nat.

(** What the calls of a run may cost at most, for [entries] diagram
    entries and [maxRetries] repair attempts each: so many repair calls,
    one validation more than repair calls per entry, and one request to
    the PlantUML server or one call of the Mermaid parser per validation. *)
Definition withinBudget (maxRetries entries : nat) (tr : list event) : Prop :=
  (length (repairsOf tr) <= maxRetries * entries)%nat /\
  (length (validationsOf tr) <= length (repairsOf tr) + entries)%nat /\
  (length (fetchesOf tr) + length (parsesOf tr) <= length (validationsOf tr))%nat.

(** Replays the trace from the flag [mermaidInitialized]: [None] when the
    trace initialises Mermaid a second time or calls its parser before the
    initialisation, else the flag at the end. *)
Fixpoint initDiscipline (initialized : bool) (tr : list event) : option bool :=
  match tr with
  | [] => Some initialized
  | EvMermaidInit :: rest =>
      if initialized then None else initDiscipline true rest
  | EvMermaidParse _ _ :: rest =>
      if initialized then initDiscipline true rest else None
  | _ :: rest => initDiscipline initialized rest
  end.

(** A run keeps the books: its calls are within budget, and it leaves the
    flag as the replay of its trace says. *)
Definition keepsBooks {W A : Type} (maxRetries entries : nat)
    (st : state W) (run : outcome A * list event * state W) : Prop :=
  withinBudget maxRetries entries (traceOf run) /\
  initDiscipline (mermaidInitialized st) (traceOf run) =
    Some (mermaidInitialized (snd run)).

(** The texts the repair calls of a trace yielded, in order: a call that
    throws, or whose answer [extractText] cannot read, yields none. *)
Fixpoint fixedCodesOf (tr : list event) : list jsval :=
  match tr with
  | EvResponsesCreate _ res :: rest =>
      match fixedCodeOf res with
      | Some code => code :: fixedCodesOf rest
      | None => fixedCodesOf rest
      end
  | _ :: rest => fixedCodesOf rest
  | [] => []
  end.

(** The texts given to the validators, in order. *)
Definition validatedTexts (tr : list event) : list jsval :=
  map (fun x => snd (fst x)) (validationsOf tr).

(** Whether every call of the generative source in the trace comes right
    after a failed validation and asks to repair the text that failed,
    quoting its error; [pending] is the validation just made, if any. *)
Fixpoint repairsFollowFailures (model : string) (type : jsval)
    (pending : option (jsval * validation)) (tr : list event) : Prop :=
  match tr with
  | [] => True
  | EvValidate _ code v :: rest =>
      repairsFollowFailures model type (Some (code, v)) rest
  | EvResponsesCreate req _ :: rest =>
      match pending with
      | Some (code, v) =>
          valid v = false /\ req = fixRequest model type code (error v)
      | None => False
      end /\
      repairsFollowFailures model type None rest
  | _ :: rest => repairsFollowFailures model type None rest
  end.

(** The settings every repair call is made with. *)
Definition repairSettings (model : string) (req : request) : Prop :=
  req_model req = model /\
  req_temperature_tenths req = 1%Z /\
  req_max_output_tokens req = 1024%Z /\
  req_json_object req = false.

(* ================================================================== *)
(** * Configuration read from the environment *)
(* ================================================================== *)

(** [s.split(',')] *)
Fixpoint splitComma (s : string) : list string :=
  match s with
  | EmptyString => [EmptyString]
  | String c rest =>
      if Ascii.eqb c ","
      then EmptyString :: splitComma rest
      else
        match splitComma rest with
        | piece :: pieces => String c piece :: pieces
        | [] => [String c EmptyString]
        end
  end.

(** [process.env.CLIENT_ORIGIN?.split(',').map((origin) => origin.trim())
    ?? ['http://localhost:3000']] *)
Definition clientOrigins (CLIENT_ORIGIN : option string) : list string :=
  match CLIENT_ORIGIN with
  | Some origins => map trim (splitComma origins)
  | None => ["http://localhost:3000"]
  end.

Definition isComma (c : ascii) : bool := Ascii.eqb c ",".

Definition notComma (c : ascii) : bool := negb (isComma c).

Definition notWhiteSpace (c : ascii) : bool := negb (isWhiteSpace c).

(* ================================================================== *)
(** * Replies of the handler *)
(* ================================================================== *)

(** The two forms of a reply: status 200 with a body that is just the
    markdown text, or an error status with a body whose [error] is a
    non-empty string. *)
Definition wellFormedReply (reply : response) : Prop :=
  (status reply = 200%nat /\
   exists markdown, body reply = JObj [("markdown", JStr markdown)]) \/
  ((status reply = 400%nat \/ status reply = 500%nat \/ status reply = 502%nat) /\
   exists message rest,
     body reply = JObj (("error", JStr message) :: rest) /\ message <> "").

(** The value the handler parses out of the answer to the main request:
    none when the call throws, when no text is extracted, or when the text
    cannot be parsed even after repair. *)
Definition answeredParse {W : Type} (env : World W) (res : outcome jsval)
  : option jsval :=
  match res with
  | Ret response =>
      match extractText response with
      | Ret jsonText =>
          if isEmpty jsonText then None
          else
            match parseWithRepair env jsonText with
            | Ret parsed => Some parsed
            | Throw _ => None
            end
      | Throw _ => None
      end
  | Throw _ => None
  end.

(** The diagram entries of that value: the elements of its [diagrams]
    array; none when [diagrams] is not an array. *)
Definition answeredDiagrams {W : Type} (env : World W) (res : outcome jsval)
  : list jsval :=
  match answeredParse env res with
  | Some parsed => Spec.elements (Js.getPropOpt parsed "diagrams")
  | None => []
  end.

(** A reply made inside the [try] block: an error status with the
    message alone, or status 200 with the markdown alone. *)
Definition plainReply (reply : response) : Prop :=
  (exists s message,
      (s = 400%nat \/ s = 500%nat \/ s = 502%nat) /\ message <> "" /\
      reply = errorResponse s message) \/
  (exists markdown,
      reply = {| status := 200; body := JObj [("markdown", JStr markdown)] |}).

(* ================================================================== *)
(** * The frontend: [analyzeFile] and the code renderer of [App.jsx] *)
(* ================================================================== *)

(** [new Error(message)] *)
Definition newError (message : string) : exn :=
  {| exn_message := Some message;
     exn_str := None;
     exn_toString := if isEmpty message then "Error" else "Error: " ++ message |}.

(** What [await fetch(url, init)] resolves to in the browser, with the
    results of [await response.json()] and [await response.text()]. *)
Record fetched : Type := mkFetched {
  f_ok : bool;
  f_json : outcome jsval;
  f_text : outcome string
}.

(** The [status] of the analysis state: ['idle'], ['loading'], ['ready'],
    ['error']. *)
Inductive phase : Type := Idle | Loading | Ready | Failed.

(** The state [setState] is given. *)
Record analysisState : Type := mkAnalysisState {
  st_status : phase;
  st_markdown : jsval;
  st_fileName : string;
  st_error : string
}.

(** The state set before the request is sent. *)
Definition loadingState (fileName : string) : analysisState :=
  {| st_status := Loading; st_markdown := JStr "";
     st_fileName := fileName; st_error := "" |}.

(** The state set when the [try] block of [analyzeFile] is left: ready
    with the markdown it returned, or, in the [catch], error with
    [err.message ?? 'Unexpected failure.']. *)
Definition settledState (fileName : string) (request : outcome jsval)
  : analysisState :=
  match request with
  | Ret markdown =>
      {| st_status := Ready; st_markdown := markdown;
         st_fileName := fileName; st_error := "" |}
  | Throw err =>
      {| st_status := Failed; st_markdown := JStr "";
         st_fileName := fileName;
         st_error := match exn_message err with
                     | Some message => message
                     | None => "Unexpected failure."
                     end |}
  end.

(** The browser's view of a reply of the backend: [ok] for a status from
    200 to 299, and a JSON body that is an object with the fields of the
    reply's body. *)
Definition carries (r : fetched) (reply : response) : Prop :=
  f_ok r = ((200 <=? status reply)%nat && (status reply <=? 299)%nat) /\
  exists payload,
    f_json r = Ret payload /\
    Js.present payload = true /\
    forall k, Js.getPropOpt payload k = Js.getPropOpt (body reply) k.

Fixpoint takeWhile (p : ascii -> bool) (s : string) : string :=
  match s with
  | String c s' => if p c then String c (takeWhile p s') else EmptyString
  | EmptyString => EmptyString
  end.

(** What the code renderer returns. *)
Inductive rendering : Type :=
| MermaidDiagram (definition : string)
| PlantUmlDiagram (definition : string)
| InlineCode (children : string)
| CodeBlock (className children : string).

(** The double quote, as a string. *)
Definition DQUOTE : string := String "034" EmptyString.

(** ** [src/frontend/src/App.jsx] *)
Module Frontend.

Definition INITIAL_STATE : analysisState :=
  {| st_status := Idle; st_markdown := JStr ""; st_fileName := ""; st_error := "" |}.

Definition unreachable : string := "Syntra could not reach the analyst core.".

(** Lines 32-41: the message for a response that is not OK.
    [errorData.error || errorData.details || errorMessage], where
    [details] is read only when [error] is falsy; in the [catch] the text
    of the response is read for the log. *)
Definition errorMessageOf (response : fetched) : outcome jsval :=
  let attempt :=
    let? errorData := f_json response in
    let? error := Js.getProp errorData "error" in
    if Js.truthy error then Ret error
    else
      let? details := Js.getProp errorData "details" in
      Ret (if Js.truthy details then details else JStr unreachable) in
  match attempt with
  | Ret errorMessage => Ret errorMessage
  | Throw _ =>
      let? errorText := f_text response in
      Ret (JStr unreachable)
  end.

(** The [try] block of [analyzeFile]: the markdown to show, or the error
    thrown.  [answer] is what [fetch] does with the request. *)
Definition requestAnalysis (answer : outcome fetched) : outcome jsval :=
  let? response := answer in
  if negb (f_ok response) then
    let? errorMessage := errorMessageOf response in
    Throw (newError (Js.toString errorMessage))
  else
    let? payload := f_json response in
    let markdown := Js.getPropOpt payload "markdown" in
    if negb (Js.truthy markdown)
    then Throw (newError "The analyst returned an empty dossier.")
    else Ret markdown.

(** [analyzeFile(file)]: the states it sets, in order; [file] is the name
    of the file, if there is one. *)
Definition analyzeFile (file : option string) (answer : outcome fetched)
  : list analysisState :=
  match file with
  | None => []
  | Some fileName =>
      [ loadingState fileName; settledState fileName (requestAnalysis answer) ]
  end.

(** [/language-(\w+)/.exec(className)?.[1]]: the word after the leftmost
    [language-] that a word character follows. *)
Fixpoint languageOf (className : string) : option string :=
  let here :=
    if startsWith "language-" className then
      let word := takeWhile isWordChar (drop 9 className) in
      if isEmpty word then None else Some word
    else None in
  match here with
  | Some word => Some word
  | None =>
      match className with
      | String _ rest => languageOf rest
      | EmptyString => None
      end
  end.

(** [String(children).replace(/\n$/, '')] *)
Fixpoint dropFinalNewline (children : string) : string :=
  match children with
  | EmptyString => EmptyString
  | String c rest =>
      match rest with
      | EmptyString => if Ascii.eqb c "010" then EmptyString else children
      | _ => String c (dropFinalNewline rest)
      end
  end.

(** The [code] component of [MarkdownPanel]. *)
Definition code (inline : bool) (className children : string) : rendering :=
  let language := languageOf className in
  let content := dropFinalNewline children in
  if negb inline &&
     match language with Some l => String.eqb l "mermaid" | None => false end
  then MermaidDiagram content
  else if negb inline &&
          existsb (String.eqb match language with Some l => l | None => "" end)
                  ["plantuml"; "puml"; "uml"]
  then PlantUmlDiagram content
  else if inline then InlineCode children
  else CodeBlock className children.

(** The template literal of [PlantUmlDiagram]: the skin parameters of the
    dark theme. *)
Definition themeParams : string :=
  join LF
    [ "skinparam backgroundColor #030303";
      "skinparam defaultFontColor #f8f8f8";
      "skinparam defaultFontName " ++ DQUOTE ++ "Space Grotesk" ++ DQUOTE;
      "skinparam defaultFontSize 14";
      "";
      "' Sequence diagram colors";
      "skinparam sequence {";
      "  ArrowColor #6FE8FF";
      "  ActorBorderColor #6FE8FF";
      "  ActorBackgroundColor #111415";
      "  LifeLineBorderColor #6FE8FF";
      "  LifeLineBackgroundColor #030303";
      "  ParticipantBorderColor #6FE8FF";
      "  ParticipantBackgroundColor #111415";
      "  ParticipantFontColor #f8f8f8";
      "  BoxBorderColor #6FE8FF";
      "  BoxBackgroundColor #111415";
      "  NoteBorderColor #6FE8FF";
      "  NoteBackgroundColor #111415";
      "  NoteFontColor #f8f8f8";
      "  ActivationBorderColor #6FE8FF";
      "  ActivationBackgroundColor #1A3A42";
      "}";
      "";
      "' Class diagram colors";
      "skinparam class {";
      "  BackgroundColor #111415";
      "  BorderColor #6FE8FF";
      "  ArrowColor #6FE8FF";
      "  AttributeFontColor #8C95A3";
      "  MethodFontColor #f8f8f8";
      "  StereotypeFontColor #6FE8FF";
      "}";
      "";
      "' Activity diagram colors";
      "skinparam activity {";
      "  BackgroundColor #111415";
      "  BorderColor #6FE8FF";
      "  FontColor #f8f8f8";
      "  StartColor #6FE8FF";
      "  EndColor #6FE8FF";
      "  DiamondBackgroundColor #111415";
      "  DiamondBorderColor #6FE8FF";
      "}";
      "";
      "' Component diagram colors";
      "skinparam component {";
      "  BackgroundColor #111415";
      "  BorderColor #6FE8FF";
      "  ArrowColor #6FE8FF";
      "  InterfaceBackgroundColor #030303";
      "  InterfaceBorderColor #6FE8FF";
      "}";
      "";
      "' State diagram colors";
      "skinparam state {";
      "  BackgroundColor #111415";
      "  BorderColor #6FE8FF";
      "  ArrowColor #6FE8FF";
      "  StartColor #6FE8FF";
      "  EndColor #6FE8FF";
      "}";
      "";
      "" ].

(** [enhancedDefinition], the definition [PlantUmlDiagram] encodes: the
    theme is put in unless the definition sets skin parameters itself,
    after [@startuml] when the definition starts with it, else in front. *)
Definition enhancedDefinition (definition : string) : string :=
  let trimmed := trim definition in
  if includes "skinparam" trimmed then definition
  else if startsWith "@startuml" trimmed
       then replaceFirst definition "@startuml" ("@startuml" ++ LF ++ themeParams)
       else themeParams ++ LF ++ definition.

End Frontend.

(** ** The revision of [App.jsx] in [src/unnamed/part_001] *)
Module Part001.

(** The [try] block of [analyzeFile]: a response that is not OK is
    reported with one fixed message. *)
Definition requestAnalysis (answer : outcome fetched) : outcome jsval :=
  let? response := answer in
  if negb (f_ok response) then Throw (newError Frontend.unreachable)
  else
    let? payload := f_json response in
    let markdown := Js.getPropOpt payload "markdown" in
    if negb (Js.truthy markdown)
    then Throw (newError "The analyst returned an empty dossier.")
    else Ret markdown.

Definition analyzeFile (file : option string) (answer : outcome fetched)
  : list analysisState :=
  match file with
  | None => []
  | Some fileName =>
      [ loadingState fileName; settledState fileName (requestAnalysis answer) ]
  end.

End Part001.

(* ================================================================== *)
(** * Concrete worlds and inputs for the examples *)
(* ================================================================== *)

Module Examples.

Definition parseError : exn :=
  {| exn_message := Some "Parse error on line 1";
     exn_str := None;
     exn_toString := "Error: Parse error on line 1" |}.

Definition connectionError : exn :=
  {| exn_message := Some "Connection error.";
     exn_str := None;
     exn_toString := "Error: Connection error." |}.

(** An envelope of the first shape carrying one text chunk. *)
Definition textEnvelope (text : string) : jsval :=
  JObj [("output",
         JArr [JObj [("type", JStr "message");
                     ("content",
                      JArr [JObj [("type", JStr "output_text");
                                  ("text", JStr text)]])]])].

Definition badRequest : http_response :=
  {| resp_ok := false; resp_status := 400; resp_statusText := "Bad Request";
     resp_text := Ret "" |}.

(** Every diagram is rejected; every repair call answers [answer]. *)
Definition stubbornWorld (answer : string) : World unit :=
  {| mermaid_parse := fun _ w => (Throw parseError, w);
     plantuml_encode := fun s => s;
     fetch := fun _ w => (Ret badRequest, w);
     responses_create := fun _ w => (Ret (textEnvelope answer), w);
     JSON_parse := fun _ => Throw parseError;
     jsonrepair := fun s => Ret s |}.

(** Every diagram is rejected and the generative source is unreachable. *)
Definition offlineWorld : World unit :=
  {| mermaid_parse := fun _ w => (Throw parseError, w);
     plantuml_encode := fun s => s;
     fetch := fun _ w => (Ret badRequest, w);
     responses_create := fun _ w => (Throw connectionError, w);
     JSON_parse := fun _ => Throw parseError;
     jsonrepair := fun s => Ret s |}.

(** Every diagram is accepted. *)
Definition friendlyWorld : World unit :=
  {| mermaid_parse := fun _ w => (Ret tt, w);
     plantuml_encode := fun s => s;
     fetch := fun _ w =>
       (Ret {| resp_ok := true; resp_status := 200; resp_statusText := "OK";
               resp_text := Ret "Alice -> Bob" |}, w);
     responses_create := fun _ w => (Throw connectionError, w);
     JSON_parse := fun _ => Throw parseError;
     jsonrepair := fun s => Ret s |}.

Definition start : state unit := {| mermaidInitialized := false; world := tt |}.

Definition cfg : config :=
  {| OPENAI_API_KEY := Some "sk-test"; NODE_ENV := None; model := "gpt-5.1" |}.

Definition fenced : string :=
  "```mermaid" ++ LF ++ "graph TD; A-->B" ++ LF ++ "```".

Definition flowEntry : jsval :=
  JObj [("type", JStr "mermaid"); ("code", JStr "graph TD; A-->"); ("position", JNum 0)].


Definition otherEntry : jsval :=
  JObj [("type", JStr "graphviz"); ("code", JStr "digraph {}")].

Definition flowA : result :=
  {| res_type := JStr "mermaid"; res_code := JStr "graph TD; A-->B";
     res_originalPosition := JNum 0; res_valid := true; res_error := None |}.


(** The text form the PlantUML server answers with for a definition it
    cannot read. *)
Definition syntaxErrorText : string :=
  "[From string (line 2) ]" ++ LF ++ " " ++ LF ++ "@startuml" ++ LF ++
  "Alice -> " ++ LF ++ "^^^^^" ++ LF ++ " Syntax Error?".

(** The PlantUML server finds a syntax error in every definition. *)
Definition pickyWorld : World unit :=
  {| mermaid_parse := fun _ w => (Ret tt, w);
     plantuml_encode := fun s => s;
     fetch := fun _ w =>
       (Ret {| resp_ok := true; resp_status := 200; resp_statusText := "OK";
               resp_text := Ret syntaxErrorText |}, w);
     responses_create := fun _ w => (Throw connectionError, w);
     JSON_parse := fun _ => Throw parseError;
     jsonrepair := fun s => Ret s |}.

(** The generative source answers every request with [text], which
    [JSON.parse] rejects as it is and reads as [parsed] once [jsonrepair]
    has put it in braces; every diagram is accepted. *)
Definition answeringWorld (text : string) (parsed : jsval) : World unit :=
  {| mermaid_parse := fun _ w => (Ret tt, w);
     plantuml_encode := fun s => s;
     fetch := fun _ w =>
       (Ret {| resp_ok := true; resp_status := 200; resp_statusText := "OK";
               resp_text := Ret "Alice -> Bob" |}, w);
     responses_create := fun _ w => (Ret (textEnvelope text), w);
     JSON_parse := fun s => if startsWith "{" s then Ret parsed else Throw parseError;
     jsonrepair := fun s => Ret ("{" ++ s ++ "}") |}.

Definition sourceFile : upload :=
  {| originalname := "main.py"; content := "print(1)" |}.

Definition goodAnswer : jsval :=
  JObj [("markdown", JStr "intro {{DIAGRAM_0}} outro");
        ("diagrams",
         JArr [JObj [("type", JStr "mermaid"); ("code", JStr "graph TD; A-->B")]])].

Definition answerWithNull : jsval :=
  JObj [("markdown", JStr "intro {{DIAGRAM_0}} outro");
        ("diagrams", JArr [otherEntry; JNull])].

End Examples.

(* ================================================================== *)
(** * Lemmas on strings *)
(* ================================================================== *)

Unset Implicit Arguments.


Lemma append_assoc (a b c : string) : (a ++ b) ++ c = a ++ b ++ c.
Proof. induction a as [|x a IH]; simpl; [reflexivity | now rewrite IH]. Qed.

Lemma length_append (a b : string) :
  String.length (a ++ b) = (String.length a + String.length b)%nat.
Proof. induction a as [|x a IH]; simpl; [reflexivity | now rewrite IH]. Qed.

Lemma take_drop (n : nat) (s : string) : s = take n s ++ drop n s.
Proof.
  revert s; induction n as [|n IH]; intros [|c s]; simpl; try reflexivity.
  now rewrite <- IH.
Qed.

Lemma length_take (n : nat) (s : string) :
  String.length (take n s) = Nat.min n (String.length s).
Proof.
  revert s; induction n as [|n IH]; intros [|c s]; simpl; try reflexivity.
  now rewrite IH.
Qed.

Lemma startsWith_append (p s : string) : startsWith p (p ++ s) = true.
Proof.
  induction p as [|c p IH]; simpl; [reflexivity|].
  now rewrite Ascii.eqb_refl, IH.
Qed.

Lemma startsWith_split (p s : string) :
  startsWith p s = true -> s = p ++ drop (String.length p) s.
Proof.
  revert s; induction p as [|c p IH]; intros s H; simpl in *.
  - now destruct s.
  - destruct s as [|d s]; [discriminate|].
    apply andb_true_iff in H as [Hc Hp].
    apply Ascii.eqb_eq in Hc; subst d.
    simpl. now rewrite <- IH.
Qed.

Lemma drop_append (p s : string) : drop (String.length p) (p ++ s) = s.
Proof. induction p as [|c p IH]; simpl; [now destruct s | exact IH]. Qed.

(** [splitFirst] cuts the string around an occurrence of the pattern. *)
Lemma splitFirst_Some (pat s before after : string) :
  splitFirst pat s = Some (before, after) -> s = before ++ pat ++ after.
Proof.
  revert before after; induction s as [|c s IH]; intros before after H.
  - simpl in H. destruct (startsWith pat "") eqn:E; [|discriminate].
    injection H as <- <-. simpl. now apply startsWith_split in E.
  - simpl in H. destruct (startsWith pat (String c s)) eqn:E.
    + injection H as <- <-. simpl. now apply startsWith_split in E.
    + destruct (splitFirst pat s) as [[b a]|] eqn:E'; [|discriminate].
      injection H as <- <-. simpl. now rewrite (IH b a eq_refl).
Qed.

(** ... and that occurrence is the first one. *)
Lemma splitFirst_first (pat s before after : string) :
  splitFirst pat s = Some (before, after) ->
  forall n, (n < String.length before)%nat -> startsWith pat (drop n s) = false.
Proof.
  revert before after; induction s as [|c s IH]; intros before after H n Hn.
  - simpl in H. destruct (startsWith pat "") eqn:E; [|discriminate].
    injection H as <- <-. simpl in Hn. lia.
  - simpl in H. destruct (startsWith pat (String c s)) eqn:E.
    + injection H as <- <-. simpl in Hn. lia.
    + destruct (splitFirst pat s) as [[b a]|] eqn:E'; [|discriminate].
      injection H as <- <-. destruct n as [|n]; [exact E|].
      simpl in *. apply (IH b a eq_refl). lia.
Qed.

Lemma splitFirst_None (pat s : string) :
  splitFirst pat s = None -> forall n, startsWith pat (drop n s) = false.
Proof.
  induction s as [|c s IH]; intros H n.
  - simpl in H. destruct (startsWith pat "") eqn:E; [discriminate|].
    now destruct n.
  - simpl in H. destruct (startsWith pat (String c s)) eqn:E; [discriminate|].
    destruct (splitFirst pat s) as [[b a]|] eqn:E'; [discriminate|].
    destruct n as [|n]; [exact E | simpl; now apply IH].
Qed.

(* ================================================================== *)
(** * [buildPrompt] *)
(* ================================================================== *)

(** C9: the prompt holds exactly the first 12,000 characters of the
    content.  In both revisions the prompt is a head that depends on the
    file name only, then [kept], then the closing fence, where [kept] is
    the prefix of the content of length [min 12000 (length code)]: all of
    the content when it is shorter, and nothing of [dropped], the content
    from index 12,000 on. *)
Theorem buildPrompt_keeps_first_12000 :
  exists headB headP : string -> string,
  forall filename code : string,
  exists kept dropped : string,
    code = kept ++ dropped /\
    String.length kept = Nat.min 12000 (String.length code) /\
    BackendIndex.buildPrompt filename code = headB filename ++ kept ++ LF ++ "```" /\
    Part000.buildPrompt filename code = headP filename ++ kept ++ LF ++ "```".
Proof.
  exists (fun filename =>
            join LF [ "File name: " ++ filename; "";
                      "Analyze this code and produce high-level documentation focusing on business logic, architecture, and purpose.";
                      "Include diagrams where they add value. Use the JSON structure specified in the system prompt.";
                      ""; "Code:"; "```" ] ++ LF),
         (fun filename =>
            join LF [ "File name: " ++ filename; "";
                      "Analyze this code file and produce function-by-function documentation.";
                      "For each function, provide metadata (parameters, return type, side effects) and a narrative explanation of its logic flow.";
                      "Write the narrative as if telling a story - abstract the implementation into logical concepts.";
                      "Include diagrams (flowcharts, sequence diagrams) when they help visualize complex logic flows.";
                      "Use the JSON structure specified in the system prompt.";
                      ""; "Code:"; "```" ] ++ LF).
  intros filename code.
  exists (take 12000 code), (drop 12000 code).
  split; [apply take_drop|].
  split; [apply length_take|].
  unfold BackendIndex.buildPrompt, Part000.buildPrompt.
  generalize (take 12000 code) as kept; intro kept.
  cbn [join].
  split; repeat rewrite append_assoc; reflexivity.
Qed.

(* ================================================================== *)
(** * [extractText] *)
(* ================================================================== *)

Lemma getProp_present (v : jsval) (k : string) :
  Js.present v = true -> Js.getProp v k = Ret (Js.getPropOpt v k).
Proof. destruct v; simpl; intros H; try discriminate; reflexivity. Qed.






(* ================================================================== *)
(** * The validators *)
(* ================================================================== *)

Ltac run_monad :=
  unfold bind, ret, lift, emit, call, tryCatch, traceOf, valueOf in *;
  simpl in *.

Ltac solve_shape :=
  simpl;
  repeat match goal with
         | |- _ /\ _ => split
         | |- Forall _ [] => constructor
         | |- Forall _ (_ :: _) => constructor
         | |- validatorEvent _ => exact I
         | |- True => exact I
         | |- _ = _ => reflexivity
         | |- _ <> _ => discriminate
         end.

Ltac returns_with := eexists _, _, _; split; [reflexivity | solve_shape].

Section ValidatorFacts.
Context {W : Type} (env : World W).

(** [validateMermaid] always returns, with [{valid: true, error: null}]
    or [{valid: false, error: <string>}], and requests nothing over HTTP. *)
Lemma validateMermaid_returns (definition : jsval) (st : state W) :
  exists v tr st',
    validateMermaid env definition st = (Ret v, tr, st') /\
    Forall validatorEvent tr /\
    fetchesOf tr = [] /\
    (if valid v then error v = None else error v <> None).
Proof.
  unfold validateMermaid, initMermaid. run_monad.
  destruct (mermaidInitialized st); simpl;
    (destruct definition as [| |b|n|s|l|p]; simpl; try returns_with);
    (destruct (isEmpty (trim s)); simpl;
     [ returns_with
     | destruct (mermaid_parse env (trim s) _) as [[[]|e] w]; simpl; returns_with ]).
Qed.

Lemma validatePlantUML_returns (definition : jsval) (st : state W) :
  exists v tr st',
    validatePlantUML env definition st = (Ret v, tr, st') /\
    Forall validatorEvent tr /\
    (if valid v then error v = None else error v <> None).
Proof.
  unfold validatePlantUML. run_monad.
  destruct definition as [| |b|n|s|l|p]; simpl; try returns_with.
  destruct (isEmpty (trim s)); simpl; [returns_with|].
  destruct (fetch env _ (world st)) as [[r|e] w]; simpl; [|returns_with].
  destruct (resp_ok r); simpl; [|returns_with].
  destruct (resp_text r) as [text|e]; simpl; [|returns_with].
  destruct (includes "cannot include" text || includes "syntax error" text ||
            includes "Error" text || includes "^^^^^" text); simpl; returns_with.
Qed.

(** C5: on an input that is empty after trimming, each validator
    returns [valid: false] with its fixed message.  [validatePlantUML]
    does so before any call: its trace is empty, no HTTP request was
    issued.  [validateMermaid] does so after the one-time initialisation
    at most, without calling the parser, and it issues no HTTP request on
    any input. *)
Theorem validators_reject_empty (s : string) (st : state W) :
  trim s = "" ->
  valueOf (validateMermaid env (JStr s) st) =
    Ret {| valid := false; error := Some "Empty Mermaid definition" |} /\
  traceOf (validateMermaid env (JStr s) st) =
    (if mermaidInitialized st then [] else [EvMermaidInit]) /\
  validatePlantUML env (JStr s) st =
    (Ret {| valid := false; error := Some "Empty PlantUML definition" |}, [], st) /\
  (forall (definition : jsval) (st' : state W),
      fetchesOf (traceOf (validateMermaid env definition st')) = []).
Proof.
  intros Hs. repeat split.
  - unfold validateMermaid, initMermaid. run_monad. rewrite Hs.
    destruct (mermaidInitialized st); reflexivity.
  - unfold validateMermaid, initMermaid. run_monad. rewrite Hs.
    destruct (mermaidInitialized st); reflexivity.
  - unfold validatePlantUML. run_monad. rewrite Hs. reflexivity.
  - intros definition st'.
    destruct (validateMermaid_returns definition st') as (v & tr & st2 & -> & _ & Hf & _).
    exact Hf.
Qed.

End ValidatorFacts.

Lemma validators_reject_empty_witness :
  trim ("  " ++ LF) = "" /\
  valueOf (validateMermaid (Examples.stubbornWorld "") (JStr ("  " ++ LF)) Examples.start) =
    Ret {| valid := false; error := Some "Empty Mermaid definition" |}.
Proof.
  split; [reflexivity|].
  exact (proj1 (validators_reject_empty (Examples.stubbornWorld "") ("  " ++ LF)
                  Examples.start eq_refl)).
Defined.

(* ================================================================== *)
(** * The repair loop *)
(* ================================================================== *)

Lemma validationsOf_app (a b : list event) :
  validationsOf (a ++ b) = (validationsOf a ++ validationsOf b)%list.
Proof.
  induction a as [|e a IH]; simpl; [reflexivity|].
  destruct e; simpl; now rewrite IH.
Qed.

Lemma repairsOf_app (a b : list event) :
  repairsOf (a ++ b) = (repairsOf a ++ repairsOf b)%list.
Proof.
  induction a as [|e a IH]; simpl; [reflexivity|].
  destruct e; simpl; now rewrite IH.
Qed.

Lemma validator_trace_silent (tr : list event) :
  Forall validatorEvent tr -> validationsOf tr = [] /\ repairsOf tr = [].
Proof.
  induction 1 as [|e tr He _ [IHv IHr]]; [split; reflexivity|].
  destruct e; simpl in *; try contradiction; now split.
Qed.

Section LoopFacts.
Context {W : Type} (env : World W) (model : string).

Lemma askFix_returns (type code : jsval) (lastError0 : option string) (st : state W) :
  let req := fixRequest model type code lastError0 in
  exists res st',
    askFix env model type code lastError0 st =
      (Ret (fixedCodeOf res), [EvResponsesCreate req res], st').
Proof.
  intros req. unfold askFix. fold req. run_monad.
  destruct (responses_create env req (world st)) as [[fixResponse|e] w]; simpl.
  - destruct (extractText fixResponse) as [text|e] eqn:E; simpl;
      eexists (Ret fixResponse), _; simpl; rewrite E; reflexivity.
  - eexists (Throw e), _; reflexivity.
Qed.

Lemma repairLoop_run (diagram type : jsval) (g : grammar) :
  Js.getProp diagram "type" = Ret type ->
  grammarOf type = Some g ->
  forall (n : nat) (code : jsval) (lastError0 : option string) (st : state W),
  exists exit tr st',
    repairLoop env model diagram n code lastError0 st = (Ret exit, tr, st') /\
    loopRun model type g n code lastError0 tr exit.
Proof.
  intros Hty Hg n.
  assert (Hvalidate : forall code st, exists v trv st1,
             (if Js.strictEqStr type "mermaid"
              then validateMermaid env code st
              else validatePlantUML env code st) = (Ret v, trv, st1) /\
             Forall validatorEvent trv /\
             (if valid v then error v = None else error v <> None)).
  { intros code st. destruct (Js.strictEqStr type "mermaid").
    - destruct (validateMermaid_returns env code st) as (v & trv & st1 & E & Hev & _ & Hv).
      now exists v, trv, st1.
    - apply validatePlantUML_returns. }
  induction n as [|n IH]; intros code lastError0 st;
    simpl; unfold bind at 1; unfold lift at 1; rewrite Hty;
    unfold grammarOf in Hg;
    destruct (Hvalidate code st) as (v & trv & st1 & E & Hev & Hv);
    (destruct (Js.strictEqStr type "mermaid");
     [ injection Hg as <-
     | destruct (Js.strictEqStr type "plantuml" || Js.strictEqStr type "puml" ||
                 Js.strictEqStr type "uml"); [injection Hg as <- | discriminate] ]);
    unfold bind at 1; rewrite E; unfold bind at 1, emit at 1;
    destruct (valid v) eqn:Hvalid.
  all: try (unfold ret; simpl; eexists _, _, _; split; [reflexivity|];
            first [ now apply run_valid | now apply run_exhausted ]).
  all: unfold bind at 1; unfold lift at 1; unfold bind at 1;
    destruct (askFix_returns type code (error v) st1) as (res & st2 & Eask);
    simpl in Eask; rewrite Eask;
    destruct (fixedCodeOf res) as [code'|] eqn:Hfix.
  all: try (unfold ret; simpl; eexists _, _, _; split; [reflexivity|];
            now apply run_repair_failed).
  all: destruct (IH code' (error v) st2) as (exit & tr' & st' & Eloop & Hrun);
    rewrite Eloop; simpl; eexists _, _, _; split; [reflexivity|];
    eapply run_retry; eassumption.
Qed.

(** An entry whose declared type is not recognized leaves the loop at
    once. *)
Lemma repairLoop_unknown (diagram type : jsval) :
  Js.getProp diagram "type" = Ret type ->
  grammarOf type = None ->
  forall (n : nat) (code : jsval) (lastError0 : option string) (st : state W),
    repairLoop env model diagram n code lastError0 st =
      (Ret {| currentCode := code; isValid := true; lastError := lastError0 |}, [], st).
Proof.
  intros Hty Hg n code lastError0 st. unfold grammarOf in Hg.
  destruct n; simpl; unfold bind at 1; unfold lift at 1; rewrite Hty;
    destruct (Js.strictEqStr type "mermaid"); try discriminate;
    destruct (Js.strictEqStr type "plantuml" || Js.strictEqStr type "puml" ||
              Js.strictEqStr type "uml"); try discriminate; reflexivity.
Qed.

End LoopFacts.

(* ================================================================== *)
(** * What a run of the loop tells *)
(* ================================================================== *)

Lemma validationsOf_step (trv : list event) (g : grammar) (code : jsval)
    (v : validation) (rest : list event) :
  Forall validatorEvent trv ->
  validationsOf (trv ++ EvValidate g code v :: rest) = (g, code, v) :: validationsOf rest.
Proof.
  intros H. rewrite validationsOf_app.
  destruct (validator_trace_silent trv H) as [-> _]. reflexivity.
Qed.

Lemma repairsOf_step (trv : list event) (g : grammar) (code : jsval)
    (v : validation) (rest : list event) :
  Forall validatorEvent trv ->
  repairsOf (trv ++ EvValidate g code v :: rest) = repairsOf rest.
Proof.
  intros H. rewrite repairsOf_app.
  destruct (validator_trace_silent trv H) as [_ ->]. reflexivity.
Qed.

Lemma rev_cons_cons {A : Type} (x y : A) (l : list A) :
  exists a r, rev (y :: l) = a :: r /\ rev (x :: y :: l) = a :: (r ++ [x])%list.
Proof.
  change (rev (x :: y :: l)) with (rev (y :: l) ++ [x])%list.
  destruct (rev (y :: l)) as [|a r] eqn:E.
  - apply (f_equal (@length A)) in E. rewrite length_rev in E. discriminate.
  - exists a, r. split; reflexivity.
Qed.

Section RunFacts.
Variables (model : string) (type : jsval) (g : grammar).

(** Every run validates at least once, always under grammar [g], and
    ends with a validator call on the text it returns. *)
Lemma loopRun_validations n code lastError0 tr exit :
  loopRun model type g n code lastError0 tr exit ->
  Forall (fun x => fst (fst x) = g) (validationsOf tr) /\
  exists v, lastValidation tr = Some (currentCode exit, v) /\
            (isValid exit = false -> lastError exit = error v /\ error v <> None) /\
            valid v = isValid exit.
Proof.
  unfold lastValidation.
  induction 1 as [n code le trv v Hev Hv | code le trv v Hev Hv He
                 | n code le trv v res Hev Hv He Hfix
                 | n code le trv v res code' tr' exit Hev Hv He Hfix Hrun [IHg IH]].
  - rewrite validationsOf_step by assumption. simpl. split; [repeat constructor|].
    exists v. repeat split; try assumption; discriminate.
  - rewrite validationsOf_step by assumption. simpl. split; [repeat constructor|].
    exists v. repeat split; assumption.
  - rewrite validationsOf_step by assumption. simpl. split; [repeat constructor|].
    exists v. repeat split; assumption.
  - rewrite validationsOf_step by assumption. simpl validationsOf.
    split; [constructor; [reflexivity | exact IHg]|].
    destruct IH as (v' & Hlast & Herr).
    exists v'. split; [|exact Herr].
    destruct (validationsOf tr') as [|y l] eqn:E; [discriminate|].
    destruct (rev_cons_cons (g, code, v) y l) as (a & r & E1 & E2).
    rewrite E2. rewrite E1 in Hlast. destruct a as [[g0 d0] v0]. exact Hlast.
Qed.



End RunFacts.

(* ================================================================== *)
(** * One diagram entry *)
(* ================================================================== *)


Lemma knownKind_grammarOf (type : jsval) :
  knownKind type = match grammarOf type with Some _ => true | None => false end.
Proof.
  unfold knownKind, grammarOf.
  destruct (Js.strictEqStr type "mermaid"), (Js.strictEqStr type "plantuml"),
    (Js.strictEqStr type "puml"), (Js.strictEqStr type "uml"); reflexivity.
Qed.

Section EntryFacts.
Context {W : Type} (env : World W) (model : string).

Lemma fixDiagram_known (diagram : jsval) (g : grammar) (n i : nat) (st : state W) :
  Js.present diagram = true ->
  grammarOf (Js.getPropOpt diagram "type") = Some g ->
  exists exit tr st',
    fixDiagram env model n i diagram st = (Ret (resultOf diagram i exit), tr, st') /\
    loopRun model (Js.getPropOpt diagram "type") g n
            (Js.getPropOpt diagram "code") None tr exit.
Proof.
  intros Hp Hg. unfold fixDiagram.
  rewrite !(getProp_present _ _ Hp).
  destruct (repairLoop_run env model diagram _ g (getProp_present _ "type" Hp) Hg
              n (Js.getPropOpt diagram "code") None st)
    as (exit & tr & st' & E & Hrun).
  run_monad. rewrite E. simpl. rewrite app_nil_r.
  exists exit, tr, st'. split; [reflexivity | exact Hrun].
Qed.

Lemma fixDiagram_unknown (diagram : jsval) (n i : nat) (st : state W) :
  Js.present diagram = true ->
  grammarOf (Js.getPropOpt diagram "type") = None ->
  fixDiagram env model n i diagram st =
    (Ret (resultOf diagram i
            {| currentCode := Js.getPropOpt diagram "code";
               isValid := true; lastError := None |}), [], st).
Proof.
  intros Hp Hg. unfold fixDiagram.
  rewrite !(getProp_present _ _ Hp). run_monad.
  rewrite (repairLoop_unknown env model diagram _ (getProp_present _ "type" Hp) Hg).
  reflexivity.
Qed.




End EntryFacts.

(* ================================================================== *)
(** * All the entries, and the request *)
(* ================================================================== *)

Section RequestFacts.
Context {W : Type} (env : World W) (cfg : config).






(** The handler of [src/unnamed/part_000] treats a [diagrams] field
    that is missing, or not an array, as the empty list: the request
    succeeds and returns the markdown without its placeholder tokens. *)
Lemma part000_diagrams_default_to_empty
    (parsed diagrams : jsval) (markdown : string) (st : state W) :
  Js.getProp parsed "markdown" = Ret (JStr markdown) ->
  markdown <> "" ->
  Js.getProp parsed "diagrams" = Ret diagrams ->
  (forall l, diagrams <> JArr l) ->
  Part000.afterParse env cfg parsed st =
    (Ret {| status := 200;
            body := JObj [("markdown", JStr (removePlaceholders markdown))] |},
     [], st).
Proof.
  intros Hmd Hne Hds Hnot.
  assert (Ht : Js.truthy (JStr markdown) = true) by (now destruct markdown).
  unfold Part000.afterParse, validateAndFixDiagrams, validateAndFixDiagramsWith.
  run_monad. rewrite Hmd, Hds. simpl. rewrite Ht. simpl.
  destruct diagrams; try reflexivity. now elim (Hnot elems).
Qed.

(** The handler of [src/backend/src/index.js] answers 502 whenever
    [diagrams] is not an array. *)
Lemma backend_index_requires_array
    (parsed markdown diagrams : jsval) (st : state W) :
  Js.getProp parsed "markdown" = Ret markdown ->
  Js.getProp parsed "diagrams" = Ret diagrams ->
  (forall l, diagrams <> JArr l) ->
  BackendIndex.afterParse env cfg parsed st =
    (Ret (errorResponse 502 "Invalid response structure from GPT-5.1"), [], st).
Proof.
  intros Hmd Hds Hnot. unfold BackendIndex.afterParse.
  run_monad. rewrite Hmd, Hds. simpl.
  destruct (Js.truthy markdown); [|reflexivity]. simpl.
  destruct diagrams; try reflexivity. now elim (Hnot elems).
Qed.

(** C1 on [src/backend/src/index.js]: a parsed response with a markdown
    text and no [diagrams] field is answered with status 502, where the
    claim (and the handler of [src/unnamed/part_000], see
    [part000_diagrams_default_to_empty]) returns the document. *)
Theorem backend_index_rejects_missing_diagrams (st : state W) :
  let parsed := JObj [("markdown", JStr "# Report {{DIAGRAM_0}}")] in
  BackendIndex.afterParse env cfg parsed st =
    (Ret (errorResponse 502 "Invalid response structure from GPT-5.1"), [], st) /\
  Part000.afterParse env cfg parsed st =
    (Ret {| status := 200; body := JObj [("markdown", JStr "# Report ")] |}, [], st).
Proof.
  split.
  - reflexivity.
  - rewrite (part000_diagrams_default_to_empty _ JUndefined "# Report {{DIAGRAM_0}}");
      try reflexivity; discriminate.
Qed.

End RequestFacts.

(* ================================================================== *)
(** * Placeholders and their removal *)
(* ================================================================== *)

Lemma drop_app_le (n : nat) (p x : string) :
  (n <= String.length p)%nat -> drop n (p ++ x) = drop n p ++ x.
Proof.
  revert p; induction n as [|n IH]; intros p H.
  - now destruct p.
  - destruct p as [|c p]; simpl in *; [lia|]. apply IH. lia.
Qed.










Lemma inertHead_empty : inertHead "".
Proof.
  repeat split. intros k Hk.
  do 10 (destruct k as [|k]; [try lia; reflexivity|]). lia.
Qed.










(** A replacement text without [$] is inserted as it is. *)
Lemma expandReplacement_plain (matched before after replacement : string) :
  allChars notDollar replacement = true ->
  expandReplacement matched before after replacement = replacement.
Proof.
  induction replacement as [|c r IH]; intros H; [reflexivity|].
  cbn [allChars] in H. apply andb_true_iff in H as [Hc Hr].
  specialize (IH Hr).
  assert (Hstep : expandReplacement matched before after (String c r) =
                  String c (expandReplacement matched before after r)).
  { destruct c as [[] [] [] [] [] [] [] []]; try reflexivity.
    discriminate Hc. }
  rewrite Hstep, IH. reflexivity.
Qed.

Lemma allChars_app (f : ascii -> bool) (a b : string) :
  allChars f (a ++ b) = allChars f a && allChars f b.
Proof.
  induction a as [|c a IH]; simpl; [reflexivity|].
  now rewrite IH, andb_assoc.
Qed.




(** C6 at the failing input: with no diagrams, the cleanup of
    [{{DIAGRAM_{{DIAGRAM_0}}1}}] removes the inner token and leaves
    [{{DIAGRAM_1}}], a placeholder token, in the output; assembling that
    output again gives the empty text, not the same text. *)
Theorem cleanup_can_leave_a_placeholder :
  assemble "{{DIAGRAM_{{DIAGRAM_0}}1}}" [] = "{{DIAGRAM_1}}" /\
  hasPlaceholder (assemble "{{DIAGRAM_{{DIAGRAM_0}}1}}" []) = true /\
  assemble (assemble "{{DIAGRAM_{{DIAGRAM_0}}1}}" []) [] = "" /\
  assemble (assemble "{{DIAGRAM_{{DIAGRAM_0}}1}}" []) [] <>
    assemble "{{DIAGRAM_{{DIAGRAM_0}}1}}" [].
Proof. repeat split; vm_compute; discriminate. Qed.




(* ================================================================== *)
(** * The first occurrence of a token in a text of segments *)
(* ================================================================== *)

Lemma splitFirst_cons_false (pat : string) (c : ascii) (s : string) :
  startsWith pat (String c s) = false ->
  splitFirst pat (String c s) =
    match splitFirst pat s with
    | Some (before, after) => Some (String c before, after)
    | None => None
    end.
Proof. intros H. cbn [splitFirst]. rewrite H. reflexivity. Qed.


Lemma replaceFirst_plain (pat repl s : string) :
  allChars notDollar repl = true ->
  replaceFirst s pat repl =
    match splitFirst pat s with
    | Some (before, after) => before ++ repl ++ after
    | None => s
    end.
Proof.
  intros Hplain. unfold replaceFirst.
  destruct (splitFirst pat s) as [[x y]|]; [|reflexivity].
  now rewrite expandReplacement_plain.
Qed.

(** A replacement without [$] skips a prefix in which the pattern does
    not start. *)
Lemma replaceFirst_skip (pat repl a b : string) :
  allChars notDollar repl = true ->
  (forall n, (n < String.length a)%nat -> startsWith pat (drop n (a ++ b)) = false) ->
  replaceFirst (a ++ b) pat repl = a ++ replaceFirst b pat repl.
Proof.
  intros Hplain. rewrite !(replaceFirst_plain _ _ _ Hplain).
  induction a as [|c a IH]; intros H; [reflexivity|].
  change (String c a ++ b) with (String c (a ++ b)).
  rewrite splitFirst_cons_false by (apply (H 0%nat); simpl; lia).
  assert (IH' := IH (fun n Hn => H (S n) ltac:(simpl; lia))).
  destruct (splitFirst pat (a ++ b)) as [[x y]|];
    destruct (splitFirst pat b) as [[x' y']|]; simpl; f_equal; exact IH'.
Qed.

Lemma replaceFirst_here (pat repl s : string) :
  allChars notDollar repl = true ->
  replaceFirst (pat ++ s) pat repl = repl ++ s.
Proof.
  intros Hplain. unfold replaceFirst.
  assert (E : splitFirst pat (pat ++ s) = Some ("", s)).
  { destruct (pat ++ s) eqn:Es; cbn [splitFirst]; rewrite <- Es;
      rewrite startsWith_append, drop_append; reflexivity. }
  rewrite E. now rewrite expandReplacement_plain.
Qed.































(* ================================================================== *)
(** * Which occurrence receives which diagram *)
(* ================================================================== *)













(* ================================================================== *)
(** * Examples, witnesses and counterexamples *)
(* ================================================================== *)








(** What the run of the witness looks like: the repair call for the first
    entry throws, its result keeps the original code with [valid: false]
    and the parser's message, the second entry is processed, and the
    document is returned with the first block in place. *)
Example offline_request :
  valueOf (Part000.afterParse Examples.offlineWorld Examples.cfg
             (JObj [("markdown", JStr "intro {{DIAGRAM_0}} outro");
                    ("diagrams", JArr [Examples.flowEntry; Examples.otherEntry])])
             Examples.start) =
    Ret {| status := 200;
           body := JObj [("markdown",
                          JStr ("intro ```mermaid" ++ LF ++ "graph TD; A-->" ++ LF ++
                                "``` outro"))] |} /\
  valueOf (validateAndFixDiagrams Examples.offlineWorld "gpt-5.1"
             [Examples.flowEntry; Examples.otherEntry] Examples.start) =
    Ret [ {| res_type := JStr "mermaid"; res_code := JStr "graph TD; A-->";
             res_originalPosition := JNum 0; res_valid := false;
             res_error := Some "Parse error on line 1" |};
          {| res_type := JStr "graphviz"; res_code := JStr "digraph {}";
             res_originalPosition := JNum 1; res_valid := true;
             res_error := None |} ].
Proof. split; reflexivity. Qed.

(** The three end-to-end scenarios of the specification, run on the
    handler of [src/unnamed/part_000]. *)
Example scenario_A :
  valueOf (Part000.afterParse Examples.friendlyWorld Examples.cfg
             (JObj [("markdown", JStr "intro {{DIAGRAM_0}} outro");
                    ("diagrams",
                     JArr [JObj [("type", JStr "mermaid");
                                 ("code", JStr "graph TD; A-->B");
                                 ("position", JNum 0)]])])
             Examples.start) =
    Ret {| status := 200;
           body := JObj [("markdown",
                          JStr ("intro ```mermaid" ++ LF ++ "graph TD; A-->B" ++ LF ++
                                "``` outro"))] |}.
Proof. reflexivity. Qed.

Example scenario_B :
  valueOf (Part000.afterParse Examples.friendlyWorld Examples.cfg
             (JObj [("markdown", JStr "intro {{DIAGRAM_0}} outro")])
             Examples.start) =
    Ret {| status := 200; body := JObj [("markdown", JStr "intro  outro")] |}.
Proof. reflexivity. Qed.

Example scenario_C :
  valueOf (Part000.afterParse Examples.friendlyWorld Examples.cfg
             (JObj [("markdown", JStr "only {{DIAGRAM_1}} here");
                    ("diagrams",
                     JArr [JObj [("type", JStr "mermaid");
                                 ("code", JStr "graph TD; A-->B");
                                 ("position", JNum 0)];
                           JObj [("type", JStr "plantuml");
                                 ("code", JStr "Alice -> Bob");
                                 ("position", JNum 1)]])])
             Examples.start) =
    Ret {| status := 200;
           body := JObj [("markdown",
                          JStr ("only ```plantuml" ++ LF ++ "Alice -> Bob" ++ LF ++
                                "``` here"))] |}.
Proof. reflexivity. Qed.

(* ================================================================== *)
(** * [trim], and the text [extractText] returns *)
(* ================================================================== *)

Lemma length_trimStart (s : string) :
  (String.length (trimStart s) <= String.length s)%nat.
Proof.
  induction s as [|c s IH]; simpl; [lia|].
  destruct (isWhiteSpace c); simpl; lia.
Qed.

Lemma trimStart_head (c : ascii) (s : string) :
  trimStart (String c s) = String c s -> isWhiteSpace c = false.
Proof.
  simpl. destruct (isWhiteSpace c); [|reflexivity].
  intros H. pose proof (length_trimStart s) as Hl. rewrite H in Hl. simpl in Hl. lia.
Qed.

Lemma trimStart_idem (s : string) : trimStart (trimStart s) = trimStart s.
Proof.
  induction s as [|c s IH]; [reflexivity|].
  simpl. destruct (isWhiteSpace c) eqn:E; [exact IH|].
  simpl. now rewrite E.
Qed.

Lemma trimEnd_idem (s : string) : trimEnd (trimEnd s) = trimEnd s.
Proof.
  induction s as [|c s IH]; [reflexivity|].
  cbn [trimEnd]. destruct (trimEnd s) as [|d t] eqn:E.
  - destruct (isWhiteSpace c) eqn:Ec; [reflexivity|].
    cbn [trimEnd]. now rewrite Ec.
  - cbn [trimEnd] in *. now rewrite IH.
Qed.

Lemma trimEnd_keeps_head (c : ascii) (s : string) :
  isWhiteSpace c = false -> exists t, trimEnd (String c s) = String c t.
Proof.
  intros Hc. cbn [trimEnd]. destruct (trimEnd s) as [|d t].
  - rewrite Hc. now exists "".
  - now exists (String d t).
Qed.

Lemma trimStart_trimEnd (u : string) :
  trimStart u = u -> trimStart (trimEnd u) = trimEnd u.
Proof.
  destruct u as [|c u]; [reflexivity|]. intros H.
  apply trimStart_head in H.
  destruct (trimEnd_keeps_head c u H) as [t ->].
  simpl. now rewrite H.
Qed.

(** Trimming twice is trimming once. *)
Lemma trim_idem (s : string) : trim (trim s) = trim s.
Proof.
  unfold trim.
  rewrite (trimStart_trimEnd (trimStart s)) by apply trimStart_idem.
  apply trimEnd_idem.
Qed.

(** A text that starts with a character [trim] keeps is not trimmed to
    nothing. *)
Lemma trim_keeps_head (c : ascii) (s : string) :
  isWhiteSpace c = false -> trim (String c s) <> "".
Proof.
  intros Hc. unfold trim. simpl trimStart. rewrite Hc.
  destruct (trimEnd_keeps_head c s Hc) as [t ->]. discriminate.
Qed.

(** X1: whatever envelope it is given, the text [extractText] returns
    has no white space at either end.  So the [.trim()] the repair loop
    applies to it changes nothing: the text the loop continues with is the
    returned text with its code fences removed. *)
Theorem extractText_returns_trimmed_text (response : jsval) (text : string) :
  extractText response = Ret text ->
  trim text = text /\
  fixedCodeOf (Ret response) = Some (JStr (stripFences text)).
Proof.
  intros H.
  assert (Ht : trim text = text).
  { unfold extractText in H.
    destruct (negb (Js.truthy response)); [now injection H as <-|].
    destruct (Js.getProp response "output") as [output|e]; simpl in H; [|discriminate].
    destruct (Js.truthy output).
    - destruct (outputChunks output) as [chunks|e]; simpl in H; [|discriminate].
      destruct (omap chunkText chunks) as [texts|e]; simpl in H; [|discriminate].
      injection H as <-. apply trim_idem.
    - destruct (Js.getProp response "choices") as [choices|e]; simpl in H; [|discriminate].
      destruct (Js.truthy choices); [|now injection H as <-].
      destruct choices as [| |b|n|s|cs|p]; try discriminate.
      destruct (omap choiceContent cs) as [contents|e]; simpl in H; [|discriminate].
      injection H as <-. apply trim_idem. }
  split; [exact Ht|].
  unfold fixedCodeOf. rewrite H, Ht. reflexivity.
Qed.

Lemma extractText_returns_trimmed_text_witness :
  extractText (Examples.textEnvelope ("  graph TD; A-->B " ++ LF)) = Ret "graph TD; A-->B" /\
  trim "graph TD; A-->B" = "graph TD; A-->B".
Proof.
  split; [reflexivity|].
  exact (proj1 (extractText_returns_trimmed_text
                  (Examples.textEnvelope ("  graph TD; A-->B " ++ LF))
                  "graph TD; A-->B" eq_refl)).
Defined.

(* ================================================================== *)
(** * Code fences around a repaired diagram *)
(* ================================================================== *)

Lemma dropWhile_word (lang rest : string) :
  allChars isWordChar lang = true ->
  dropWhile isWordChar (lang ++ LF ++ rest) = LF ++ rest.
Proof.
  induction lang as [|c lang IH]; intros H; [reflexivity|].
  simpl in H. apply andb_true_iff in H as [Hc Hl].
  change (String c lang ++ LF ++ rest) with (String c (lang ++ LF ++ rest)).
  cbn [dropWhile]. rewrite Hc. now apply IH.
Qed.

Lemma stripOpeningFence_fenced (lang rest : string) :
  allChars isWordChar lang = true ->
  stripOpeningFence ("```" ++ lang ++ LF ++ rest) = rest.
Proof.
  intros H. unfold stripOpeningFence.
  change ("```" ++ lang ++ LF ++ rest)
    with (String "`" (String "`" (String "`" (lang ++ LF ++ rest)))).
  cbn [startsWith drop Ascii.eqb Bool.eqb andb].
  rewrite (dropWhile_word lang rest H). reflexivity.
Qed.

Lemma stripOpeningFence_none (s : string) :
  startsWith "```" s = false -> stripOpeningFence s = s.
Proof. intros H. unfold stripOpeningFence. now rewrite H. Qed.

Lemma stripClosingFence_fenced (body : string) :
  stripClosingFence (body ++ LF ++ "```") = body.
Proof.
  induction body as [|c body IH].
  - reflexivity.
  - change (String c body ++ LF ++ "```") with (String c (body ++ LF ++ "```")).
    cbn [stripClosingFence].
    assert (E : String.eqb (String c (body ++ LF ++ "```")) (LF ++ "```") = false).
    { apply String.eqb_neq. intros H. apply (f_equal String.length) in H.
      simpl in H. rewrite length_append in H. simpl in H. lia. }
    rewrite E, IH. reflexivity.
Qed.

Lemma stripClosingFence_none (s : string) :
  (forall n, startsWith "```" (drop n s) = false) -> stripClosingFence s = s.
Proof.
  induction s as [|c s IH]; intros H; [reflexivity|].
  cbn [stripClosingFence].
  assert (E : String.eqb (String c s) (LF ++ "```") = false).
  { apply String.eqb_neq. intros E. rewrite E in H. specialize (H 1%nat). discriminate. }
  rewrite E, IH; [reflexivity|]. intros n. exact (H (S n)).
Qed.

(** X2: the loop unwraps a repaired diagram that comes back in a code
    fence: from an answer made of an opening fence with any language tag
    (word characters, possibly none), a line feed, the body, a line feed
    and a closing fence, it keeps the trimmed body.  An answer that holds
    no fence mark at all is only trimmed. *)
Theorem stripFences_unwraps (lang body plain : string) :
  allChars isWordChar lang = true ->
  includes "```" plain = false ->
  stripFences ("```" ++ lang ++ LF ++ body ++ LF ++ "```") = trim body /\
  stripFences plain = trim plain.
Proof.
  intros Hlang Hplain. unfold stripFences. split.
  - now rewrite stripOpeningFence_fenced, stripClosingFence_fenced.
  - unfold includes in Hplain.
    destruct (splitFirst "```" plain) as [p|] eqn:E; [discriminate|].
    pose proof (splitFirst_None _ _ E) as Hno.
    rewrite stripOpeningFence_none by exact (Hno 0%nat).
    now rewrite stripClosingFence_none.
Qed.

Lemma stripFences_unwraps_witness :
  allChars isWordChar "mermaid" = true /\
  includes "```" " graph TD; A-->B" = false /\
  stripFences ("```mermaid" ++ LF ++ "graph TD; A-->B " ++ LF ++ "```") = "graph TD; A-->B".
Proof.
  split; [reflexivity|]. split; [reflexivity|].
  exact (proj1 (stripFences_unwraps "mermaid" "graph TD; A-->B " " graph TD; A-->B"
                  eq_refl eq_refl)).
Defined.

(* ================================================================== *)
(** * The validators, on any input *)
(* ================================================================== *)

Section ValidatorVerdicts.
Context {W : Type} (env : World W).


(** X4: for a text that is not empty after trimming, [validatePlantUML]
    issues exactly one HTTP request, for the text form of the trimmed and
    encoded definition, and nothing else.  The verdict is valid exactly
    when the server answered with an OK status and a body that holds none
    of the four error marks; a non-OK answer is reported as
    [HTTP <status>: <statusText>], a failed request by its message. *)
Theorem validatePlantUML_verdict (s : string) (st : state W) :
  trim s <> "" ->
  let url := "https://www.plantuml.com/plantuml/txt/" ++ plantuml_encode env (trim s) in
  let answer := fetch env url (world st) in
  exists v,
    validatePlantUML env (JStr s) st =
      (Ret v, [EvFetch url (fst answer)],
       {| mermaidInitialized := mermaidInitialized st; world := snd answer |}) /\
    (valid v = true <->
       exists r text,
         fst answer = Ret r /\ resp_ok r = true /\ resp_text r = Ret text /\
         includes "cannot include" text = false /\
         includes "syntax error" text = false /\
         includes "Error" text = false /\
         includes "^^^^^" text = false) /\
    (forall r, fst answer = Ret r -> resp_ok r = false ->
       error v = Some ("HTTP " ++ Js.numberToString (resp_status r) ++ ": " ++
                       resp_statusText r)) /\
    (forall e, fst answer = Throw e ->
       error v = Some (orElse (exn_message e) (exn_toString e))).
Proof.
  intros Hne url answer.
  assert (Hempty : isEmpty (trim s) = false) by (destruct (trim s); [congruence | reflexivity]).
  unfold validatePlantUML. run_monad. rewrite Hempty. simpl.
  fold url. fold answer. destruct answer as [[r|e] w]; simpl.
  - destruct (resp_ok r) eqn:Hok; simpl.
    + destruct (resp_text r) as [text|e] eqn:Htext; simpl.
      * destruct (includes "cannot include" text) eqn:H1;
          [|destruct (includes "syntax error" text) eqn:H2;
            [|destruct (includes "Error" text) eqn:H3;
              [|destruct (includes "^^^^^" text) eqn:H4]]]; simpl;
          (eexists; split; [reflexivity|]; simpl; split; [split|split]).
        all: try discriminate.
        all: try (intros r' [= <-] Hok'; congruence).
        all: try (intros (r' & t' & [= <-] & _ & Et & H1' & H2' & H3' & H4'); congruence).
        intros _. exists r, text. repeat split; assumption.
      * eexists. split; [reflexivity|]. simpl. split; [split|split].
        all: try discriminate.
        -- intros (r' & t' & [= <-] & _ & Et & _). congruence.
        -- intros r' [= <-] Hok'. congruence.
    + eexists. split; [reflexivity|]. simpl. split; [split|split].
      all: try discriminate.
      * intros (r' & t' & [= <-] & Hok' & _). congruence.
      * intros r' [= <-] _. reflexivity.
  - eexists. split; [reflexivity|]. simpl. split; [split|split].
    all: try discriminate.
    + intros (r' & t' & [=] & _).
    + intros e' [= <-]. reflexivity.
Qed.

(** X5: for a text that is not empty after trimming, [validateMermaid]
    initialises the library if that has not been done, then gives the
    trimmed text to the parser, once.  The verdict is valid exactly when
    the parser returns; when it throws, the error is the thrown value's
    [message], else its [str], else its string form. *)
Theorem validateMermaid_verdict (s : string) (st : state W) :
  trim s <> "" ->
  let answer := mermaid_parse env (trim s) (world st) in
  exists v,
    validateMermaid env (JStr s) st =
      (Ret v,
       ((if mermaidInitialized st then [] else [EvMermaidInit]) ++
        [EvMermaidParse (trim s) (fst answer)])%list,
       {| mermaidInitialized := true; world := snd answer |}) /\
    (valid v = true <-> exists u, fst answer = Ret u) /\
    (forall e, fst answer = Throw e ->
       error v = Some (orElse (exn_message e)
                              (orElse (exn_str e) (exn_toString e)))).
Proof.
  intros Hne answer.
  assert (Hempty : isEmpty (trim s) = false) by (destruct (trim s); [congruence | reflexivity]).
  unfold validateMermaid, initMermaid. run_monad.
  destruct (mermaidInitialized st) eqn:Hinit; simpl; rewrite Hempty; simpl;
    try rewrite Hinit;
    fold answer; destruct answer as [[u|e] w]; simpl;
    (eexists; split; [reflexivity|]; simpl; split; [split|]).
  all: try discriminate.
  all: try (intros _; now exists u).
  all: try (intros _; reflexivity).
  all: try (intros [u' [=]]).
  all: try (intros e' [= <-]; reflexivity).
  all: intros e' [=].
Qed.

(** The error message is searched for without regard to case, from the
    left; a mark found by [includes] is always matched. *)
Lemma matchError_here (x m : string) :
  matchErrorAt x = Some m -> matchError x = Some m.
Proof. intros H. destruct x; cbn [matchError]; now rewrite H. Qed.

Lemma matchError_app (before x m0 : string) :
  matchErrorAt x = Some m0 -> exists m, matchError (before ++ x) = Some m.
Proof.
  intros H. induction before as [|c before [m IH]].
  - exists m0. now apply matchError_here.
  - change (String c before ++ x) with (String c (before ++ x)).
    cbn [matchError]. destruct (matchErrorAt (String c (before ++ x))) as [m1|].
    + now exists m1.
    + now exists m.
Qed.

Lemma matchErrorAt_mark (mark after : string) :
  mark = "cannot include" \/ mark = "syntax error" \/ mark = "Error" ->
  exists m0, matchErrorAt (mark ++ after) = Some m0.
Proof.
  intros [-> | [-> | ->]]; unfold matchErrorAt; eexists; reflexivity.
Qed.

Lemma whiteSpace_has_no_case (b : ascii) :
  isWhiteSpace b = true -> toLowerAscii b = b.
Proof.
  destruct b as [[] [] [] [] [] [] [] []]; intros H;
    solve [reflexivity | vm_compute in H; discriminate H].
Qed.

Lemma startsWithNoCase_head (p : ascii) (ps : string) (s : string) :
  isWhiteSpace (toLowerAscii p) = false ->
  startsWithNoCase (String p ps) s = true ->
  exists b s', s = String b s' /\ isWhiteSpace b = false.
Proof.
  intros Hp H. destruct s as [|b s']; [discriminate|].
  exists b, s'. split; [reflexivity|].
  simpl in H. apply andb_true_iff in H as [H _]. apply Ascii.eqb_eq in H.
  destruct (isWhiteSpace b) eqn:Hb; [|reflexivity].
  rewrite (whiteSpace_has_no_case b Hb) in H. congruence.
Qed.

Lemma matchErrorAt_head (s m : string) :
  matchErrorAt s = Some m -> exists c r, m = String c r /\ isWhiteSpace c = false.
Proof.
  unfold matchErrorAt. intros H.
  destruct (startsWithNoCase "cannot " s && negb (isEmpty (restOfLine (drop 7 s)))) eqn:E0.
  { apply andb_true_iff in E0 as [E1 _].
    destruct (startsWithNoCase_head "c" "annot " s eq_refl E1) as (b & s' & -> & Hb).
    injection H as <-. exists b. eexists. split; [reflexivity | exact Hb]. }
  destruct (startsWithNoCase "syntax error" s) eqn:E2.
  { destruct (startsWithNoCase_head "s" "yntax error" s eq_refl E2) as (b & s' & -> & Hb).
    injection H as <-. exists b. eexists. split; [reflexivity | exact Hb]. }
  destruct (startsWithNoCase "Error" s) eqn:E3; [|discriminate].
  destruct (startsWithNoCase_head "E" "rror" s eq_refl E3) as (b & s' & -> & Hb).
  injection H as <-. exists b. eexists. split; [reflexivity | exact Hb].
Qed.

Lemma matchError_head (text m : string) :
  matchError text = Some m -> exists c r, m = String c r /\ isWhiteSpace c = false.
Proof.
  induction text as [|c text IH]; cbn [matchError].
  - destruct (matchErrorAt "") as [m1|] eqn:E; [|discriminate].
    intros [= <-]. now apply (matchErrorAt_head "").
  - destruct (matchErrorAt (String c text)) as [m1|] eqn:E; [|exact IH].
    intros [= <-]. now apply (matchErrorAt_head (String c text)).
Qed.

(** X6: when the body of an OK answer holds one of the three textual
    error marks, the error [validatePlantUML] reports is the leftmost
    match of the message pattern, trimmed, and it is not empty; the fixed
    message [PlantUML syntax error detected] can only stand for a body
    whose sole mark is the row of carets. *)
Theorem plantuml_error_is_extracted
    (s text : string) (r : http_response) (st : state W) (w' : W) :
  trim s <> "" ->
  fetch env ("https://www.plantuml.com/plantuml/txt/" ++ plantuml_encode env (trim s))
        (world st) = (Ret r, w') ->
  resp_ok r = true ->
  resp_text r = Ret text ->
  includes "cannot include" text = true \/ includes "syntax error" text = true \/
  includes "Error" text = true ->
  exists m,
    matchError text = Some m /\ trim m <> "" /\
    valueOf (validatePlantUML env (JStr s) st) =
      Ret {| valid := false; error := Some (trim m) |}.
Proof.
  intros Hne Hfetch Hok Htext Hmark.
  assert (Hm : exists m, matchError text = Some m).
  { assert (Hin : exists mark, (mark = "cannot include" \/ mark = "syntax error" \/
                               mark = "Error") /\ includes mark text = true).
    { destruct Hmark as [H | [H | H]]; eexists; (split; [|exact H]); auto. }
    destruct Hin as (mark & Hmk & Hin). unfold includes in Hin.
    destruct (splitFirst mark text) as [[before after]|] eqn:E; [|discriminate].
    apply splitFirst_Some in E. subst text.
    destruct (matchErrorAt_mark mark after Hmk) as [m0 Hm0].
    exact (matchError_app before _ m0 Hm0). }
  destruct Hm as [m Hm]. exists m. split; [exact Hm|]. split.
  - destruct (matchError_head text m Hm) as (c & rest & -> & Hc).
    now apply trim_keeps_head.
  - assert (Hempty : isEmpty (trim s) = false)
      by (destruct (trim s); [congruence | reflexivity]).
    unfold validatePlantUML. run_monad. rewrite Hempty. simpl.
    rewrite Hfetch. simpl. rewrite Hok. simpl. rewrite Htext. simpl.
    assert (Hany : includes "cannot include" text || includes "syntax error" text ||
                   includes "Error" text || includes "^^^^^" text = true).
    { destruct Hmark as [-> | [-> | ->]]; simpl;
        repeat (rewrite ?orb_true_r, ?orb_true_l); reflexivity. }
    rewrite Hany. simpl. rewrite Hm. reflexivity.
Qed.

End ValidatorVerdicts.

Lemma validatePlantUML_verdict_witness :
  trim "Alice -> Bob" <> "" /\
  exists v,
    valueOf (validatePlantUML Examples.friendlyWorld (JStr "Alice -> Bob") Examples.start) =
      Ret v /\
    valid v = true.
Proof.
  split; [vm_compute; discriminate|].
  destruct (validatePlantUML_verdict Examples.friendlyWorld "Alice -> Bob" Examples.start
              ltac:(vm_compute; discriminate)) as (v & E & Hv & _).
  exists v. split; [now rewrite E|].
  apply Hv. eexists _, _. repeat split; reflexivity.
Defined.

Lemma validateMermaid_verdict_witness :
  trim "graph TD; A-->" <> "" /\
  exists v,
    valueOf (validateMermaid Examples.offlineWorld (JStr "graph TD; A-->") Examples.start) =
      Ret v /\
    error v = Some "Parse error on line 1".
Proof.
  split; [vm_compute; discriminate|].
  destruct (validateMermaid_verdict Examples.offlineWorld "graph TD; A-->" Examples.start
              ltac:(vm_compute; discriminate)) as (v & E & _ & He).
  exists v. split; [now rewrite E|].
  exact (He Examples.parseError eq_refl).
Defined.

Lemma plantuml_error_is_extracted_witness :
  trim "Alice -> " <> "" /\
  includes "Error" Examples.syntaxErrorText = true /\
  valueOf (validatePlantUML Examples.pickyWorld (JStr "Alice -> ") Examples.start) =
    Ret {| valid := false; error := Some "Syntax Error?" |}.
Proof.
  split; [vm_compute; discriminate|]. split; [reflexivity|].
  destruct (plantuml_error_is_extracted Examples.pickyWorld "Alice -> "
              Examples.syntaxErrorText _ Examples.start tt
              ltac:(vm_compute; discriminate) eq_refl eq_refl eq_refl
              (or_intror (or_intror eq_refl)))
    as (m & Hm & _ & E).
  rewrite E. vm_compute in Hm. injection Hm as <-. reflexivity.
Defined.

(* ================================================================== *)
(** * The books of a run: calls made, and the initialisation of Mermaid *)
(* ================================================================== *)

Lemma fetchesOf_app (a b : list event) :
  fetchesOf (a ++ b) = (fetchesOf a ++ fetchesOf b)%list.
Proof.
  induction a as [|e a IH]; simpl; [reflexivity|].
  destruct e; simpl; now rewrite IH.
Qed.

Lemma parsesOf_app (a b : list event) :
  parsesOf (a ++ b) = (parsesOf a ++ parsesOf b)%list.
Proof.
  induction a as [|e a IH]; simpl; [reflexivity|].
  destruct e; simpl; now rewrite IH.
Qed.

Lemma initsOf_app (a b : list event) :
  initsOf (a ++ b) = (initsOf a + initsOf b)%nat.
Proof.
  induction a as [|e a IH]; simpl; [reflexivity|].
  destruct e; simpl; now rewrite IH.
Qed.

Lemma initDiscipline_app (a b : list event) :
  forall initialized,
    initDiscipline initialized (a ++ b) =
      match initDiscipline initialized a with
      | Some flag => initDiscipline flag b
      | None => None
      end.
Proof.
  induction a as [|e a IH]; intros initialized; simpl; [reflexivity|].
  destruct e; simpl; try apply IH; destruct initialized; try reflexivity; apply IH.
Qed.

(** A trace that keeps the discipline initialises Mermaid at most once,
    and not at all when Mermaid was initialised before. *)
Lemma initDiscipline_count (tr : list event) :
  forall initialized flag,
    initDiscipline initialized tr = Some flag ->
    (initsOf tr + flagOf initialized = flagOf flag)%nat /\
    (parsesOf tr <> [] -> flag = true).
Proof.
  induction tr as [|e tr IH]; intros initialized flag H; simpl in H.
  - injection H as <-. split; [reflexivity | intros F; now elim F].
  - destruct e; simpl;
      try (destruct (IH _ _ H) as [Hc Hp]; split; [exact Hc | exact Hp]).
    + destruct initialized; [discriminate|].
      destruct (IH _ _ H) as [Hc Hp]. simpl in *. split; [lia | exact Hp].
    + destruct initialized; [|discriminate].
      destruct (IH _ _ H) as [Hc Hp]. simpl in *. split; [exact Hc|].
      intros _. destruct flag; [reflexivity | simpl in Hc; lia].
Qed.

Ltac books_leaf :=
  eexists _, _, _; split; [reflexivity|];
  simpl;
  repeat match goal with
         | H : mermaidInitialized _ = _ |- _ => rewrite H
         end;
  simpl;
  repeat match goal with
         | |- _ /\ _ => split
         | |- Forall _ [] => constructor
         | |- Forall _ (_ :: _) => constructor
         | |- validatorEvent _ => exact I
         | |- True => exact I
         | |- (_ <= _)%nat => lia
         | |- _ = _ => reflexivity
         | |- _ <> _ => discriminate
         end.

Section Books.
Context {W : Type} (env : World W) (model : string).

Lemma validateMermaid_books (definition : jsval) (st : state W) :
  exists v trv st1,
    validateMermaid env definition st = (Ret v, trv, st1) /\
    Forall validatorEvent trv /\
    (length (fetchesOf trv) + length (parsesOf trv) <= 1)%nat /\
    initDiscipline (mermaidInitialized st) trv = Some (mermaidInitialized st1) /\
    (if valid v then error v = None else error v <> None).
Proof.
  unfold validateMermaid, initMermaid. run_monad.
  destruct (mermaidInitialized st) eqn:Hinit; simpl;
    (destruct definition as [| |b|n|s|l|p]; simpl; try books_leaf);
    (destruct (isEmpty (trim s)); simpl;
     [ books_leaf
     | destruct (mermaid_parse env (trim s) _) as [[[]|e] w]; simpl; books_leaf ]).
Qed.

Lemma validatePlantUML_books (definition : jsval) (st : state W) :
  exists v trv st1,
    validatePlantUML env definition st = (Ret v, trv, st1) /\
    Forall validatorEvent trv /\
    (length (fetchesOf trv) + length (parsesOf trv) <= 1)%nat /\
    initDiscipline (mermaidInitialized st) trv = Some (mermaidInitialized st1) /\
    (if valid v then error v = None else error v <> None).
Proof.
  unfold validatePlantUML. run_monad.
  destruct definition as [| |b|n|s|l|p]; simpl; try books_leaf.
  destruct (isEmpty (trim s)); simpl; [books_leaf|].
  destruct (fetch env _ (world st)) as [[r|e] w]; simpl; [|books_leaf].
  destruct (resp_ok r); simpl; [|books_leaf].
  destruct (resp_text r) as [text|e]; simpl; [|books_leaf].
  destruct (includes "cannot include" text || includes "syntax error" text ||
            includes "Error" text || includes "^^^^^" text); simpl; books_leaf.
Qed.

Lemma askFix_books (type code : jsval) (lastError0 : option string) (st : state W) :
  let req := fixRequest model type code lastError0 in
  exists res st1,
    askFix env model type code lastError0 st =
      (Ret (fixedCodeOf res), [EvResponsesCreate req res], st1) /\
    mermaidInitialized st1 = mermaidInitialized st.
Proof.
  intros req. unfold askFix. fold req. run_monad.
  destruct (responses_create env req (world st)) as [[fixResponse|e] w]; simpl.
  - destruct (extractText fixResponse) as [text|e] eqn:E; simpl;
      eexists (Ret fixResponse), _; simpl; rewrite E; split; reflexivity.
  - eexists (Throw e), _; split; reflexivity.
Qed.

Lemma books_of_throw {A : Type} (n k : nat) (e : exn) (st : state W) :
  keepsBooks n k st (@Throw A e, @nil event, st).
Proof. unfold keepsBooks, withinBudget. simpl. repeat split; lia. Qed.

(** The loop for one entry, whatever the entry is: at most [n] repair
    calls, each after a failed validation, one validator call more than
    repair calls at most, and Mermaid initialised before its parser is
    first used. *)
Lemma repairLoop_books (diagram : jsval) :
  forall (n : nat) (code : jsval) (lastError0 : option string) (st : state W),
    keepsBooks n 1 st (repairLoop env model diagram n code lastError0 st).
Proof.
  assert (Hvalidate : forall type code st, exists v trv st1,
             (if Js.strictEqStr type "mermaid"
              then validateMermaid env code st
              else validatePlantUML env code st) = (Ret v, trv, st1) /\
             Forall validatorEvent trv /\
             (length (fetchesOf trv) + length (parsesOf trv) <= 1)%nat /\
             initDiscipline (mermaidInitialized st) trv = Some (mermaidInitialized st1) /\
             (if valid v then error v = None else error v <> None)).
  { intros type code st. destruct (Js.strictEqStr type "mermaid").
    - apply validateMermaid_books.
    - apply validatePlantUML_books. }
  induction n as [|n IH]; intros code lastError0 st;
    simpl; unfold bind at 1; unfold lift at 1;
    (destruct (Js.getProp diagram "type") as [type|e] eqn:Hty;
     [|apply books_of_throw]);
    destruct (Hvalidate type code st) as (v & trv & st1 & E & Hev & Hcost & Hinit & Hv);
    destruct (validator_trace_silent trv Hev) as [Hsv Hsr];
    (destruct (Js.strictEqStr type "mermaid");
     [| destruct (Js.strictEqStr type "plantuml" || Js.strictEqStr type "puml" ||
                 Js.strictEqStr type "uml") ]);
    try (unfold bind at 1; rewrite E; unfold bind at 1, emit at 1;
         destruct (valid v) eqn:Hvalid).
  all: try (unfold keepsBooks, withinBudget, traceOf, ret; simpl;
            rewrite ?app_nil_r;
            rewrite ?repairsOf_app, ?validationsOf_app, ?fetchesOf_app, ?parsesOf_app,
              ?initDiscipline_app, ?length_app, ?Hsv, ?Hsr, ?Hinit; simpl;
            split; [lia | reflexivity]).
  all: unfold bind at 1; unfold lift at 1; unfold bind at 1;
    destruct (askFix_books type code (error v) st1) as (res & st2 & Eask & Hflag);
    simpl in Eask; rewrite Eask;
    (destruct (fixedCodeOf res) as [code'|];
     [ specialize (IH code' (error v) st2);
       destruct (repairLoop env model diagram n code' (error v) st2) as [[r tr'] st'];
       unfold keepsBooks, withinBudget, traceOf in IH; simpl in IH;
       rewrite Hflag in IH; destruct IH as [(Hr & Hvs & Hfp) Hd]
     | ]);
    unfold keepsBooks, withinBudget, traceOf, ret; simpl;
    rewrite ?app_nil_r;
    rewrite ?repairsOf_app, ?validationsOf_app, ?fetchesOf_app, ?parsesOf_app,
      ?initDiscipline_app, ?length_app, ?Hsv, ?Hsr, ?Hinit; simpl;
    rewrite ?Hflag;
    (split; [lia | solve [reflexivity | exact Hd]]).
Qed.

Lemma books_weaken {A : Type} (n k k' : nat) (st : state W)
    (run : outcome A * list event * state W) :
  (k <= k')%nat -> keepsBooks n k st run -> keepsBooks n k' st run.
Proof.
  unfold keepsBooks, withinBudget. intros Hk [(Hr & Hv & Hf) Hd].
  repeat split; try assumption; [nia | lia].
Qed.

Lemma books_ret {A : Type} (n : nat) (a : A) (st : state W) :
  keepsBooks n 0 st (ret a st).
Proof. unfold keepsBooks, withinBudget. simpl. repeat split; lia. Qed.

Lemma books_lift {A : Type} (n : nat) (o : outcome A) (st : state W) :
  keepsBooks n 0 st (lift o st).
Proof. unfold keepsBooks, withinBudget. simpl. repeat split; lia. Qed.

(** The books of a sequence are the books of its parts. *)
Lemma books_bind {A B : Type} (n k1 k2 : nat) (c : M W A) (k : A -> M W B)
    (st : state W) :
  keepsBooks n k1 st (c st) ->
  (forall a st1, keepsBooks n k2 st1 (k a st1)) ->
  keepsBooks n (k1 + k2) st (bind c k st).
Proof.
  intros H1 H2. unfold bind.
  destruct (c st) as [[[a|e] t1] st1].
  - specialize (H2 a st1). destruct (k a st1) as [[r t2] st2].
    unfold keepsBooks, withinBudget, traceOf in *. simpl in *.
    destruct H1 as [(Hr1 & Hv1 & Hf1) Hd1], H2 as [(Hr2 & Hv2 & Hf2) Hd2].
    rewrite repairsOf_app, validationsOf_app, fetchesOf_app, parsesOf_app,
      initDiscipline_app, !length_app, Hd1.
    repeat split; try assumption; try lia; nia.
  - apply (books_weaken n k1); [lia | exact H1].
Qed.

Lemma fixDiagram_books (n i : nat) (diagram : jsval) (st : state W) :
  keepsBooks n 1 st (fixDiagram env model n i diagram st).
Proof.
  unfold fixDiagram.
  apply (books_bind n 0 1); [apply books_lift|]. intros code st1.
  apply (books_bind n 1 0); [apply repairLoop_books|]. intros exit st2.
  apply (books_bind n 0 0); [apply books_lift|]. intros type st3.
  apply (books_bind n 0 0); [apply books_lift|]. intros position st4.
  apply books_ret.
Qed.

Lemma fixDiagramsFrom_books (n : nat) (diagrams : list jsval) :
  forall (i : nat) (st : state W),
    keepsBooks n (length diagrams) st (fixDiagramsFrom env model n i diagrams st).
Proof.
  induction diagrams as [|diagram rest IH]; intros i st; simpl.
  - apply books_ret.
  - apply (books_bind n 1 (length rest)); [apply fixDiagram_books|]. intros r st1.
    replace (length rest) with (length rest + 0)%nat by lia.
    apply (books_bind n (length rest) 0); [apply IH|]. intros results st2.
    apply books_ret.
Qed.

(** X7: what validating and repairing a list of diagrams can cost,
    whatever the entries are and whatever the validators and the
    generative source answer: at most [maxRetries] repair calls and
    [maxRetries + 1] validator calls per entry, never more repair calls
    than validator calls, and per validator call at most one request to
    the PlantUML server or one call of the Mermaid parser. *)
Theorem validateAndFixDiagrams_budget
    (maxRetries : nat) (diagrams : list jsval) (st : state W) :
  let tr := traceOf (validateAndFixDiagramsWith env model maxRetries diagrams st) in
  (length (repairsOf tr) <= maxRetries * length diagrams)%nat /\
  (length (validationsOf tr) <= (maxRetries + 1) * length diagrams)%nat /\
  (length (validationsOf tr) <= length (repairsOf tr) + length diagrams)%nat /\
  (length (fetchesOf tr) + length (parsesOf tr) <= length (validationsOf tr))%nat.
Proof.
  intros tr.
  destruct (fixDiagramsFrom_books maxRetries diagrams 0 st) as [(Hr & Hv & Hf) _].
  fold (validateAndFixDiagramsWith env model maxRetries diagrams st) in Hr, Hv, Hf.
  fold tr in Hr, Hv, Hf. repeat split; try assumption. nia.
Qed.

(** X8: in a run of [validateAndFixDiagrams], from any state, Mermaid
    is initialised before its parser is called for the first time, at
    most once, and not at all when it was initialised before; once
    initialised it stays so. *)
Theorem mermaid_is_initialised_once
    (maxRetries : nat) (diagrams : list jsval) (st : state W) :
  let run := validateAndFixDiagramsWith env model maxRetries diagrams st in
  initDiscipline (mermaidInitialized st) (traceOf run) =
    Some (mermaidInitialized (snd run)) /\
  (initsOf (traceOf run) <= 1)%nat /\
  (mermaidInitialized st = true ->
     initsOf (traceOf run) = 0%nat /\ mermaidInitialized (snd run) = true) /\
  (parsesOf (traceOf run) <> [] -> mermaidInitialized (snd run) = true).
Proof.
  intros run.
  destruct (fixDiagramsFrom_books maxRetries diagrams 0 st) as [_ Hd].
  fold (validateAndFixDiagramsWith env model maxRetries diagrams st) in Hd.
  fold run in Hd. split; [exact Hd|].
  destruct (initDiscipline_count _ _ _ Hd) as [Hc Hp].
  split; [|split].
  - destruct (mermaidInitialized (snd run)), (mermaidInitialized st); simpl in Hc; lia.
  - intros Hst. rewrite Hst in Hc.
    destruct (mermaidInitialized (snd run)); simpl in Hc; split; try reflexivity; lia.
  - exact Hp.
Qed.

End Books.

(* ================================================================== *)
(** * What the results say about the runs *)
(* ================================================================== *)

Lemma repairsFollowFailures_step (model : string) (type : jsval)
    (trv : list event) (g : grammar) (code : jsval) (v : validation)
    (rest : list event) :
  Forall validatorEvent trv ->
  forall pending,
    repairsFollowFailures model type (Some (code, v)) rest ->
    repairsFollowFailures model type pending (trv ++ EvValidate g code v :: rest).
Proof.
  induction 1 as [|e trv He _ IH]; intros pending Hrest; [exact Hrest|].
  destruct e; simpl in *; try contradiction; now apply IH.
Qed.

Lemma loopRun_repairs (model : string) (type : jsval) (g : grammar)
    n code lastError0 tr exit :
  loopRun model type g n code lastError0 tr exit ->
  (forall pending, repairsFollowFailures model type pending tr) /\
  Forall (fun x => repairSettings model (fst x)) (repairsOf tr).
Proof.
  induction 1 as [n code le trv v Hev Hv | code le trv v Hev Hv He
                 | n code le trv v res Hev Hv He Hfix
                 | n code le trv v res code' tr' exit Hev Hv He Hfix Hrun [IH1 IH2]];
    rewrite repairsOf_step by assumption; simpl repairsOf.
  - split; [|constructor]. intros pending.
    now apply repairsFollowFailures_step.
  - split; [|constructor]. intros pending.
    now apply repairsFollowFailures_step.
  - split.
    + intros pending. apply repairsFollowFailures_step; [assumption|].
      simpl. auto.
    + repeat constructor.
  - split.
    + intros pending. apply repairsFollowFailures_step; [assumption|].
      simpl. auto.
    + constructor; [repeat constructor | exact IH2].
Qed.

Lemma getProp_absent (v : jsval) (k : string) :
  Js.present v = false -> exists e, Js.getProp v k = Throw e.
Proof. destruct v; try discriminate; intros _; eexists; reflexivity. Qed.

Lemma fixedCodesOf_step (trv : list event) (g : grammar) (code : jsval)
    (v : validation) (rest : list event) :
  Forall validatorEvent trv ->
  fixedCodesOf (trv ++ EvValidate g code v :: rest) = fixedCodesOf rest.
Proof.
  induction 1 as [|e trv He _ IH]; [reflexivity|].
  destruct e; simpl in *; try contradiction; exact IH.
Qed.

Lemma last_cons_default {A : Type} (l : list A) (a d d' : A) :
  last (a :: l) d = last (a :: l) d'.
Proof.
  revert a. induction l as [|b l IH]; intros a; [reflexivity|].
  change (last (b :: l) d = last (b :: l) d'). apply IH.
Qed.

Lemma loopRun_chain (model : string) (type : jsval) (g : grammar)
    n code lastError0 tr exit :
  loopRun model type g n code lastError0 tr exit ->
  validatedTexts tr = code :: fixedCodesOf tr /\
  currentCode exit = last (fixedCodesOf tr) code.
Proof.
  unfold validatedTexts.
  induction 1 as [n code le trv v Hev Hv | code le trv v Hev Hv He
                 | n code le trv v res Hev Hv He Hfix
                 | n code le trv v res code' tr' exit Hev Hv He Hfix Hrun [IH1 IH2]];
    rewrite validationsOf_step, fixedCodesOf_step by assumption; simpl;
    rewrite ?Hfix; try (split; reflexivity).
  rewrite IH1. split; [reflexivity|].
  rewrite IH2. destruct (fixedCodesOf tr') as [|a l]; [reflexivity|].
  change (last (code' :: a :: l) code) with (last (a :: l) code).
  apply last_cons_default.
Qed.

Section ResultFacts.
Context {W : Type} (env : World W) (model : string).

(** X9: for an entry of a recognized kind, the code of the result is
    the text the last validator call of the run was given, the flag
    [valid] is the verdict of that call, and an invalid result carries
    the error of that call, which is not [null]; a valid result carries
    [null]. *)
Theorem result_reports_last_validation
    (diagram : jsval) (maxRetries i : nat) (st : state W) :
  Js.present diagram = true ->
  knownKind (Js.getPropOpt diagram "type") = true ->
  exists r tr st' v,
    fixDiagram env model maxRetries i diagram st = (Ret r, tr, st') /\
    lastValidation tr = Some (res_code r, v) /\
    res_valid r = valid v /\
    (res_valid r = true -> res_error r = None) /\
    (res_valid r = false -> res_error r = error v /\ error v <> None).
Proof.
  intros Hp Hk. rewrite knownKind_grammarOf in Hk.
  destruct (grammarOf (Js.getPropOpt diagram "type")) as [g|] eqn:Hg; [|discriminate].
  destruct (fixDiagram_known env model diagram g maxRetries i st Hp Hg)
    as (exit & tr & st' & E & Hrun).
  destruct (loopRun_validations _ _ _ _ _ _ _ _ Hrun) as (_ & v & Hlast & Herr & Hv).
  exists (resultOf diagram i exit), tr, st', v. simpl.
  split; [exact E|]. split; [exact Hlast|]. split; [now rewrite Hv|].
  split; intros Hvalid; rewrite Hvalid; [reflexivity | now apply Herr].
Qed.

(** X10: the generative source is called for an entry only to repair:
    every call of a run of the loop body comes right after a validator
    call that failed, asks to fix the text that call was given and quotes
    the error it returned; it is made with the configured model, a
    temperature of 0.1, at most 1024 output tokens and no JSON format. *)
Theorem repairs_follow_failed_validations
    (diagram : jsval) (maxRetries i : nat) (st : state W) :
  let tr := traceOf (fixDiagram env model maxRetries i diagram st) in
  repairsFollowFailures model (Js.getPropOpt diagram "type") None tr /\
  Forall (fun x => repairSettings model (fst x)) (repairsOf tr).
Proof.
  intros tr. subst tr.
  destruct (Js.present diagram) eqn:Hp.
  - destruct (grammarOf (Js.getPropOpt diagram "type")) as [g|] eqn:Hg.
    + destruct (fixDiagram_known env model diagram g maxRetries i st Hp Hg)
        as (exit & tr & st' & E & Hrun).
      rewrite E. unfold traceOf. simpl.
      destruct (loopRun_repairs _ _ _ _ _ _ _ _ Hrun) as [H1 H2].
      split; [apply H1 | exact H2].
    + rewrite (fixDiagram_unknown env model diagram maxRetries i st Hp Hg).
      split; [exact I | constructor].
  - destruct diagram; try discriminate; split; try exact I; constructor.
Qed.

(** X11: for an entry of a recognized kind, the texts given to the
    validator in a run of the loop body are the code of the entry and then,
    in order, the texts the repair calls yielded (each answer trimmed and
    without its code fences); the code of the result is the last of them.
    So a run without a successful repair call validates the code of the
    entry only, and returns it unchanged. *)
Theorem repaired_texts_are_validated_next
    (diagram : jsval) (maxRetries i : nat) (st : state W) :
  Js.present diagram = true ->
  knownKind (Js.getPropOpt diagram "type") = true ->
  exists r tr st',
    fixDiagram env model maxRetries i diagram st = (Ret r, tr, st') /\
    validatedTexts tr = Js.getPropOpt diagram "code" :: fixedCodesOf tr /\
    res_code r = last (fixedCodesOf tr) (Js.getPropOpt diagram "code") /\
    (fixedCodesOf tr = [] ->
       validatedTexts tr = [Js.getPropOpt diagram "code"] /\
       res_code r = Js.getPropOpt diagram "code").
Proof.
  intros Hp Hk. rewrite knownKind_grammarOf in Hk.
  destruct (grammarOf (Js.getPropOpt diagram "type")) as [g|] eqn:Hg; [|discriminate].
  destruct (fixDiagram_known env model diagram g maxRetries i st Hp Hg)
    as (exit & tr & st' & E & Hrun).
  destruct (loopRun_chain _ _ _ _ _ _ _ _ Hrun) as [Hchain Hlast].
  exists (resultOf diagram i exit), tr, st'. simpl.
  split; [exact E|]. split; [exact Hchain|]. split; [exact Hlast|].
  intros Hnone. rewrite Hchain, Hlast, Hnone. split; reflexivity.
Qed.

Lemma fixDiagram_result (diagram : jsval) (n i : nat) (st : state W) :
  Js.present diagram = true ->
  exists r tr st',
    fixDiagram env model n i diagram st = (Ret r, tr, st') /\
    res_type r = Js.getPropOpt diagram "type" /\
    (res_valid r = true <-> res_error r = None).
Proof.
  intros Hp.
  destruct (grammarOf (Js.getPropOpt diagram "type")) as [g|] eqn:Hg.
  - destruct (fixDiagram_known env model diagram g n i st Hp Hg)
      as (exit & tr & st' & E & Hrun).
    destruct (loopRun_validations _ _ _ _ _ _ _ _ Hrun) as (_ & v & _ & Herr & _).
    exists (resultOf diagram i exit), tr, st'. simpl.
    split; [exact E|]. split; [reflexivity|].
    destruct (isValid exit); [split; reflexivity|].
    destruct (Herr eq_refl) as [-> Hne]. split; [discriminate | contradiction].
  - rewrite (fixDiagram_unknown env model diagram n i st Hp Hg).
    eexists _, _, _. split; [reflexivity|]. simpl. repeat split.
Qed.


(** An entry that is [null] (or [undefined]) makes the loop throw when it
    reads the entry's code; the entries after it are not looked at. *)
Lemma fixDiagramsFrom_throws (n : nat) (diagrams : list jsval) :
  forallb Js.present diagrams = false ->
  forall (i : nat) (st : state W),
  exists e tr st',
    fixDiagramsFrom env model n i diagrams st = (Throw e, tr, st').
Proof.
  induction diagrams as [|diagram rest IH]; intros Hall i st; [discriminate|].
  simpl in Hall. destruct (Js.present diagram) eqn:Hp.
  - simpl in Hall.
    destruct (fixDiagram_result diagram n i st Hp) as (r & tr & st1 & E & _).
    destruct (IH Hall (S i) st1) as (e & tr' & st' & E').
    exists e, (tr ++ tr')%list, st'.
    simpl. run_monad. rewrite E, E'. reflexivity.
  - destruct (getProp_absent diagram "code" Hp) as [e E].
    exists e, [], st. simpl. unfold fixDiagram.
    unfold bind at 1. unfold bind at 1. rewrite E. reflexivity.
Qed.


End ResultFacts.


(** X26: the assembly does not look at the verdicts.  Two lists of
    results that agree, one by one, on type, code and slot index give the
    same document, whatever their [valid] flags and errors are: a diagram
    that is still invalid after the repair attempts is embedded like a
    valid one. *)
Theorem assembly_ignores_the_verdicts
    (markdown : string) (diagrams diagrams' : list result) :
  Forall2 (fun d d' =>
             res_type d = res_type d' /\ res_code d = res_code d' /\
             res_originalPosition d = res_originalPosition d')
          diagrams diagrams' ->
  assemble markdown diagrams = assemble markdown diagrams'.
Proof.
  intros H. unfold assemble. f_equal. revert markdown.
  induction H as [|d d' ds ds' (Ht & Hc & Hp) _ IH]; intros markdown; [reflexivity|].
  simpl. rewrite <- IH. f_equal.
  unfold substituteDiagram, placeholder, diagramBlock. now rewrite Ht, Hc, Hp.
Qed.

(* ================================================================== *)
(** * The handler, from the request to the reply *)
(* ================================================================== *)

Section MonadLaws.
Context {W : Type}.

Lemma bind_lift_Ret {A B : Type} (x : A) (k : A -> M W B) (st : state W) :
  bind (lift (Ret x)) k st = k x st.
Proof. unfold bind, lift. now destruct (k x st) as [[r t] st']. Qed.

Lemma bind_lift_Throw {A B : Type} (e : exn) (k : A -> M W B) (st : state W) :
  bind (lift (@Throw A e)) k st = (Throw e, [], st).
Proof. reflexivity. Qed.

Lemma bind_ret {A B : Type} (x : A) (k : A -> M W B) (st : state W) :
  bind (ret x) k st = k x st.
Proof. unfold bind, ret. now destruct (k x st) as [[r t] st']. Qed.

End MonadLaws.

Lemma wellFormed_error (s : nat) (message : string) :
  s = 400%nat \/ s = 500%nat \/ s = 502%nat -> message <> "" ->
  wellFormedReply (errorResponse s message).
Proof. intros Hs Hm. right. split; [exact Hs|]. now exists message, []. Qed.

Lemma wellFormed_success (markdown : string) :
  wellFormedReply {| status := 200; body := JObj [("markdown", JStr markdown)] |}.
Proof. left. split; [reflexivity|]. now exists markdown. Qed.


Section HandlerFacts.
Context {W : Type} (env : World W) (cfg : config) (SYSTEM_PROMPT : string).

(** The rest of both handlers once [diagrams] is known to be the array
    [ds]. *)
Lemma finish_books (markdown : jsval) (ds : list jsval) (st : state W) :
  keepsBooks 2 (length ds) st
    ((validatedDiagrams <- validateAndFixDiagrams env (model cfg) ds ;;
      finalMarkdown <- lift (assembleValue markdown validatedDiagrams) ;;
      ret {| status := 200; body := JObj [("markdown", JStr finalMarkdown)] |}) st).
Proof.
  replace (length ds) with (length ds + 0)%nat by lia.
  apply (books_bind 2 (length ds) 0).
  - apply (fixDiagramsFrom_books env (model cfg) 2 ds 0 st).
  - intros validated st1.
    apply (books_bind 2 0 0); [apply books_lift|]. intros final st2.
    apply books_ret.
Qed.

Lemma finish_reply (markdown : jsval) (ds : list jsval) (st : state W) :
  match valueOf
          ((validatedDiagrams <- validateAndFixDiagrams env (model cfg) ds ;;
            finalMarkdown <- lift (assembleValue markdown validatedDiagrams) ;;
            ret {| status := 200; body := JObj [("markdown", JStr finalMarkdown)] |}) st)
  with
  | Ret reply => exists final, reply = {| status := 200;
                                          body := JObj [("markdown", JStr final)] |}
  | Throw _ => True
  end.
Proof.
  unfold bind at 1.
  destruct (validateAndFixDiagrams env (model cfg) ds st) as [[[validated|e] t1] st1];
    [|exact I].
  destruct (assembleValue markdown validated) as [final|e] eqn:E.
  - rewrite bind_lift_Ret. simpl. now exists final.
  - rewrite bind_lift_Throw. exact I.
Qed.

Lemma plain_error (s : nat) (message : string) :
  s = 400%nat \/ s = 500%nat \/ s = 502%nat -> message <> "" ->
  plainReply (errorResponse s message).
Proof. intros Hs Hm. left. now exists s, message. Qed.

Lemma plain_wellFormed (reply : response) : plainReply reply -> wellFormedReply reply.
Proof.
  intros [(s & m & Hs & Hm & ->) | (md & ->)].
  - now apply wellFormed_error.
  - apply wellFormed_success.
Qed.


(** A call followed by a continuation, under a [catch] that replies. *)
Lemma tryCatch_call {A B : Type} (oracle : W -> outcome A * W)
    (record : outcome A -> event) (k : A -> M W B) (h : exn -> B) (st : state W) :
  tryCatch (bind (call oracle record) k) (fun e => ret (h e)) st =
    let '(res, w1) := oracle (world st) in
    let st1 := {| mermaidInitialized := mermaidInitialized st; world := w1 |} in
    match res with
    | Throw e => (Ret (h e), [record res], st1)
    | Ret a =>
        let '(o, t2, st2) := k a st1 in
        (Ret (match o with Ret b => b | Throw e => h e end), record res :: t2, st2)
    end.
Proof.
  unfold tryCatch, bind, call, ret.
  destruct (oracle (world st)) as [[a|e] w1]; [|reflexivity].
  destruct (k a _) as [[[b|e] t2] st2]; simpl; rewrite ?app_nil_r; reflexivity.
Qed.

Lemma backend_afterParse_run (parsed : jsval) (st : state W) :
  let run := BackendIndex.afterParse env cfg parsed st in
  keepsBooks 2 (length (Spec.elements (Js.getPropOpt parsed "diagrams"))) st run /\
  match valueOf run with
  | Ret reply => plainReply reply
  | Throw _ => True
  end.
Proof.
  unfold BackendIndex.afterParse.
  destruct (Js.present parsed) eqn:Hp.
  - rewrite (getProp_present _ "markdown" Hp), bind_lift_Ret. cbv beta.
    destruct (negb (Js.truthy (Js.getPropOpt parsed "markdown"))).
    { split; [apply (books_weaken 2 0); [lia | apply books_ret]|].
      apply plain_error; [auto | discriminate]. }
    rewrite (getProp_present _ "diagrams" Hp), bind_lift_Ret. cbv beta.
    destruct (Js.getPropOpt parsed "diagrams") as [| |b|n|s|ds|p];
      try (split; [apply (books_weaken 2 0); [lia | apply books_ret]|];
           apply plain_error; [auto | discriminate]).
    split; [apply finish_books|].
    pose proof (finish_reply (Js.getPropOpt parsed "markdown") ds st) as H.
    destruct (valueOf _) as [reply|e]; [|exact I].
    right. exact H.
  - destruct (getProp_absent parsed "markdown" Hp) as [e E].
    rewrite E, bind_lift_Throw. split; [apply books_of_throw | exact I].
Qed.

Lemma part000_afterParse_run (parsed : jsval) (st : state W) :
  let run := Part000.afterParse env cfg parsed st in
  keepsBooks 2 (length (Spec.elements (Js.getPropOpt parsed "diagrams"))) st run /\
  match valueOf run with
  | Ret reply => plainReply reply
  | Throw _ => True
  end.
Proof.
  unfold Part000.afterParse.
  destruct (Js.present parsed) eqn:Hp.
  - rewrite (getProp_present _ "markdown" Hp), bind_lift_Ret. cbv beta.
    destruct (negb (Js.truthy (Js.getPropOpt parsed "markdown"))).
    { split; [apply (books_weaken 2 0); [lia | apply books_ret]|].
      apply plain_error; [auto | discriminate]. }
    rewrite (getProp_present _ "diagrams" Hp), bind_lift_Ret. cbv beta zeta.
    change (match Js.getPropOpt parsed "diagrams" with JArr ds => ds | _ => [] end)
      with (Spec.elements (Js.getPropOpt parsed "diagrams")).
    split; [apply finish_books|].
    pose proof (finish_reply (Js.getPropOpt parsed "markdown")
                  (Spec.elements (Js.getPropOpt parsed "diagrams")) st) as H.
    destruct (valueOf _) as [reply|e]; [|exact I].
    right. exact H.
  - destruct (getProp_absent parsed "markdown" Hp) as [e E].
    rewrite E, bind_lift_Throw. split; [apply books_of_throw | exact I].
Qed.

(** What both handlers do with the answer to the main request. *)
Lemma backend_answer_run (response : jsval) (st : state W) :
  let run :=
    (jsonText <- lift (extractText response) ;;
     if isEmpty jsonText
     then ret (errorResponse 502 "No response returned from GPT-5.1")
     else
       match parseWithRepair env jsonText with
       | Ret parsed => BackendIndex.afterParse env cfg parsed
       | Throw _ => ret (errorResponse 502 "Invalid JSON response from GPT-5.1")
       end) st in
  keepsBooks 2 (length (answeredDiagrams env (Ret response))) st run /\
  match valueOf run with
  | Ret reply => plainReply reply
  | Throw _ => True
  end.
Proof.
  unfold answeredDiagrams, answeredParse.
  destruct (extractText response) as [jsonText|e].
  - rewrite bind_lift_Ret. cbv beta.
    destruct (isEmpty jsonText).
    { split; [apply books_ret | apply plain_error; [auto | discriminate]]. }
    destruct (parseWithRepair env jsonText) as [parsed|e].
    + apply backend_afterParse_run.
    + split; [apply books_ret | apply plain_error; [auto | discriminate]].
  - rewrite bind_lift_Throw. split; [apply books_of_throw | exact I].
Qed.

Lemma part000_answer_run (response : jsval) (st : state W) :
  let run :=
    (jsonText <- lift (extractText response) ;;
     if isEmpty jsonText
     then
       match response with
       | JUndefined =>
           lift (Throw (TypeError "Cannot read properties of undefined (reading 'substring')"))
       | _ => ret (errorResponse 502 "No response returned from GPT-5.1")
       end
     else
       match parseWithRepair env jsonText with
       | Ret parsed => Part000.afterParse env cfg parsed
       | Throw e2 =>
           ret (errorResponse 502
                  ("Invalid JSON response from GPT-5.1: " ++
                   match exn_message e2 with Some m => m | None => "undefined" end))
       end) st in
  keepsBooks 2 (length (answeredDiagrams env (Ret response))) st run /\
  match valueOf run with
  | Ret reply => plainReply reply
  | Throw _ => True
  end.
Proof.
  unfold answeredDiagrams, answeredParse.
  destruct (extractText response) as [jsonText|e].
  - rewrite bind_lift_Ret. cbv beta.
    destruct (isEmpty jsonText).
    { destruct response;
        try (split; [apply books_ret | apply plain_error; [auto | discriminate]]).
      split; [apply books_of_throw | exact I]. }
    destruct (parseWithRepair env jsonText) as [parsed|e].
    + apply part000_afterParse_run.
    + split; [apply books_ret | apply plain_error; [auto | discriminate]].
  - rewrite bind_lift_Throw. split; [apply books_of_throw | exact I].
Qed.

Lemma backend_analyze_run (file : option upload) (st : state W) :
  exists reply tr st',
    BackendIndex.analyze env cfg SYSTEM_PROMPT file st = (Ret reply, tr, st') /\
    plainReply reply /\
    match file with
    | Some f =>
        if hasApiKey cfg then
          exists res tr2,
            tr = EvResponsesCreate
                   (mainRequest cfg SYSTEM_PROMPT
                      (BackendIndex.buildPrompt (originalname f) (content f))) res :: tr2 /\
            withinBudget 2 (length (answeredDiagrams env res)) tr2 /\
            initDiscipline (mermaidInitialized st) tr2 = Some (mermaidInitialized st')
        else tr = [] /\ st' = st /\
             reply = errorResponse 500 "OpenAI key missing on server."
    | None =>
        tr = [] /\ st' = st /\
        reply = if hasApiKey cfg then errorResponse 400 "No code file received."
                else errorResponse 500 "OpenAI key missing on server."
    end.
Proof.
  unfold BackendIndex.analyze.
  destruct (hasApiKey cfg); simpl negb; cbv iota.
  2:{ eexists _, _, _. split; [reflexivity|].
      split; [ apply plain_error; [auto | discriminate]|].
      destruct file; auto. }
  destruct file as [f|].
  2:{ eexists _, _, _. split; [reflexivity|].
      split; [ apply plain_error; [auto | discriminate]|]. auto. }
  cbv zeta.
  rewrite (tryCatch_call _ _ _ (fun _ => errorResponse 500 "Failed to process code file.")).
  destruct (responses_create env _ (world st)) as [[response|e] w1]; cbv zeta.
  - match goal with
    | |- context [bind ?c ?k ?s] =>
        pose proof (backend_answer_run response s) as [Hb Hr];
        cbv zeta in Hb, Hr; revert Hb Hr;
        destruct (bind c k s) as [[o t2] st2]; intros [Hb Hd] Hr
    end.
    unfold traceOf, valueOf in *. simpl in *.
    eexists _, _, _. split; [reflexivity|]. split.
    + destruct o as [reply|e]; [ exact Hr | apply plain_error; [auto | discriminate]].
    + exists (Ret response), t2. split; [reflexivity|]. split; [exact Hb | exact Hd].
  - eexists _, _, _. split; [reflexivity|]. split; [apply plain_error; [auto | discriminate]|].
    exists (Throw e), []. split; [reflexivity|].
    split; [unfold withinBudget; simpl; repeat split; lia | reflexivity].
Qed.

Lemma part000_analyze_run (file : option upload) (st : state W) :
  exists reply tr st',
    Part000.analyze env cfg SYSTEM_PROMPT file st = (Ret reply, tr, st') /\
    (plainReply reply \/ exists error, reply = Part000.failureResponse cfg error) /\
    match file with
    | Some f =>
        if hasApiKey cfg then
          exists res tr2,
            tr = EvResponsesCreate
                   (mainRequest cfg SYSTEM_PROMPT
                      (Part000.buildPrompt (originalname f) (content f))) res :: tr2 /\
            withinBudget 2 (length (answeredDiagrams env res)) tr2 /\
            initDiscipline (mermaidInitialized st) tr2 = Some (mermaidInitialized st')
        else tr = [] /\ st' = st /\
             reply = errorResponse 500 "OpenAI key missing on server."
    | None =>
        tr = [] /\ st' = st /\
        reply = if hasApiKey cfg then errorResponse 400 "No code file received."
                else errorResponse 500 "OpenAI key missing on server."
    end.
Proof.
  unfold Part000.analyze.
  destruct (hasApiKey cfg); simpl negb; cbv iota.
  2:{ eexists _, _, _. split; [reflexivity|].
      split; [left; apply plain_error; [auto | discriminate]|].
      destruct file; auto. }
  destruct file as [f|].
  2:{ eexists _, _, _. split; [reflexivity|].
      split; [left; apply plain_error; [auto | discriminate]|]. auto. }
  cbv zeta.
  rewrite (tryCatch_call _ _ _ (Part000.failureResponse cfg)).
  destruct (responses_create env _ (world st)) as [[response|e] w1]; cbv zeta.
  - match goal with
    | |- context [bind ?c ?k ?s] =>
        pose proof (part000_answer_run response s) as [Hb Hr];
        cbv zeta in Hb, Hr; revert Hb Hr;
        destruct (bind c k s) as [[o t2] st2]; intros [Hb Hd] Hr
    end.
    unfold traceOf, valueOf in *. simpl in *.
    eexists _, _, _. split; [reflexivity|]. split.
    + destruct o as [reply|e]; [left; exact Hr | right; eexists; reflexivity].
    + exists (Ret response), t2. split; [reflexivity|]. split; [exact Hb | exact Hd].
  - eexists _, _, _. split; [reflexivity|]. split; [right; eexists; reflexivity|].
    exists (Throw e), []. split; [reflexivity|].
    split; [unfold withinBudget; simpl; repeat split; lia | reflexivity].
Qed.

Lemma failure_wellFormed (error : exn) :
  wellFormedReply (Part000.failureResponse cfg error).
Proof.
  right. split; [auto|]. eexists _, _. split; [reflexivity | discriminate].
Qed.



(** X15: what a request makes the handler call.  Without an API key,
    or without an uploaded file, nothing: the reply is 500 (the key is
    looked at first) or 400, the trace is empty and the state unchanged.
    Otherwise the first call is the main request, made with the configured
    model, temperature 0.2, at most 4096 output tokens and the JSON
    format, on the prompt [buildPrompt] makes of the file; what follows
    stays within the budget of the diagram entries found in the answer:
    two repair calls and three validations per entry at most, and Mermaid
    is initialised before its parser is used. *)
Theorem analyze_call_discipline (file : option upload) (st : state W) :
  let callsOf (buildPrompt : string -> string -> string)
              (run : outcome response * list event * state W) : Prop :=
    match file with
    | Some f =>
        if hasApiKey cfg then
          exists res tr2,
            traceOf run =
              EvResponsesCreate
                {| req_model := model cfg;
                   req_temperature_tenths := 2;
                   req_max_output_tokens := 4096;
                   req_json_object := true;
                   req_system := SYSTEM_PROMPT;
                   req_user := buildPrompt (originalname f) (content f) |} res :: tr2 /\
            (length (repairsOf tr2) <= 2 * length (answeredDiagrams env res))%nat /\
            (length (validationsOf tr2) <= 3 * length (answeredDiagrams env res))%nat /\
            (length (fetchesOf tr2) + length (parsesOf tr2) <=
               length (validationsOf tr2))%nat /\
            initDiscipline (mermaidInitialized st) tr2 =
              Some (mermaidInitialized (snd run))
        else run = (Ret (errorResponse 500 "OpenAI key missing on server."), [], st)
    | None =>
        run = (Ret (if hasApiKey cfg
                    then errorResponse 400 "No code file received."
                    else errorResponse 500 "OpenAI key missing on server."), [], st)
    end in
  callsOf BackendIndex.buildPrompt (BackendIndex.analyze env cfg SYSTEM_PROMPT file st) /\
  callsOf Part000.buildPrompt (Part000.analyze env cfg SYSTEM_PROMPT file st).
Proof.
  cbv zeta. split.
  - destruct (backend_analyze_run file st) as (reply & tr & st' & E & _ & H).
    rewrite E. destruct file as [f|].
    + destruct (hasApiKey cfg).
      * destruct H as (res & tr2 & -> & (Hr & Hv & Hf) & Hd).
        exists res, tr2. unfold traceOf. simpl.
        repeat split; try assumption; lia.
      * destruct H as (-> & -> & ->). reflexivity.
    + destruct H as (-> & -> & ->). reflexivity.
  - destruct (part000_analyze_run file st) as (reply & tr & st' & E & _ & H).
    rewrite E. destruct file as [f|].
    + destruct (hasApiKey cfg).
      * destruct H as (res & tr2 & -> & (Hr & Hv & Hf) & Hd).
        exists res, tr2. unfold traceOf. simpl.
        repeat split; try assumption; lia.
      * destruct H as (-> & -> & ->). reflexivity.
    + destruct H as (-> & -> & ->). reflexivity.
Qed.


Lemma backend_analyze_parsed (f : upload) (st : state W) (parsed : jsval) :
  hasApiKey cfg = true ->
  let req := mainRequest cfg SYSTEM_PROMPT
               (BackendIndex.buildPrompt (originalname f) (content f)) in
  let answer := responses_create env req (world st) in
  answeredParse env (fst answer) = Some parsed ->
  BackendIndex.analyze env cfg SYSTEM_PROMPT (Some f) st =
    let '(o, t2, st2) :=
      BackendIndex.afterParse env cfg parsed
        {| mermaidInitialized := mermaidInitialized st; world := snd answer |} in
    (Ret (match o with Ret b => b | Throw e => (fun _ : exn => errorResponse 500 "Failed to process code file.") e end),
     EvResponsesCreate req (fst answer) :: t2, st2).
Proof.
  intros Hkey req answer Hparse. unfold BackendIndex.analyze. rewrite Hkey. simpl negb.
  cbv iota zeta. rewrite (tryCatch_call _ _ _ (fun _ : exn => errorResponse 500 "Failed to process code file.")).
  fold req. fold answer. destruct answer as [[response|e] w1]; [|discriminate].
  cbv zeta. simpl fst. simpl snd.
  unfold answeredParse in Hparse. simpl in Hparse.
  destruct (extractText response) as [jsonText|e]; [|discriminate].
  rewrite bind_lift_Ret. cbv beta.
  destruct (isEmpty jsonText); [discriminate|].
  destruct (parseWithRepair env jsonText) as [parsed'|e]; [|discriminate].
  injection Hparse as ->. reflexivity.
Qed.

Lemma part000_analyze_parsed (f : upload) (st : state W) (parsed : jsval) :
  hasApiKey cfg = true ->
  let req := mainRequest cfg SYSTEM_PROMPT
               (Part000.buildPrompt (originalname f) (content f)) in
  let answer := responses_create env req (world st) in
  answeredParse env (fst answer) = Some parsed ->
  Part000.analyze env cfg SYSTEM_PROMPT (Some f) st =
    let '(o, t2, st2) :=
      Part000.afterParse env cfg parsed
        {| mermaidInitialized := mermaidInitialized st; world := snd answer |} in
    (Ret (match o with Ret b => b | Throw e => (Part000.failureResponse cfg) e end),
     EvResponsesCreate req (fst answer) :: t2, st2).
Proof.
  intros Hkey req answer Hparse. unfold Part000.analyze. rewrite Hkey. simpl negb.
  cbv iota zeta. rewrite (tryCatch_call _ _ _ (Part000.failureResponse cfg)).
  fold req. fold answer. destruct answer as [[response|e] w1]; [|discriminate].
  cbv zeta. simpl fst. simpl snd.
  unfold answeredParse in Hparse. simpl in Hparse.
  destruct (extractText response) as [jsonText|e]; [|discriminate].
  rewrite bind_lift_Ret. cbv beta.
  destruct (isEmpty jsonText); [discriminate|].
  destruct (parseWithRepair env jsonText) as [parsed'|e]; [|discriminate].
  injection Hparse as ->. reflexivity.
Qed.

Lemma truthy_field_present (parsed : jsval) (k : string) :
  Js.truthy (Js.getPropOpt parsed k) = true -> Js.present parsed = true.
Proof. destruct parsed; simpl; intros H; try discriminate; reflexivity. Qed.

Lemma backend_analyze_unparsed (f : upload) (st : state W) :
  hasApiKey cfg = true ->
  answeredParse env
    (fst (responses_create env
            (mainRequest cfg SYSTEM_PROMPT
               (BackendIndex.buildPrompt (originalname f) (content f)))
            (world st))) = None ->
  exists reply,
    valueOf (BackendIndex.analyze env cfg SYSTEM_PROMPT (Some f) st) = Ret reply /\
    status reply <> 200%nat.
Proof.
  intros Hkey Hparse. unfold BackendIndex.analyze. rewrite Hkey. cbn [negb].
  cbv iota zeta. rewrite (tryCatch_call _ _ _ (fun _ : exn => errorResponse 500 "Failed to process code file.")).
  destruct (responses_create env _ (world st)) as [[response|e] w1]; cbv zeta.
  2:{ eexists. split; [reflexivity | discriminate]. }
  unfold answeredParse in Hparse. simpl in Hparse.
  destruct (extractText response) as [jsonText|e].
  2:{ rewrite bind_lift_Throw. eexists. split; [reflexivity | discriminate]. }
  rewrite bind_lift_Ret. cbv beta.
  destruct (isEmpty jsonText).
  { destruct response; eexists; (split; [reflexivity | discriminate]). }
  destruct (parseWithRepair env jsonText) as [parsed|e]; [discriminate|].
  eexists. split; [reflexivity | discriminate].
Qed.

Lemma part000_analyze_unparsed (f : upload) (st : state W) :
  hasApiKey cfg = true ->
  answeredParse env
    (fst (responses_create env
            (mainRequest cfg SYSTEM_PROMPT
               (Part000.buildPrompt (originalname f) (content f)))
            (world st))) = None ->
  exists reply,
    valueOf (Part000.analyze env cfg SYSTEM_PROMPT (Some f) st) = Ret reply /\
    status reply <> 200%nat.
Proof.
  intros Hkey Hparse. unfold Part000.analyze. rewrite Hkey. cbn [negb].
  cbv iota zeta. rewrite (tryCatch_call _ _ _ (Part000.failureResponse cfg)).
  destruct (responses_create env _ (world st)) as [[response|e] w1]; cbv zeta.
  2:{ eexists. split; [reflexivity | discriminate]. }
  unfold answeredParse in Hparse. simpl in Hparse.
  destruct (extractText response) as [jsonText|e].
  2:{ rewrite bind_lift_Throw. eexists. split; [reflexivity | discriminate]. }
  rewrite bind_lift_Ret. cbv beta.
  destruct (isEmpty jsonText).
  { destruct response; eexists; (split; [reflexivity | discriminate]). }
  destruct (parseWithRepair env jsonText) as [parsed|e]; [discriminate|].
  eexists. split; [reflexivity | discriminate].
Qed.

Lemma fixDiagramsFrom_returns_present (n : nat) (diagrams : list jsval)
    (i : nat) (st st' : state W) (results : list result) (tr : list event) :
  fixDiagramsFrom env (model cfg) n i diagrams st = (Ret results, tr, st') ->
  forallb Js.present diagrams = true.
Proof.
  intros E. destruct (forallb Js.present diagrams) eqn:Hall; [reflexivity|].
  destruct (fixDiagramsFrom_throws env (model cfg) n diagrams Hall i st)
    as (e & tr' & st'' & E').
  congruence.
Qed.

Lemma finish_success (markdown : jsval) (ds : list jsval) (st : state W)
    (reply : response) :
  valueOf
    ((validatedDiagrams <- validateAndFixDiagrams env (model cfg) ds ;;
      finalMarkdown <- lift (assembleValue markdown validatedDiagrams) ;;
      ret {| status := 200; body := JObj [("markdown", JStr finalMarkdown)] |}) st) =
    Ret reply ->
  Js.truthy markdown = true ->
  exists text, markdown = JStr text /\ text <> "" /\ forallb Js.present ds = true.
Proof.
  unfold bind at 1. unfold validateAndFixDiagrams, validateAndFixDiagramsWith.
  destruct (fixDiagramsFrom env (model cfg) 2 0 ds st) as [[[validated|e] t1] st1] eqn:E;
    [|discriminate].
  pose proof (fixDiagramsFrom_returns_present _ _ _ _ _ _ _ E) as Hall.
  destruct markdown as [| |b|n|text|l|p]; intros Hv Ht;
    try discriminate Ht;
    try (cbv beta iota delta [assembleValue] in Hv;
         rewrite bind_lift_Throw in Hv; discriminate Hv).
  exists text. split; [reflexivity|]. split; [|exact Hall].
  intros ->. discriminate Ht.
Qed.

Lemma part000_afterParse_success (parsed : jsval) (st : state W) (reply : response) :
  valueOf (Part000.afterParse env cfg parsed st) = Ret reply ->
  status reply = 200%nat ->
  exists text,
    Js.getPropOpt parsed "markdown" = JStr text /\ text <> "" /\
    forallb Js.present (Spec.elements (Js.getPropOpt parsed "diagrams")) = true.
Proof.
  unfold Part000.afterParse. destruct (Js.present parsed) eqn:Hp.
  - rewrite (getProp_present _ "markdown" Hp), bind_lift_Ret. cbv beta.
    destruct (Js.truthy (Js.getPropOpt parsed "markdown")) eqn:Ht; cbn [negb]; cbv iota.
    2:{ intros [= <-]. discriminate. }
    rewrite (getProp_present _ "diagrams" Hp), bind_lift_Ret. cbv beta zeta.
    change (match Js.getPropOpt parsed "diagrams" with JArr ds => ds | _ => [] end)
      with (Spec.elements (Js.getPropOpt parsed "diagrams")).
    intros Hv _. exact (finish_success _ _ _ _ Hv Ht).
  - destruct (getProp_absent parsed "markdown" Hp) as [e E].
    rewrite E, bind_lift_Throw. discriminate.
Qed.

Lemma backend_afterParse_success (parsed : jsval) (st : state W) (reply : response) :
  valueOf (BackendIndex.afterParse env cfg parsed st) = Ret reply ->
  status reply = 200%nat ->
  exists text diagrams,
    Js.getPropOpt parsed "markdown" = JStr text /\ text <> "" /\
    Js.getPropOpt parsed "diagrams" = JArr diagrams /\
    forallb Js.present diagrams = true.
Proof.
  unfold BackendIndex.afterParse. destruct (Js.present parsed) eqn:Hp.
  - rewrite (getProp_present _ "markdown" Hp), bind_lift_Ret. cbv beta.
    destruct (Js.truthy (Js.getPropOpt parsed "markdown")) eqn:Ht; cbn [negb]; cbv iota.
    2:{ intros [= <-]. discriminate. }
    rewrite (getProp_present _ "diagrams" Hp), bind_lift_Ret. cbv beta.
    destruct (Js.getPropOpt parsed "diagrams") as [| |b|n|s0|ds|p];
      try (intros [= <-]; discriminate).
    intros Hv _. destruct (finish_success _ _ _ _ Hv Ht) as (text & Hm & Hne & Hall).
    now exists text, ds.
  - destruct (getProp_absent parsed "markdown" Hp) as [e E].
    rewrite E, bind_lift_Throw. discriminate.
Qed.


(** X18: an entry that is [null] among the diagrams of an otherwise
    acceptable answer fails the whole request: [validateAndFixDiagrams]
    throws when it reads the entry, and both revisions of the handler
    reply with status 500 and [Failed to process code file.], whatever
    the entries before it were. *)
Theorem null_entry_fails_the_request
    (f : upload) (st : state W) (parsed : jsval) (diagrams : list jsval) :
  hasApiKey cfg = true ->
  Js.truthy (Js.getPropOpt parsed "markdown") = true ->
  Js.getPropOpt parsed "diagrams" = JArr diagrams ->
  forallb Js.present diagrams = false ->
  (answeredParse env
     (fst (responses_create env
             (mainRequest cfg SYSTEM_PROMPT
                (BackendIndex.buildPrompt (originalname f) (content f)))
             (world st))) = Some parsed ->
   valueOf (BackendIndex.analyze env cfg SYSTEM_PROMPT (Some f) st) =
     Ret (errorResponse 500 "Failed to process code file.")) /\
  (answeredParse env
     (fst (responses_create env
             (mainRequest cfg SYSTEM_PROMPT
                (Part000.buildPrompt (originalname f) (content f)))
             (world st))) = Some parsed ->
   exists reply,
     valueOf (Part000.analyze env cfg SYSTEM_PROMPT (Some f) st) = Ret reply /\
     status reply = 500%nat /\
     Js.getPropOpt (body reply) "error" = JStr "Failed to process code file.").
Proof.
  intros Hkey Ht Hds Hnull.
  pose proof (truthy_field_present parsed "markdown" Ht) as Hp.
  split; intros Hparse.
  - rewrite (backend_analyze_parsed f st parsed Hkey Hparse).
    unfold BackendIndex.afterParse.
    rewrite (getProp_present _ "markdown" Hp), bind_lift_Ret. cbv beta.
    rewrite Ht. cbn [negb]. cbv iota.
    rewrite (getProp_present _ "diagrams" Hp), bind_lift_Ret. cbv beta.
    rewrite Hds. unfold bind at 1.
    unfold validateAndFixDiagrams, validateAndFixDiagramsWith.
    match goal with
    | |- context [fixDiagramsFrom env (model cfg) 2 0 diagrams ?s] =>
        destruct (fixDiagramsFrom_throws env (model cfg) 2 diagrams Hnull 0 s)
          as (e & tr & st' & E)
    end.
    rewrite E. reflexivity.
  - rewrite (part000_analyze_parsed f st parsed Hkey Hparse).
    unfold Part000.afterParse.
    rewrite (getProp_present _ "markdown" Hp), bind_lift_Ret. cbv beta.
    rewrite Ht. cbn [negb]. cbv iota.
    rewrite (getProp_present _ "diagrams" Hp), bind_lift_Ret. cbv beta zeta.
    rewrite Hds. unfold bind at 1.
    unfold validateAndFixDiagrams, validateAndFixDiagramsWith.
    match goal with
    | |- context [fixDiagramsFrom env (model cfg) 2 0 diagrams ?s] =>
        destruct (fixDiagramsFrom_throws env (model cfg) 2 diagrams Hnull 0 s)
          as (e & tr & st' & E)
    end.
    rewrite E. eexists. split; [reflexivity|]. split; reflexivity.
Qed.


(** X25: a request succeeds only on a usable answer.  When a
    revision of the handler replies with status 200, the API key was set,
    a file was uploaded, and the answer to the main request yielded a
    non-empty text that parsed, as it was or after repair, to a value whose
    markdown is a non-empty string and whose diagram entries are all
    non-null; for [src/backend/src/index.js] the [diagrams] field was an
    array. *)
Theorem success_requires_a_usable_answer
    (file : option upload) (st : state W) (reply : response) :
  status reply = 200%nat ->
  (valueOf (BackendIndex.analyze env cfg SYSTEM_PROMPT file st) = Ret reply ->
   exists f parsed markdown diagrams,
     file = Some f /\ hasApiKey cfg = true /\
     answeredParse env
       (fst (responses_create env
               (mainRequest cfg SYSTEM_PROMPT
                  (BackendIndex.buildPrompt (originalname f) (content f)))
               (world st))) = Some parsed /\
     Js.getPropOpt parsed "markdown" = JStr markdown /\ markdown <> "" /\
     Js.getPropOpt parsed "diagrams" = JArr diagrams /\
     forallb Js.present diagrams = true) /\
  (valueOf (Part000.analyze env cfg SYSTEM_PROMPT file st) = Ret reply ->
   exists f parsed markdown,
     file = Some f /\ hasApiKey cfg = true /\
     answeredParse env
       (fst (responses_create env
               (mainRequest cfg SYSTEM_PROMPT
                  (Part000.buildPrompt (originalname f) (content f)))
               (world st))) = Some parsed /\
     Js.getPropOpt parsed "markdown" = JStr markdown /\ markdown <> "" /\
     forallb Js.present (Spec.elements (Js.getPropOpt parsed "diagrams")) = true).
Proof.
  intros Hs. split; intros Hv.
  - destruct (backend_analyze_run file st) as (reply' & tr & st' & E & _ & Hcalls).
    rewrite E in Hv. injection Hv as ->.
    destruct file as [f|]; [|destruct Hcalls as (_ & _ & ->);
                              destruct (hasApiKey cfg); discriminate].
    destruct (hasApiKey cfg) eqn:Hkey; [|destruct Hcalls as (_ & _ & ->); discriminate].
    destruct (answeredParse env
                (fst (responses_create env
                        (mainRequest cfg SYSTEM_PROMPT
                           (BackendIndex.buildPrompt (originalname f) (content f)))
                        (world st)))) as [parsed|] eqn:Hparse.
    + pose proof (backend_analyze_parsed f st parsed Hkey Hparse) as Ep.
      cbv zeta in Ep. rewrite E in Ep.
      destruct (BackendIndex.afterParse env cfg parsed _) as [[o t2] st2] eqn:Ea.
      injection Ep as Hr _ _.
      destruct o as [b|e]; [|subst reply; discriminate].
      subst b.
      assert (Hv : valueOf (BackendIndex.afterParse env cfg parsed
                              {| mermaidInitialized := mermaidInitialized st;
                                 world := snd (responses_create env
                                   (mainRequest cfg SYSTEM_PROMPT
                                      (BackendIndex.buildPrompt (originalname f) (content f)))
                                   (world st)) |}) = Ret reply)
        by (now rewrite Ea).
      destruct (backend_afterParse_success parsed _ reply Hv Hs)
        as (text & ds & Hm & Hne & Hds & Hall).
      now exists f, parsed, text, ds.
    + destruct (backend_analyze_unparsed f st Hkey Hparse) as (reply' & Hv & Hne).
      rewrite E in Hv. injection Hv as <-. contradiction.
  - destruct (part000_analyze_run file st) as (reply' & tr & st' & E & _ & Hcalls).
    rewrite E in Hv. injection Hv as ->.
    destruct file as [f|]; [|destruct Hcalls as (_ & _ & ->);
                              destruct (hasApiKey cfg); discriminate].
    destruct (hasApiKey cfg) eqn:Hkey; [|destruct Hcalls as (_ & _ & ->); discriminate].
    destruct (answeredParse env
                (fst (responses_create env
                        (mainRequest cfg SYSTEM_PROMPT
                           (Part000.buildPrompt (originalname f) (content f)))
                        (world st)))) as [parsed|] eqn:Hparse.
    + pose proof (part000_analyze_parsed f st parsed Hkey Hparse) as Ep.
      cbv zeta in Ep. rewrite E in Ep.
      destruct (Part000.afterParse env cfg parsed _) as [[o t2] st2] eqn:Ea.
      injection Ep as Hr _ _.
      destruct o as [b|e]; [|subst reply; discriminate].
      subst b.
      assert (Hv : valueOf (Part000.afterParse env cfg parsed
                              {| mermaidInitialized := mermaidInitialized st;
                                 world := snd (responses_create env
                                   (mainRequest cfg SYSTEM_PROMPT
                                      (Part000.buildPrompt (originalname f) (content f)))
                                   (world st)) |}) = Ret reply)
        by (now rewrite Ea).
      destruct (part000_afterParse_success parsed _ reply Hv Hs)
        as (text & Hm & Hne & Hall).
      now exists f, parsed, text.
    + destruct (part000_analyze_unparsed f st Hkey Hparse) as (reply' & Hv & Hne).
      rewrite E in Hv. injection Hv as <-. contradiction.
Qed.

End HandlerFacts.

(* ================================================================== *)
(** * The frontend *)
(* ================================================================== *)


Lemma carried_payload (r : fetched) (reply : response) :
  carries r reply ->
  exists payload,
    f_json r = Ret payload /\
    (forall k, Js.getProp payload k = Ret (Js.getPropOpt (body reply) k)) /\
    (forall k, Js.getPropOpt payload k = Js.getPropOpt (body reply) k).
Proof.
  intros [_ (payload & Hj & Hp & Hk)]. exists payload.
  split; [exact Hj|]. split; [|exact Hk].
  intros k. rewrite (getProp_present _ k Hp). now rewrite Hk.
Qed.

(** What the two revisions of the frontend show for a well-formed reply. *)
Lemma shows_wellFormed (reply : response) (r : fetched) :
  wellFormedReply reply -> carries r reply ->
  (status reply = 200%nat /\
   exists markdown,
     body reply = JObj [("markdown", JStr markdown)] /\
     Frontend.requestAnalysis (Ret r) =
       (if isEmpty markdown
        then Throw (newError "The analyst returned an empty dossier.")
        else Ret (JStr markdown)) /\
     Part001.requestAnalysis (Ret r) = Frontend.requestAnalysis (Ret r)) \/
  (status reply <> 200%nat /\
   exists message,
     Js.getPropOpt (body reply) "error" = JStr message /\ message <> "" /\
     Frontend.requestAnalysis (Ret r) = Throw (newError message) /\
     Part001.requestAnalysis (Ret r) = Throw (newError Frontend.unreachable)).
Proof.
  intros Hwf Hc. destruct (carried_payload r reply Hc) as (payload & Hj & Hg & Hk).
  destruct Hc as [Hok _].
  unfold Frontend.requestAnalysis, Part001.requestAnalysis, Frontend.errorMessageOf.
  destruct Hwf as [(Hs & md & Hb) | (Hs & msg & rest & Hb & Hne)].
  - left. split; [exact Hs|]. exists md. split; [exact Hb|].
    rewrite Hs in Hok. simpl in Hok. simpl. rewrite Hok, Hj. simpl.
    rewrite Hk, Hb. simpl. destruct md; split; reflexivity.
  - right. split; [destruct Hs as [-> | [-> | ->]]; discriminate|].
    exists msg. split; [now rewrite Hb|]. split; [exact Hne|].
    assert (Hno : f_ok r = false).
    { rewrite Hok. destruct Hs as [-> | [-> | ->]]; reflexivity. }
    simpl. rewrite Hno, Hj. simpl. rewrite Hg, Hb. simpl.
    destruct msg; [congruence|]. split; reflexivity.
Qed.

Section EndToEnd.
Context {W : Type} (env : World W) (cfg : config) (SYSTEM_PROMPT : string).

(** X21: the backend and the frontend together.  Whatever the handler
    of [src/unnamed/part_000] replies to a request, a browser that
    receives the reply ends in the ready state with the reply's markdown
    when the status is 200 and the markdown is not empty, in the error
    state with [The analyst returned an empty dossier.] when the status is
    200 and the markdown is empty (a document made of placeholders only),
    and otherwise in the error state with the [error] message of the
    reply ([App.jsx]) or with the fixed message of [src/unnamed/part_001]. *)
Theorem frontend_shows_the_reply
    (file : option upload) (st : state W) (fileName : string) :
  exists reply,
    valueOf (Part000.analyze env cfg SYSTEM_PROMPT file st) = Ret reply /\
    forall r, carries r reply ->
      exists shown shown001,
        Frontend.analyzeFile (Some fileName) (Ret r) = [loadingState fileName; shown] /\
        Part001.analyzeFile (Some fileName) (Ret r) = [loadingState fileName; shown001] /\
        ((status reply = 200%nat /\
          exists markdown,
            body reply = JObj [("markdown", JStr markdown)] /\
            shown001 = shown /\
            shown = if isEmpty markdown
                    then settledState fileName
                           (Throw (newError "The analyst returned an empty dossier."))
                    else settledState fileName (Ret (JStr markdown))) \/
         (status reply <> 200%nat /\
          exists message,
            Js.getPropOpt (body reply) "error" = JStr message /\
            shown = settledState fileName (Throw (newError message)) /\
            shown001 = settledState fileName (Throw (newError Frontend.unreachable)))).
Proof.
  destruct (part000_analyze_run env cfg SYSTEM_PROMPT file st)
    as (reply & tr & st' & E & Hr & _).
  exists reply. split; [now rewrite E|]. intros r Hc.
  assert (Hwf : wellFormedReply reply).
  { destruct Hr as [Hr | [error ->]];
      [now apply plain_wellFormed | apply failure_wellFormed]. }
  unfold Frontend.analyzeFile, Part001.analyzeFile.
  eexists _, _. split; [reflexivity|]. split; [reflexivity|].
  destruct (shows_wellFormed reply r Hwf Hc)
    as [(Hs & md & Hb & HF & HP) | (Hs & msg & Hb & Hne & HF & HP)].
  - left. split; [exact Hs|]. exists md. split; [exact Hb|].
    rewrite HP, HF. split; [reflexivity|]. now destruct (isEmpty md).
  - right. split; [exact Hs|]. exists msg. split; [exact Hb|].
    rewrite HP, HF. split; reflexivity.
Qed.

End EndToEnd.

(* ================================================================== *)
(** * The code renderer of the frontend *)
(* ================================================================== *)






(* ================================================================== *)
(** * The allowed origins *)
(* ================================================================== *)

Lemma splitComma_nonempty (s : string) : splitComma s <> [].
Proof.
  destruct s as [|c s]; simpl; [discriminate|].
  destruct (Ascii.eqb c ","); [discriminate|].
  destruct (splitComma s); discriminate.
Qed.

Lemma join_splitComma (s : string) : join "," (splitComma s) = s.
Proof.
  induction s as [|c s IH]; [reflexivity|].
  cbn [splitComma]. pose proof (splitComma_nonempty s) as Hne.
  destruct (Ascii.eqb c ",") eqn:Ec.
  - apply Ascii.eqb_eq in Ec. subst c.
    destruct (splitComma s) as [|piece pieces]; [congruence|].
    cbn [join]. cbn [join] in IH. now rewrite IH.
  - destruct (splitComma s) as [|piece pieces]; [congruence|].
    destruct pieces as [|piece' pieces]; cbn [join] in *; now rewrite <- IH.
Qed.

Lemma length_splitComma (s : string) :
  length (splitComma s) = S (length (filter isComma (list_ascii_of_string s))).
Proof.
  induction s as [|c s IH]; [reflexivity|].
  cbn [splitComma list_ascii_of_string filter]. unfold isComma at 1.
  pose proof (splitComma_nonempty s) as Hne.
  destruct (Ascii.eqb c ","); simpl; [now rewrite IH|].
  destruct (splitComma s) as [|piece pieces]; [congruence|]. exact IH.
Qed.

Lemma splitComma_pieces (s : string) :
  Forall (fun piece => allChars notComma piece = true) (splitComma s).
Proof.
  induction s as [|c s IH]; [repeat constructor|].
  cbn [splitComma]. destruct (Ascii.eqb c ",") eqn:Ec.
  - constructor; [reflexivity | exact IH].
  - destruct (splitComma s) as [|piece pieces]; [repeat constructor|].
    + simpl. unfold notComma, isComma. now rewrite Ec.
    + inversion IH as [|x l Hx Hl]; subst. constructor; [|exact Hl].
      simpl. unfold notComma at 1, isComma. now rewrite Ec.
Qed.

Lemma allChars_trimStart (p : ascii -> bool) (s : string) :
  allChars p s = true -> allChars p (trimStart s) = true.
Proof.
  induction s as [|c s IH]; [reflexivity|]. simpl.
  intros H. destruct (isWhiteSpace c); [|exact H].
  apply andb_true_iff in H as [_ H]. now apply IH.
Qed.

Lemma allChars_trimEnd (p : ascii -> bool) (s : string) :
  allChars p s = true -> allChars p (trimEnd s) = true.
Proof.
  induction s as [|c s IH]; [reflexivity|]. cbn [trimEnd allChars].
  intros H. apply andb_true_iff in H as [Hc Hs]. specialize (IH Hs).
  destruct (trimEnd s) as [|d t].
  - destruct (isWhiteSpace c); [reflexivity|]. simpl. now rewrite Hc.
  - cbn [allChars] in *. now rewrite Hc, IH.
Qed.

(** X23: the allowed origins are the pieces of [CLIENT_ORIGIN]
    between its commas, each trimmed: one more than there are commas, none
    of them holding a comma or white space at either end, and the pieces
    joined by commas give the variable back.  The default origin is used
    only when the variable is not set: set to the empty string, it gives
    one empty origin. *)
Theorem clientOrigins_are_the_trimmed_pieces (origins : string) :
  join "," (splitComma origins) = origins /\
  length (clientOrigins (Some origins)) =
    S (length (filter isComma (list_ascii_of_string origins))) /\
  Forall (fun origin => trim origin = origin /\ allChars notComma origin = true)
         (clientOrigins (Some origins)) /\
  clientOrigins (Some "") = [""] /\
  clientOrigins None = ["http://localhost:3000"].
Proof.
  split; [apply join_splitComma|].
  split; [unfold clientOrigins; rewrite length_map; apply length_splitComma|].
  split; [|split; reflexivity].
  unfold clientOrigins. apply Forall_map.
  eapply Forall_impl; [|apply splitComma_pieces].
  intros piece H. split; [apply trim_idem|].
  unfold trim. now apply allChars_trimEnd, allChars_trimStart.
Qed.

(* ================================================================== *)
(** * The theme of PlantUML diagrams *)
(* ================================================================== *)

Lemma trimEnd_cons_keep (c : ascii) (s : string) :
  isWhiteSpace c = false -> trimEnd (String c s) = String c (trimEnd s).
Proof.
  intros Hc. cbn [trimEnd]. destruct (trimEnd s); [now rewrite Hc | reflexivity].
Qed.

Lemma trimEnd_app_solid (p s : string) :
  allChars notWhiteSpace p = true -> trimEnd (p ++ s) = p ++ trimEnd s.
Proof.
  induction p as [|c p IH]; intros H; [reflexivity|].
  simpl in H. apply andb_true_iff in H as [Hc Hp].
  change (String c p ++ s) with (String c (p ++ s)).
  rewrite trimEnd_cons_keep by (unfold notWhiteSpace in Hc; now destruct (isWhiteSpace c)).
  now rewrite IH.
Qed.

Lemma trimStart_split (s : string) :
  exists ws, s = ws ++ trimStart s /\ allChars isWhiteSpace ws = true.
Proof.
  induction s as [|c s (ws & Hs & Hws)]; [now exists ""|].
  simpl. destruct (isWhiteSpace c) eqn:Hc.
  - exists (String c ws). simpl. rewrite Hc, Hws. split; [now rewrite <- Hs | reflexivity].
  - now exists "".
Qed.

Lemma trimStart_app_ws (ws z : string) :
  allChars isWhiteSpace ws = true -> trimStart (ws ++ z) = trimStart z.
Proof.
  induction ws as [|c ws IH]; intros H; [reflexivity|].
  simpl in H. apply andb_true_iff in H as [Hc Hws].
  simpl. rewrite Hc. now apply IH.
Qed.

Lemma trimEnd_prefix (u : string) : exists w, u = trimEnd u ++ w.
Proof.
  induction u as [|c u [w Hw]]; [now exists ""|].
  cbn [trimEnd]. destruct (trimEnd u) as [|d t] eqn:E.
  - destruct (isWhiteSpace c).
    + now exists (String c u).
    + exists u. reflexivity.
  - exists w. simpl. simpl in Hw. now rewrite <- Hw.
Qed.

Lemma startsWith_app_r (p a b : string) :
  startsWith p a = true -> startsWith p (a ++ b) = true.
Proof.
  revert a; induction p as [|c p IH]; intros a H; [reflexivity|].
  destruct a as [|d a]; [discriminate|]. simpl in *.
  apply andb_true_iff in H as [Hc Hp]. now rewrite Hc, IH.
Qed.

Lemma includes_occurs (pat a b : string) : includes pat (a ++ pat ++ b) = true.
Proof.
  unfold includes. destruct (splitFirst pat (a ++ pat ++ b)) eqn:E; [reflexivity|].
  pose proof (splitFirst_None _ _ E (String.length a)) as H.
  rewrite drop_append, startsWith_append in H. discriminate.
Qed.

(** What the three branches of [enhancedDefinition] give, for a theme
    that starts with [skinparam] and holds no [$]. *)
Lemma enhance_with (theme definition : string) :
  startsWith "skinparam" theme = true ->
  allChars notDollar theme = true ->
  let enhanced :=
    if includes "skinparam" (trim definition) then definition
    else if startsWith "@startuml" (trim definition)
         then replaceFirst definition "@startuml" ("@startuml" ++ LF ++ theme)
         else theme ++ LF ++ definition in
  includes "skinparam" (trim enhanced) = true /\
  (includes "skinparam" (trim definition) = false ->
   startsWith "@startuml" (trim definition) = true ->
   exists ws rest,
     allChars isWhiteSpace ws = true /\
     definition = ws ++ "@startuml" ++ rest /\
     enhanced = ws ++ "@startuml" ++ LF ++ theme ++ rest).
Proof.
  intros Hstart Hplain enhanced. subst enhanced.
  apply startsWith_split in Hstart. simpl String.length in Hstart.
  set (tail := drop 9 theme) in Hstart.
  destruct (includes "skinparam" (trim definition)) eqn:Hinc.
  { split; [exact Hinc | discriminate]. }
  destruct (startsWith "@startuml" (trim definition)) eqn:Hat.
  - (* after [@startuml] *)
    destruct (trimStart_split definition) as (ws & Hdef & Hws).
    destruct (trimEnd_prefix (trimStart definition)) as [w Hw].
    assert (Hat' : startsWith "@startuml" (trimStart definition) = true).
    { rewrite Hw. apply startsWith_app_r. exact Hat. }
    apply startsWith_split in Hat'. simpl String.length in Hat'.
    set (rest := drop 9 (trimStart definition)) in Hat'.
    assert (Hd : definition = ws ++ "@startuml" ++ rest) by (now rewrite <- Hat').
    assert (Hrepl : replaceFirst definition "@startuml" ("@startuml" ++ LF ++ theme) =
                    ws ++ "@startuml" ++ LF ++ theme ++ rest).
    { assert (Hp : allChars notDollar ("@startuml" ++ LF ++ theme) = true)
        by (rewrite allChars_app; simpl; exact Hplain).
      rewrite Hd at 1. rewrite replaceFirst_skip; [|exact Hp|].
      - rewrite (replaceFirst_here _ _ _ Hp). now rewrite !append_assoc.
      - intros n Hn. rewrite drop_app_le by lia.
        clear - Hws Hn. revert n Hn.
        induction ws as [|c ws IH]; intros n Hn; [simpl in Hn; lia|].
        simpl in Hws. apply andb_true_iff in Hws as [Hc Hws].
        destruct n as [|n].
        + cbn [drop append startsWith].
          destruct (Ascii.eqb "@" c) eqn:E; [|reflexivity].
          apply Ascii.eqb_eq in E. subst c. vm_compute in Hc. discriminate.
        + cbn [drop]. apply (IH Hws). simpl in Hn. lia. }
    split.
    + rewrite Hrepl. unfold trim. rewrite (trimStart_app_ws _ _ Hws).
      change (trimStart ("@startuml" ++ LF ++ theme ++ rest))
        with ("@startuml" ++ LF ++ theme ++ rest).
      rewrite (trimEnd_app_solid "@startuml") by reflexivity.
      rewrite Hstart.
      change (LF ++ ("skinparam" ++ tail) ++ rest)
        with (String "010" (("skinparam" ++ tail) ++ rest)).
      rewrite (append_assoc "skinparam").
      cbn [trimEnd]. rewrite (trimEnd_app_solid "skinparam") by reflexivity.
      change (match "skinparam" ++ trimEnd (tail ++ rest) with
              | "" => if isWhiteSpace "010" then "" else String "010" ""
              | String a s => String "010" (String a s)
              end)
        with (LF ++ "skinparam" ++ trimEnd (tail ++ rest)).
      rewrite <- (append_assoc "@startuml" LF).
      apply includes_occurs.
    + intros _ _. exists ws, rest. split; [exact Hws|]. split; [exact Hd | exact Hrepl].
  - (* in front *)
    split; [|discriminate].
    rewrite Hstart. unfold trim.
    change (trimStart (("skinparam" ++ tail) ++ LF ++ definition))
      with (("skinparam" ++ tail) ++ LF ++ definition).
    rewrite (append_assoc "skinparam").
    rewrite (trimEnd_app_solid "skinparam") by reflexivity.
    apply (includes_occurs "skinparam" "").
Qed.

(** X24: the definition [PlantUmlDiagram] encodes always sets skin
    parameters, and enhancing it again changes nothing.  A definition that
    sets skin parameters itself is encoded as it is; otherwise the theme is
    put in once and nothing of the definition is lost: right after the
    first [@startuml] when the definition starts with it (white space
    aside), else in front of the definition. *)
Theorem theme_is_injected_once (definition : string) :
  let enhanced := Frontend.enhancedDefinition definition in
  includes "skinparam" (trim enhanced) = true /\
  Frontend.enhancedDefinition enhanced = enhanced /\
  (includes "skinparam" (trim definition) = true -> enhanced = definition) /\
  (includes "skinparam" (trim definition) = false ->
   if startsWith "@startuml" (trim definition)
   then exists ws rest,
          allChars isWhiteSpace ws = true /\
          definition = ws ++ "@startuml" ++ rest /\
          enhanced = ws ++ "@startuml" ++ LF ++ Frontend.themeParams ++ rest
   else enhanced = Frontend.themeParams ++ LF ++ definition).
Proof.
  intros enhanced.
  destruct (enhance_with Frontend.themeParams definition eq_refl eq_refl) as [Hinc Hat].
  fold (Frontend.enhancedDefinition definition) in Hinc, Hat. fold enhanced in Hinc, Hat.
  split; [exact Hinc|]. split.
  - unfold Frontend.enhancedDefinition at 1. cbv zeta. now rewrite Hinc.
  - split.
    + intros H. unfold enhanced, Frontend.enhancedDefinition. cbv zeta. now rewrite H.
    + intros H. destruct (startsWith "@startuml" (trim definition)) eqn:E.
      * now apply Hat.
      * unfold enhanced, Frontend.enhancedDefinition. cbv zeta. now rewrite H, E.
Qed.

(* ================================================================== *)
(** * Witnesses of the further properties *)
(* ================================================================== *)

Lemma result_reports_last_validation_witness :
  Js.present Examples.flowEntry = true /\
  knownKind (Js.getPropOpt Examples.flowEntry "type") = true /\
  exists r tr v,
    valueOf (fixDiagram Examples.offlineWorld "gpt-5.1" 2 0 Examples.flowEntry
               Examples.start) = Ret r /\
    traceOf (fixDiagram Examples.offlineWorld "gpt-5.1" 2 0 Examples.flowEntry
               Examples.start) = tr /\
    lastValidation tr = Some (res_code r, v) /\
    res_valid r = valid v.
Proof.
  split; [reflexivity|]. split; [reflexivity|].
  destruct (result_reports_last_validation Examples.offlineWorld "gpt-5.1"
              Examples.flowEntry 2 0 Examples.start eq_refl eq_refl)
    as (r & tr & st' & v & E & Hlast & Hv & _).
  exists r, tr, v. rewrite E. repeat split; assumption.
Defined.




Lemma null_entry_fails_the_request_witness :
  let env := Examples.answeringWorld "markdown: intro, diagrams: two" Examples.answerWithNull in
  hasApiKey Examples.cfg = true /\
  Js.truthy (Js.getPropOpt Examples.answerWithNull "markdown") = true /\
  Js.getPropOpt Examples.answerWithNull "diagrams" = JArr [Examples.otherEntry; JNull] /\
  forallb Js.present [Examples.otherEntry; JNull] = false /\
  valueOf (BackendIndex.analyze env Examples.cfg "You are Syntra."
             (Some Examples.sourceFile) Examples.start) =
    Ret (errorResponse 500 "Failed to process code file.").
Proof.
  cbv zeta.
  split; [reflexivity|]. split; [reflexivity|]. split; [reflexivity|].
  split; [reflexivity|].
  exact (proj1 (null_entry_fails_the_request
                  (Examples.answeringWorld "markdown: intro, diagrams: two"
                     Examples.answerWithNull)
                  Examples.cfg "You are Syntra." Examples.sourceFile Examples.start
                  Examples.answerWithNull [Examples.otherEntry; JNull]
                  eq_refl eq_refl eq_refl eq_refl) eq_refl).
Defined.

Lemma repaired_texts_are_validated_next_witness :
  Js.present Examples.flowEntry = true /\
  knownKind (Js.getPropOpt Examples.flowEntry "type") = true /\
  exists r tr,
    valueOf (fixDiagram (Examples.stubbornWorld Examples.fenced) "gpt-5.1" 2 0
               Examples.flowEntry Examples.start) = Ret r /\
    traceOf (fixDiagram (Examples.stubbornWorld Examples.fenced) "gpt-5.1" 2 0
               Examples.flowEntry Examples.start) = tr /\
    validatedTexts tr = JStr "graph TD; A-->" :: fixedCodesOf tr /\
    res_code r = last (fixedCodesOf tr) (JStr "graph TD; A-->").
Proof.
  split; [reflexivity|]. split; [reflexivity|].
  destruct (repaired_texts_are_validated_next (Examples.stubbornWorld Examples.fenced)
              "gpt-5.1" Examples.flowEntry 2 0 Examples.start eq_refl eq_refl)
    as (r & tr & st' & E & Hchain & Hlast & _).
  exists r, tr. rewrite E. repeat split; assumption.
Defined.



Lemma success_requires_a_usable_answer_witness :
  let env := Examples.answeringWorld "markdown: intro, diagrams: one" Examples.goodAnswer in
  let reply :=
    {| status := 200;
       body := JObj [("markdown",
                      JStr ("intro ```mermaid" ++ LF ++ "graph TD; A-->B" ++ LF ++
                            "``` outro"))] |} in
  status reply = 200%nat /\
  valueOf (Part000.analyze env Examples.cfg "You are Syntra."
             (Some Examples.sourceFile) Examples.start) = Ret reply /\
  exists parsed markdown,
    answeredParse env
      (fst (responses_create env
              (mainRequest Examples.cfg "You are Syntra."
                 (Part000.buildPrompt "main.py" "print(1)")) tt)) = Some parsed /\
    Js.getPropOpt parsed "markdown" = JStr markdown /\ markdown <> "".
Proof.
  cbv zeta. split; [reflexivity|]. split; [reflexivity|].
  destruct (proj2 (success_requires_a_usable_answer
                     (Examples.answeringWorld "markdown: intro, diagrams: one"
                        Examples.goodAnswer)
                     Examples.cfg "You are Syntra." (Some Examples.sourceFile)
                     Examples.start
                     {| status := 200;
                        body := JObj [("markdown",
                                       JStr ("intro ```mermaid" ++ LF ++
                                             "graph TD; A-->B" ++ LF ++ "``` outro"))] |}
                     eq_refl) eq_refl)
    as (f & parsed & markdown & Hf & _ & Hparse & Hm & Hne & _).
  injection Hf as <-. exists parsed, markdown. repeat split; assumption.
Defined.

(** A document made of a placeholder only, without a diagram for it: the
    backend replies 200 with an empty markdown, which the frontend shows
    as an error. *)
Example placeholder_only_document :
  valueOf (Part000.afterParse Examples.friendlyWorld Examples.cfg
             (JObj [("markdown", JStr "{{DIAGRAM_0}}")]) Examples.start) =
    Ret {| status := 200; body := JObj [("markdown", JStr "")] |} /\
  Frontend.analyzeFile (Some "main.py")
    (Ret {| f_ok := true;
            f_json := Ret (JObj [("markdown", JStr "")]);
            f_text := Ret "" |}) =
    [ loadingState "main.py";
      {| st_status := Failed; st_markdown := JStr ""; st_fileName := "main.py";
         st_error := "The analyst returned an empty dossier." |} ].
Proof. split; reflexivity. Qed.

Lemma assembly_ignores_the_verdicts_witness :
  let failed :=
    {| res_type := JStr "mermaid"; res_code := JStr "graph TD; A-->B";
       res_originalPosition := JNum 0; res_valid := false;
       res_error := Some "Parse error on line 1" |} in
  Forall2 (fun d d' =>
             res_type d = res_type d' /\ res_code d = res_code d' /\
             res_originalPosition d = res_originalPosition d')
          [failed] [Examples.flowA] /\
  assemble "see {{DIAGRAM_0}}" [failed] = assemble "see {{DIAGRAM_0}}" [Examples.flowA].
Proof.
  cbv zeta.
  assert (H : Forall2 (fun d d' =>
                         res_type d = res_type d' /\ res_code d = res_code d' /\
                         res_originalPosition d = res_originalPosition d')
                [ {| res_type := JStr "mermaid"; res_code := JStr "graph TD; A-->B";
                     res_originalPosition := JNum 0; res_valid := false;
                     res_error := Some "Parse error on line 1" |} ]
                [Examples.flowA])
    by (repeat constructor).
  split; [exact H|].
  exact (assembly_ignores_the_verdicts "see {{DIAGRAM_0}}" _ _ H).
Defined.
